(** * Chatbot Enhancer: a shallow embedding of the content script

    The extension is a set of imperative DOM routines.  This development
    embeds the routines of [utils/domUtils.js], [features/syntaxHighlighter.js],
    [features/themeManager.js], [features/commandBar.js],
    [features/sessionRecorder.js] and [content/content.js] as functions over
    an explicit document tree and explicit module state, and states the
    properties of the specification over them.

    Conventions.
    - A JavaScript string is a [string] that holds the UTF-8 encoding of its
      text, the form a string literal of this file has.  A routine that
      looks at characters ([trim], the serialiser) reads code points from
      those bytes.
    - [log(...)] only writes to the console and is left out.
    - A DOM node carries a [uid] standing for its object identity: two
      references denote the same node iff the uids agree.
    - Module-level [let] variables become fields of a state record that every
      routine takes and returns.
    - An exception is an explicit outcome; [try]/[catch] is a match on it.
    - [await] on a collaborator (consent dialog, settings channel) is the
      collaborator's answer passed in as an argument. *)

From Stdlib Require Import String Ascii List Bool Arith ZArith Lia.
Import ListNotations.
Set Warnings "-register-all".
Local Open Scope string_scope.
Local Open Scope nat_scope.
Local Open Scope list_scope.

(** ** JavaScript string helpers *)

Module Js.

(** [s.startsWith(p)] *)
Definition startsWith (s p : string) : bool := String.prefix p s.

(** [s.includes(p)] *)
Definition includes (s p : string) : bool :=
  match String.index 0 p s with Some _ => true | None => false end.

(** [s.replace(pat, rep)] with a string pattern: the first occurrence only. *)
Definition replace (s pat rep : string) : string :=
  match String.index 0 pat s with
  | Some i =>
      String.append (String.substring 0 i s)
        (String.append rep
           (String.substring (i + String.length pat)
              (String.length s - (i + String.length pat)) s))
  | None => s
  end.

(** White space as [String.prototype.trim] sees it: the code points of
    WhiteSpace and LineTerminator in ECMA-262, which are U+0009 to U+000D,
    U+0020, U+00A0, U+1680, U+2000 to U+200A, U+2028, U+2029, U+202F,
    U+205F, U+3000 and U+FEFF.  In UTF-8 each takes one, two or three
    bytes. *)

(** TAB, LF, VT, FF, CR and SPACE. *)
Definition isWhiteSpace1 (a : ascii) : bool :=
  let n := nat_of_ascii a in
  ((9 <=? n) && (n <=? 13)) || (n =? 32).

(** U+00A0 is C2 A0. *)
Definition isWhiteSpace2 (a b : ascii) : bool :=
  (nat_of_ascii a =? 194) && (nat_of_ascii b =? 160).

(** U+1680 is E1 9A 80; U+2000 to U+200A are E2 80 80 to E2 80 8A; U+2028,
    U+2029 and U+202F are E2 80 A8, E2 80 A9 and E2 80 AF; U+205F is
    E2 81 9F; U+3000 is E3 80 80; U+FEFF is EF BB BF. *)
Definition isWhiteSpace3 (a b c : ascii) : bool :=
  let x := nat_of_ascii a in
  let y := nat_of_ascii b in
  let z := nat_of_ascii c in
  ((x =? 225) && (y =? 154) && (z =? 128))
  || ((x =? 226) && (y =? 128)
      && (((128 <=? z) && (z <=? 138)) || (z =? 168) || (z =? 169) || (z =? 175)))
  || ((x =? 226) && (y =? 129) && (z =? 159))
  || ((x =? 227) && (y =? 128) && (z =? 128))
  || ((x =? 239) && (y =? 187) && (z =? 191)).

(** [s.trimStart()]: the white-space code points at the head are dropped. *)
Fixpoint trimStart (s : string) : string :=
  match s with
  | EmptyString => EmptyString
  | String a r1 =>
      if isWhiteSpace1 a then trimStart r1
      else
        match r1 with
        | EmptyString => s
        | String b r2 =>
            if isWhiteSpace2 a b then trimStart r2
            else
              match r2 with
              | EmptyString => s
              | String c r3 => if isWhiteSpace3 a b c then trimStart r3 else s
              end
        end
  end.

(** Every code point is white space. *)
Fixpoint allWhiteSpace (s : string) : bool :=
  match s with
  | EmptyString => true
  | String a r1 =>
      if isWhiteSpace1 a then allWhiteSpace r1
      else
        match r1 with
        | EmptyString => false
        | String b r2 =>
            if isWhiteSpace2 a b then allWhiteSpace r2
            else
              match r2 with
              | EmptyString => false
              | String c r3 => isWhiteSpace3 a b c && allWhiteSpace r3
              end
        end
  end.

(** [s.trimEnd()]: the longest tail of white-space code points is dropped. *)
Fixpoint trimEnd (s : string) : string :=
  match s with
  | EmptyString => EmptyString
  | String c r => if allWhiteSpace s then EmptyString else String c (trimEnd r)
  end.

Definition trim (s : string) : string := trimEnd (trimStart s).

(** Truthiness of a string: non-empty. *)
Definition truthy (s : string) : bool :=
  match s with EmptyString => false | _ => true end.

End Js.

(** ** The document tree *)

Module Dom.

(** A node is a text node, a comment, or an element with its identity, its
    upper-case [tagName], its class list, its other attributes and its
    children in document order. *)
Inductive node : Type :=
| Text (data : string)
| Comment (data : string)
| Element (uid : nat) (tagName : string) (classList : list string)
          (attributes : list (string * string)) (childNodes : list node).

(** [node.nodeType === Node.ELEMENT_NODE] *)
Definition isElement (n : node) : bool :=
  match n with Element _ _ _ _ _ => true | _ => false end.

Definition uidOf (n : node) : option nat :=
  match n with Element u _ _ _ _ => Some u | _ => None end.

Definition tagNameOf (n : node) : string :=
  match n with Element _ t _ _ _ => t | _ => "" end.

Definition classesOf (n : node) : list string :=
  match n with Element _ _ c _ _ => c | _ => [] end.

Definition attributesOf (n : node) : list (string * string) :=
  match n with Element _ _ _ a _ => a | _ => [] end.

Definition childrenOf (n : node) : list node :=
  match n with Element _ _ _ _ k => k | _ => [] end.

(** [classList.contains(c)] *)
Definition contains (cl : list string) (c : string) : bool :=
  existsb (String.eqb c) cl.

(** [classList.add(c)] for a valid token: a token list holds no
    duplicates. *)
Definition classAdd (cl : list string) (c : string) : list string :=
  if contains cl c then cl else cl ++ [c].

(** ASCII white space as the DOM defines it: TAB, LF, FF, CR and SPACE. *)
Definition isAsciiWhiteSpace (c : ascii) : bool :=
  let n := nat_of_ascii c in
  Nat.eqb n 9 || Nat.eqb n 10 || Nat.eqb n 12 || Nat.eqb n 13 || Nat.eqb n 32.

Fixpoint hasAsciiWhiteSpace (s : string) : bool :=
  match s with
  | EmptyString => false
  | String c r => isAsciiWhiteSpace c || hasAsciiWhiteSpace r
  end.

(** A token that [classList.add] accepts; it throws on the empty string
    and on a string with ASCII white space in it. *)
Definition validToken (c : string) : bool :=
  Js.truthy c && negb (hasAsciiWhiteSpace c).

(** [classList.remove(c1, ..., cn)] *)
Definition classRemove (cl : list string) (cs : list string) : list string :=
  filter (fun c => negb (contains cs c)) cl.

(** [el.getAttribute(a)]; [None] is JavaScript's [null]. *)
Fixpoint getAttribute (attrs : list (string * string)) (a : string) : option string :=
  match attrs with
  | [] => None
  | (k, v) :: r => if String.eqb k a then Some v else getAttribute r a
  end.

(** [el.hasAttribute(a)] *)
Definition hasAttribute (attrs : list (string * string)) (a : string) : bool :=
  match getAttribute attrs a with Some _ => true | None => false end.

(** [node.textContent]: the text of all descendant text nodes, in order. *)
Fixpoint textContent (n : node) : string :=
  match n with
  | Text d => d
  | Comment _ => ""
  | Element _ _ _ _ k =>
      fold_right (fun c acc => String.append (textContent c) acc) "" k
  end.

(** *** Selectors

    The selectors of the source are compound selectors joined by the
    descendant combinator.  [".markdown code"] is
    [[ [SelClass "markdown"]; [SelTag "CODE"] ]]: a type selector is kept in
    the upper case of the [tagName] it is compared with. *)
Inductive simple : Type :=
| SelTag (t : string)
| SelClass (c : string)
| SelHasAttr (a : string)
| SelAttrEq (a v : string).

Definition compound := list simple.
Definition selector := list compound.

Definition matchesSimple (n : node) (s : simple) : bool :=
  match n with
  | Element _ t cl at_ _ =>
      match s with
      | SelTag t' => String.eqb t t'
      | SelClass c => contains cl c
      | SelHasAttr a => hasAttribute at_ a
      | SelAttrEq a v =>
          match getAttribute at_ a with
          | Some v' => String.eqb v' v
          | None => false
          end
      end
  | _ => false
  end.

Definition matchesCompound (n : node) (c : compound) : bool :=
  isElement n && forallb (matchesSimple n) c.

(** The ancestors of a candidate, nearest first, against the compounds that
    remain to its left, nearest first. *)
Fixpoint matchesAncestors (ancestors : list node) (rest : list compound) : bool :=
  match rest with
  | [] => true
  | c :: rest' =>
      match ancestors with
      | [] => false
      | a :: ancestors' =>
          if matchesCompound a c
          then matchesAncestors ancestors' rest'
          else matchesAncestors ancestors' rest
      end
  end.

Definition matchesSelector (ancestors : list node) (n : node) (sel : selector) : bool :=
  match rev sel with
  | [] => false
  | c :: rest => matchesCompound n c && matchesAncestors ancestors rest
  end.

(** The elements of the subtree of [n] ([n] included) that match [sel], in
    document order; [ancestors] are the ancestors of [n], nearest first. *)
Fixpoint selectFrom (sel : selector) (ancestors : list node) (n : node) : list node :=
  match n with
  | Element _ _ _ _ k =>
      (if matchesSelector ancestors n sel then [n] else [])
      ++ flat_map (selectFrom sel (n :: ancestors)) k
  | _ => []
  end.

(** [document.querySelectorAll(sel)], the document being the tree under
    [root]. *)
Definition querySelectorAll (root : node) (sel : selector) : list node :=
  selectFrom sel [] root.

(** [document.querySelector(sel)] *)
Definition querySelector (root : node) (sel : selector) : option node :=
  hd_error (querySelectorAll root sel).

(** [el.querySelector(c)] for a compound selector [c]: the first proper
    descendant of [el] that matches. *)
Definition elementQuerySelector (el : node) (c : compound) : option node :=
  hd_error (flat_map (selectFrom [c] []) (childrenOf el)).

(** *** Nodes by identity

    A reference held by a script (a [NodeList] entry, a module variable, a
    closure) is the uid of the node.  A page is the tree under
    [document.documentElement], the subtrees that were removed from it while
    references to them may still be held, and the next unused uid. *)

Definition hasUid (u : nat) (n : node) : bool :=
  match n with Element u' _ _ _ _ => u' =? u | _ => false end.

Fixpoint findNode (u : nat) (n : node) : option node :=
  match n with
  | Element u' _ _ _ k =>
      if u' =? u then Some n
      else
        (fix go (l : list node) : option node :=
           match l with
           | [] => None
           | x :: r =>
               match findNode u x with Some y => Some y | None => go r end
           end) k
  | _ => None
  end.

(** The element whose children hold the node [u]. *)
Fixpoint findParent (u : nat) (n : node) : option node :=
  match n with
  | Element _ _ _ _ k =>
      if existsb (hasUid u) k then Some n
      else
        (fix go (l : list node) : option node :=
           match l with
           | [] => None
           | x :: r =>
               match findParent u x with Some y => Some y | None => go r end
           end) k
  | _ => None
  end.

Fixpoint updateNode (u : nat) (f : node -> node) (n : node) : node :=
  match n with
  | Element u' t c a k =>
      if u' =? u then f n else Element u' t c a (map (updateNode u f) k)
  | _ => n
  end.

Fixpoint firstSome {A B : Type} (f : A -> option B) (l : list A) : option B :=
  match l with
  | [] => None
  | x :: r => match f x with Some y => Some y | None => firstSome f r end
  end.

Record page : Type := mkPage {
  document : node;
  detached : list node;
  nextUid : nat
}.

(** Dereferencing the reference [u]. *)
Definition getNode (pg : page) (u : nat) : option node :=
  firstSome (findNode u) (document pg :: detached pg).

(** [node.parentElement]; [None] is [null]: the root of the document and the
    root of a removed subtree have none. *)
Definition parentElement (pg : page) (u : nat) : option node :=
  firstSome (findParent u) (document pg :: detached pg).

Definition updatePage (pg : page) (u : nat) (f : node -> node) : page :=
  {| document := updateNode u f (document pg);
     detached := map (updateNode u f) (detached pg);
     nextUid := nextUid pg |}.

Definition withClasses (f : list string -> list string) (n : node) : node :=
  match n with
  | Element u t c a k => Element u t (f c) a k
  | _ => n
  end.

Definition withChildren (f : list node -> list node) (n : node) : node :=
  match n with
  | Element u t c a k => Element u t c a (f k)
  | _ => n
  end.

(** The children that [el.textContent = s] leaves. *)
Definition textChildren (s : string) : list node :=
  match s with EmptyString => [] | _ => [Text s] end.

(** Fresh identities for a parsed fragment, in document order. *)
Fixpoint relabel (next : nat) (n : node) : node * nat :=
  match n with
  | Element _ t c a k =>
      let '(k', next') :=
        (fix go (l : list node) (nx : nat) : list node * nat :=
           match l with
           | [] => ([], nx)
           | x :: r =>
               let '(x', n1) := relabel nx x in
               let '(r', n2) := go r n1 in
               (x' :: r', n2)
           end) k (S next) in
      (Element next t c a k', next')
  | _ => (n, next)
  end.

Fixpoint relabelList (next : nat) (l : list node) : list node * nat :=
  match l with
  | [] => ([], next)
  | x :: r =>
      let '(x', n1) := relabel next x in
      let '(r', n2) := relabelList n1 r in
      (x' :: r', n2)
  end.

(** [el.classList.add(c)] on the node [u]. *)
Definition addClass (pg : page) (u : nat) (c : string) : page :=
  updatePage pg u (withClasses (fun cl => classAdd cl c)).

(** [el.classList.remove(c)] on the node [u]. *)
Definition removeClass (pg : page) (u : nat) (c : string) : page :=
  updatePage pg u (withClasses (fun cl => classRemove cl [c])).

(** [el.textContent = s] on the node [u]; the children it replaces stay
    reachable through the references that held them. *)
Definition setTextContent (pg : page) (u : nat) (s : string) : page :=
  match getNode pg u with
  | None => pg
  | Some old =>
      let pg' := updatePage pg u (withChildren (fun _ => textChildren s)) in
      {| document := document pg';
         detached := detached pg' ++ filter isElement (childrenOf old);
         nextUid := nextUid pg' |}
  end.

(** [parent.appendChild(child)] for a freshly created [child]. *)
Definition appendChild (pg : page) (parent : nat) (child : node) : page :=
  updatePage pg parent (withChildren (fun k => k ++ [child])).

(** *** Serialisation

    A plain rendering of the HTML fragment serialisation algorithm, for the
    runs that are evaluated below; the routines themselves take the
    browser's [innerHTML] as given. *)

Definition lowerChar (c : ascii) : ascii :=
  let n := nat_of_ascii c in
  if (65 <=? n) && (n <=? 90) then ascii_of_nat (n + 32) else c.

Fixpoint toLowerCase (s : string) : string :=
  match s with
  | EmptyString => EmptyString
  | String c r => String (lowerChar c) (toLowerCase r)
  end.

Definition quote : string := String (ascii_of_nat 34) EmptyString.

(** Escaping in text: [&], [<], [>] and U+00A0, which is C2 A0. *)
Fixpoint escapeText (s : string) : string :=
  match s with
  | EmptyString => EmptyString
  | String c r =>
      let n := nat_of_ascii c in
      match r with
      | String d r' =>
          if (n =? 194) && (nat_of_ascii d =? 160)
          then String.append "&nbsp;" (escapeText r')
          else
            String.append
              (if n =? 38 then "&amp;"
               else if n =? 60 then "&lt;"
               else if n =? 62 then "&gt;"
               else String c EmptyString)
              (escapeText r)
      | EmptyString =>
          if n =? 38 then "&amp;"
          else if n =? 60 then "&lt;"
          else if n =? 62 then "&gt;"
          else String c EmptyString
      end
  end.

(** Escaping in an attribute value: [&], the double quote and U+00A0. *)
Fixpoint escapeAttribute (s : string) : string :=
  match s with
  | EmptyString => EmptyString
  | String c r =>
      let n := nat_of_ascii c in
      match r with
      | String d r' =>
          if (n =? 194) && (nat_of_ascii d =? 160)
          then String.append "&nbsp;" (escapeAttribute r')
          else
            String.append
              (if n =? 38 then "&amp;"
               else if n =? 34 then "&quot;"
               else String c EmptyString)
              (escapeAttribute r)
      | EmptyString =>
          if n =? 38 then "&amp;"
          else if n =? 34 then "&quot;"
          else String c EmptyString
      end
  end.

Definition serializeAttribute (kv : string * string) : string :=
  String.append " "
    (String.append (fst kv)
       (String.append "="
          (String.append quote (String.append (escapeAttribute (snd kv)) quote)))).

Definition isVoid (tag : string) : bool :=
  existsb (String.eqb tag)
    ["AREA"; "BASE"; "BR"; "COL"; "EMBED"; "HR"; "IMG"; "INPUT"; "LINK";
     "META"; "SOURCE"; "TRACK"; "WBR"].

Fixpoint serialize (n : node) : string :=
  match n with
  | Text d => escapeText d
  | Comment d => String.append "<!--" (String.append d "-->")
  | Element _ t cl attrs k =>
      let open :=
        String.append "<"
          (String.append (toLowerCase t)
             (String.append
                (match cl with
                 | [] => ""
                 | _ => serializeAttribute ("class", String.concat " " cl)
                 end)
                (String.append (String.concat "" (map serializeAttribute attrs)) ">"))) in
      if isVoid t then open
      else
        String.append open
          (String.append
             (fold_right (fun c acc => String.append (serialize c) acc) "" k)
             (String.append "</" (String.append (toLowerCase t) ">")))
  end.

(** [el.innerHTML] under that rendering. *)
Definition serializeChildren (n : node) : string :=
  fold_right (fun c acc => String.append (serialize c) acc) "" (childrenOf n).

(** The elements of the subtree of [n], [n] first, in document order. *)
Fixpoint elements (n : node) : list node :=
  match n with
  | Element _ _ _ _ k => n :: flat_map elements k
  | _ => []
  end.

(** The elements of a page: those of the document and those of the
    subtrees removed from it. *)
Definition pageElements (pg : page) : list node :=
  flat_map elements (document pg :: detached pg).

(** An element that holds text and comments only. *)
Definition textOnly (n : node) : bool :=
  forallb (fun c => negb (isElement c)) (childrenOf n).

(** On the page the identity [v] belongs to the node [n] and to no other:
    every reference [v] denotes [n]. *)
Definition denotes (pg : page) (v : nat) (n : node) : Prop :=
  forall m, In m (pageElements pg) -> uidOf m = Some v -> m = n.

(** [n'] is [n] with, at most, more classes and other children: a compound
    selector that matches [n] matches [n']. *)
Definition grown (n n' : node) : Prop :=
  isElement n' = isElement n
  /\ tagNameOf n' = tagNameOf n
  /\ attributesOf n' = attributesOf n
  /\ forall c, contains (classesOf n) c = true -> contains (classesOf n') c = true.

(** [document.body]: the [BODY] child of the document element. *)
Definition documentBody (pg : page) : option node :=
  find (fun c => String.eqb (tagNameOf c) "BODY") (childrenOf (document pg)).

End Dom.

(** ** Control flow: exceptions and [forEach] *)

Module Control.

(** How a statement ends: normally, or by an exception that is still
    propagating; either way with the state reached so far. *)
Inductive outcome (S : Type) : Type :=
| Normal (s : S)
| Throw (s : S).
Arguments Normal {S} s.
Arguments Throw {S} s.

(** The state a [try { ... } catch { log }] block leaves. *)
Definition caught {S : Type} (o : outcome S) : S :=
  match o with Normal s => s | Throw s => s end.

(** [list.forEach(f)]: an exception thrown by [f] ends the loop. *)
Fixpoint forEach {A S : Type} (f : S -> A -> outcome S) (l : list A) (s : S)
  : outcome S :=
  match l with
  | [] => Normal s
  | x :: r =>
      match f s x with
      | Normal s' => forEach f r s'
      | Throw s' => Throw s'
      end
  end.

End Control.

(** ** [utils/domUtils.js] *)

Module DomUtils.
Import Dom.

(** [detectChatbotPlatform()]: the page address first, then the DOM
    fingerprints; [None] is [null]. *)
Definition detectChatbotPlatform (url : string) (document : node) : option string :=
  if Js.includes url "chat.openai.com" then Some "chatgpt"
  else if Js.includes url "mistral.ai" then Some "mistral"
  else
    match querySelector document [[SelClass "markdown"]] with
    | Some _ => Some "chatgpt"
    | None =>
        match querySelector document [[SelClass "chat-message"]] with
        | Some _ => Some "mistral"
        | None => None
        end
    end.

(** A [MutationRecord], with the fields the observers read. *)
Inductive mutationType : Type := childList | attributesChange | characterData.

Record MutationRecord : Type := mkMutation {
  mtype : mutationType;
  addedNodes : list node;
  removedNodes : list node
}.

Definition isChildList (m : MutationRecord) : bool :=
  match mtype m with childList => true | _ => false end.

(** The test of lines 47-51 on one added node, after the [nodeType] test of
    line 45. *)
Definition relevantNode (platform : string) (n : node) : bool :=
  isElement n &&
  ((String.eqb platform "chatgpt" &&
    (contains (classesOf n) "markdown"
     || hasAttribute (attributesOf n) "data-message-author-role"))
   || (String.eqb platform "mistral" && contains (classesOf n) "chat-message")).

(** The inner [forEach] over [mutation.addedNodes], threading the flag. *)
Definition scanAddedNodes (platform : string) (shouldCallback : bool)
    (nodes : list node) : bool :=
  fold_left (fun flag n => if relevantNode platform n then true else flag)
    nodes shouldCallback.

(** The outer [forEach] over the batch, from [shouldCallback = false]. *)
Definition scanMutations (platform : string) (mutations : list MutationRecord) : bool :=
  fold_left
    (fun flag m =>
       if isChildList m && (0 <? List.length (addedNodes m))
       then scanAddedNodes platform flag (addedNodes m)
       else flag)
    mutations false.

(** The function handed to [new MutationObserver] by [observeDOMChanges]:
    what one delivered batch does to the state [S] the callback acts on. *)
Definition observerCallback {S : Type} (platform : string) (callback : S -> S)
    (mutations : list MutationRecord) (s : S) : S :=
  if scanMutations platform mutations then callback s else s.

(** The number of times the callback runs for one batch: the observer run
    with a callback that counts its own invocations. *)
Definition callbackInvocations (platform : string)
    (mutations : list MutationRecord) : nat :=
  observerCallback platform S mutations 0.

(** The specification's wording: a qualifying node is a newly added element that,
    on chatgpt, carries the [markdown] class or a
    [data-message-author-role] attribute and, on mistral, carries the
    [chat-message] class. *)
Definition qualifies (platform : string) (n : node) : bool :=
  match n with
  | Element _ _ cl attrs _ =>
      if String.eqb platform "chatgpt"
      then contains cl "markdown" || hasAttribute attrs "data-message-author-role"
      else if String.eqb platform "mistral"
      then contains cl "chat-message"
      else false
  | _ => false
  end.

(** The nodes a batch adds: the added nodes of its child-list records. *)
Definition addedInBatch (mutations : list MutationRecord) : list node :=
  flat_map (fun m => if isChildList m then addedNodes m else []) mutations.

(** N: how many qualifying nodes the batch adds. *)
Definition qualifyingCount (platform : string) (mutations : list MutationRecord) : nat :=
  List.length (filter (qualifies platform) (addedInBatch mutations)).

(** [waitForElement(selector, timeout = 5000)].  [startTime] is what
    [Date.now()] returns at line 79.  [checks] lists the runs of
    [checkElement], the first made at once and each later one in the next
    animation frame: the document each queries and what [Date.now()] returns
    should it read the clock.  [Some r] is the promise resolved with [r]
    ([None] being [null]); [None] is a promise still pending after those
    runs. *)
Fixpoint waitForElementFrom (sel : selector) (timeout startTime : Z)
    (checks : list (node * Z)) : option (option node) :=
  match checks with
  | [] => None
  | (document, now) :: later =>
      match querySelector document sel with
      | Some element => Some (Some element)
      | None =>
          if (now - startTime >=? timeout)%Z then Some None
          else waitForElementFrom sel timeout startTime later
      end
  end.

(** A run of [checkElement] that neither finds the element nor gives up. *)
Definition keepsWaiting (sel : selector) (timeout startTime : Z)
    (c : node * Z) : Prop :=
  querySelector (fst c) sel = None /\ (snd c - startTime < timeout)%Z.

Definition waitForElement (sel : selector) (timeout : option Z) (startTime : Z)
    (checks : list (node * Z)) : option (option node) :=
  waitForElementFrom sel
    (match timeout with Some t => t | None => 5000%Z end) startTime checks.

End DomUtils.

(** ** [content/features/syntaxHighlighter.js] *)

Module SyntaxHighlighter.
Import Dom Control.

Record Selectors : Type := mkSelectors {
  codeBlockSelector : selector;
  messageSelector : selector
}.

(** [PLATFORM_SELECTORS[platform]]; [None] is [undefined]. *)
Definition PLATFORM_SELECTORS (platform : string) : option Selectors :=
  if String.eqb platform "chatgpt" then
    Some {| codeBlockSelector := [[SelClass "markdown"]; [SelTag "CODE"]];
            messageSelector := [[SelHasAttr "data-message-author-role"]] |}
  else if String.eqb platform "mistral" then
    Some {| codeBlockSelector := [[SelClass "chat-message"]; [SelTag "CODE"]];
            messageSelector := [[SelClass "chat-message"]] |}
  else None.

(** The external highlighting library, [window.Prism]: its grammar table and
    its [highlight] function, which returns markup or throws ([None]). *)
Record PrismLib (Grammar : Type) : Type := mkPrism {
  languages : string -> option Grammar;
  highlight : string -> option Grammar -> string -> option string
}.
Arguments languages {Grammar} _ _.
Arguments highlight {Grammar} _ _ _ _.

(** [Array.from(el.classList).find(cls => cls.startsWith('language-'))] *)
Definition languageClassOf (n : node) : option string :=
  find (fun cls => Js.startsWith cls "language-") (classesOf n).

Definition PROCESSED : string := "prism-highlighted".

Section Highlighter.

Variable Grammar : Type.
(** [window.Prism]; [None] when the library is not loaded. *)
Variable prism : option (PrismLib Grammar).
(** The fragment parser behind the [innerHTML] setter. *)
Variable parseHTML : string -> list node.

(** [el.innerHTML = html] on the node [u]. *)
Definition setInnerHTML (pg : page) (u : nat) (html : string) : page :=
  match getNode pg u with
  | None => pg
  | Some old =>
      let '(kids, next') := relabelList (nextUid pg) (parseHTML html) in
      let pg' := updatePage pg u (withChildren (fun _ => kids)) in
      {| document := document pg';
         detached := detached pg' ++ filter isElement (childrenOf old);
         nextUid := next' |}
  end.

(** Lines 42-58: the language of a block; [None] is the [TypeError] of
    reading [tagName] of a [null] parent. *)
Definition determineLanguage (pg : page) (u : nat) (codeBlock : node)
  : option string :=
  match languageClassOf codeBlock with
  | Some languageClass => Some (Js.replace languageClass "language-" "")
  | None =>
      match parentElement pg u with
      | None => None
      | Some parent =>
          if String.eqb (tagNameOf parent) "PRE" then
            match languageClassOf parent with
            | Some preLanguageClass =>
                Some (Js.replace preLanguageClass "language-" "")
            | None => Some "text"
            end
          else Some "text"
      end
  end.

(** Lines 85-91: the language badge.  The [TypeError] of a [null] parent is
    thrown inside the inner [try]. *)
Definition addLanguageIndicator (pg : page) (u : nat) (language : string)
  : outcome page :=
  if String.eqb language "text" then Normal pg
  else
    match parentElement pg u with
    | None => Throw pg
    | Some parent =>
        if String.eqb (tagNameOf parent) "PRE" then
          match uidOf parent with
          | Some pu =>
              let languageIndicator :=
                Element (nextUid pg) "DIV" ["code-language-indicator"] []
                  (textChildren language) in
              let pg' := appendChild pg pu languageIndicator in
              Normal {| document := document pg'; detached := detached pg';
                        nextUid := S (nextUid pg) |}
          | None => Normal pg
          end
        else Normal pg
    end.

(** Lines 93-112: the copy button, added once per [PRE]. *)
Definition addCopyButton (pg : page) (u : nat) : outcome page :=
  match parentElement pg u with
  | None => Throw pg
  | Some parent =>
      if String.eqb (tagNameOf parent) "PRE" then
        match elementQuerySelector parent [SelClass "code-copy-button"] with
        | Some _ => Normal pg
        | None =>
            match uidOf parent with
            | Some pu =>
                let copyButton :=
                  Element (nextUid pg) "BUTTON" ["code-copy-button"] []
                    [Text "Copy"] in
                let pg' := appendChild pg pu copyButton in
                Normal {| document := document pg'; detached := detached pg';
                          nextUid := S (nextUid pg) |}
            | None => Normal pg
            end
        end
      else Normal pg
  end.

(** Lines 36-119: the body of [codeBlocks.forEach], on the block referenced
    by [u].  The state is the page and [highlightedCount]. *)
Definition processCodeBlock (st : page * nat) (u : nat) : outcome (page * nat) :=
  let '(pg, highlightedCount) := st in
  match getNode pg u with
  | None => Normal st
  | Some codeBlock =>
      if contains (classesOf codeBlock) PROCESSED then Normal st
      else
        match determineLanguage pg u codeBlock with
        | None => Throw st
        | Some language =>
            match prism with
            | None => Normal st
            | Some Prism =>
                let codeContent := textContent codeBlock in
                if negb (Js.truthy (Js.trim codeContent)) then Normal st
                else
                  let grammar :=
                    match languages Prism language with
                    | Some g => Some g
                    | None => languages Prism "text"
                    end in
                  match highlight Prism codeContent grammar language with
                  | None => Normal st
                  | Some highlightedHTML =>
                      let pg1 := setInnerHTML pg u highlightedHTML in
                      let pg2 := addClass pg1 u PROCESSED in
                      let count := S highlightedCount in
                      match addLanguageIndicator pg2 u language with
                      | Throw pg3 => Normal (pg3, count)
                      | Normal pg3 =>
                          Normal (caught (addCopyButton pg3 u), count)
                      end
                  end
            end
        end
  end.

(** [initSyntaxHighlighter(platform, isReinitialization)]: the page it
    leaves and the [highlightedCount] it logs.  The flag only decides
    whether a zero count is logged. *)
Definition initSyntaxHighlighter (platform : string) (isReinitialization : bool)
    (pg : page) : page * nat :=
  match PLATFORM_SELECTORS platform with
  | None => (pg, 0)
  | Some selectors =>
      let codeBlocks :=
        querySelectorAll (document pg) (codeBlockSelector selectors) in
      caught
        (forEach processCodeBlock
           (flat_map (fun n => match uidOf n with Some u => [u] | None => [] end)
              codeBlocks)
           (pg, 0))
  end.

End Highlighter.

(** A code block as a pass expects to find it: it bears the marker, or it
    holds text only. *)
Definition markedOrPlain (n : node) : bool :=
  contains (classesOf n) PROCESSED || textOnly n.

(** Every element of the identity [v] bears the marker. *)
Definition allMarked (pg : page) (v : nat) : Prop :=
  forall m, In m (pageElements pg) -> uidOf m = Some v ->
            contains (classesOf m) PROCESSED = true.

(** The block of identity [v] is as a pass expects it: the identity is one
    the page has handed out, and it belongs to marked elements only or to
    one element that holds text only. *)
Definition asExpected (pg : page) (v : nat) : Prop :=
  v < nextUid pg
  /\ (allMarked pg v
      \/ exists Y, uidOf Y = Some v /\ textOnly Y = true /\ denotes pg v Y).

(** The block [b], of identity [u], is on the page, in the document, and
    among the elements that [sel] selects. *)
Definition inPlace (sel : selector) (b : node) (u : nat) (pg : page) : Prop :=
  u < nextUid pg
  /\ denotes pg u b
  /\ In b (querySelectorAll (document pg) sel).

(** [updateSyntaxHighlighterTheme(theme)], on the class list of
    [document.body]. *)
Definition updateSyntaxHighlighterTheme (theme : string) (bodyClasses : list string)
  : list string :=
  let cl := classRemove bodyClasses ["prism-light"; "prism-dark"; "prism-high-contrast"] in
  if String.eqb theme "dark" then classAdd cl "prism-dark"
  else if String.eqb theme "high-contrast" then classAdd cl "prism-high-contrast"
  else classAdd cl "prism-light".

(** The body classes that line 132 removes. *)
Definition PRISM_CLASSES : list string :=
  ["prism-light"; "prism-dark"; "prism-high-contrast"].

(** The class the [switch] of lines 134-144 adds for a theme. *)
Definition prismClassFor (theme : string) : string :=
  if String.eqb theme "dark" then "prism-dark"
  else if String.eqb theme "high-contrast" then "prism-high-contrast"
  else "prism-light".

End SyntaxHighlighter.

(** ** The extension runtime: settings and the message channel *)

Module Chrome.

Record Command : Type := mkCommand {
  name : string;
  text : string
}.

Record SessionRecording : Type := mkSessionRecording {
  enabled : bool;
  autoDelete : bool;
  retentionDays : nat
}.

(** The settings object; a field that is absent is [None].  For a flag,
    [true] stands for any truthy value and [false] for any falsy one. *)
Record Settings : Type := mkSettings {
  theme : option string;
  syntaxHighlighting : option bool;
  clipboardEnabled : option bool;
  commandBarEnabled : option bool;
  sessionRecording : option SessionRecording;
  consentGiven : option bool;
  commands : option (list Command)
}.

(** [{}] *)
Definition emptySettings : Settings :=
  {| theme := None; syntaxHighlighting := None; clipboardEnabled := None;
     commandBarEnabled := None; sessionRecording := None;
     consentGiven := None; commands := None |}.

(** Truthiness of a flag field. *)
Definition flag (f : option bool) : bool :=
  match f with Some b => b | None => false end.

Record RecordedMessage : Type := mkRecorded {
  role : string;
  content : string;
  timestamp : string
}.

(** What [chrome.runtime.sendMessage] is called with. *)
Inductive RuntimeMessage : Type :=
| GET_SETTINGS
| SAVE_SETTINGS (settings : Settings)
| APPLY_THEME (theme : string)
| SAVE_SESSION (content : list RecordedMessage) (consentGiven : bool)
| INJECT_POPUP_SCRIPT.

(** The answer of the background page to a request that reports success. *)
Record Response : Type := mkResponse {
  success : bool
}.

(** [getSettings()] resolves to [response || {}]. *)
Definition getSettings (response : option Settings) : Settings :=
  match response with Some s => s | None => emptySettings end.

End Chrome.

(** ** [content/features/themeManager.js] *)

Module ThemeManager.
Import Dom.

Definition AVAILABLE_THEMES : list string :=
  ["light"; "dark"; "high-contrast"; "custom"].

(** The keys of [PLATFORM_SELECTORS]. *)
Definition supported (platform : string) : bool :=
  String.eqb platform "chatgpt" || String.eqb platform "mistral".

(** The body-level marker classes that line 129 removes. *)
Definition THEME_CLASSES : list string :=
  ["theme-light"; "theme-dark"; "theme-high-contrast"; "theme-custom"].

(** The module state ([currentTheme], [themeStylesheet]) and the parts of
    the document the module touches: the children of [document.head], the
    class list of [document.body], whether a [.theme-control] element
    exists, and the value of the first [.theme-selector] element when there
    is one. *)
Record state : Type := mkState {
  currentTheme : string;
  themeStylesheet : option nat;
  head : list node;
  bodyClasses : list string;
  themeControl : bool;
  themeSelector : option string;
  nextUid : nat
}.

(** The state when the module is loaded into a page. *)
Definition initial (pageHead : list node) (pageBodyClasses : list string)
    (next : nat) : state :=
  {| currentTheme := "light"; themeStylesheet := None; head := pageHead;
     bodyClasses := pageBodyClasses; themeControl := false;
     themeSelector := None; nextUid := next |}.

Section Theme.

(** [chrome.runtime.getURL] *)
Variable getURL : string -> string.

(** The link element that lines 123-125 create for [theme]. *)
Definition stylesheetLink (u : nat) (theme : string) : node :=
  Element u "LINK" []
    [("rel", "stylesheet");
     ("href", getURL (String.append "themes/" (String.append theme ".css")))]
    [].

(** [applyTheme(platform, theme)].  When the class token is one that
    [classList.add] rejects, line 130 throws and the [catch] ends the call
    there, after the stylesheet was replaced and the markers removed. *)
Definition applyTheme (platform : string) (theme : string) (st : state) : state :=
  let head1 :=
    match themeStylesheet st with
    | Some u => filter (fun n => negb (hasUid u n)) (head st)
    | None => head st
    end in
  let u := nextUid st in
  let head2 := head1 ++ [stylesheetLink u theme] in
  let body1 := classRemove (bodyClasses st) THEME_CLASSES in
  let token := String.append "theme-" theme in
  if validToken token then
    let body2 := classAdd body1 token in
    let body3 := SyntaxHighlighter.updateSyntaxHighlighterTheme theme body2 in
    {| currentTheme := theme;
       themeStylesheet := Some u;
       head := head2;
       bodyClasses := body3;
       themeControl := themeControl st;
       themeSelector :=
         match themeSelector st with Some _ => Some theme | None => None end;
       nextUid := S u |}
  else
    {| currentTheme := theme;
       themeStylesheet := Some u;
       head := head2;
       bodyClasses := body1;
       themeControl := themeControl st;
       themeSelector := themeSelector st;
       nextUid := S u |}.

(** [createThemeControl(platform)], as far as this state sees it: the
    control and its selector now exist, and the selector shows
    [currentTheme]. *)
Definition createThemeControl (platform : string) (st : state) : state :=
  {| currentTheme := currentTheme st;
     themeStylesheet := themeStylesheet st;
     head := head st;
     bodyClasses := bodyClasses st;
     themeControl := true;
     themeSelector :=
       match themeSelector st with
       | Some v => Some v
       | None => Some (currentTheme st)
       end;
     nextUid := nextUid st |}.

(** [initThemeManager(platform, initialTheme = 'light')] *)
Definition initThemeManager (platform : string) (initialTheme : option string)
    (st : state) : state :=
  if negb (supported platform) then st
  else
    let st1 := if themeControl st then st else createThemeControl platform st in
    applyTheme platform
      (match initialTheme with Some t => t | None => "light" end) st1.

(** The [change] listener of the selector: the state it leaves and the
    messages it sends. *)
Definition onThemeSelected (platform : string) (newTheme : string) (st : state)
  : state * list Chrome.RuntimeMessage :=
  (applyTheme platform newTheme st,
   [Chrome.SAVE_SETTINGS
      {| Chrome.theme := Some newTheme; Chrome.syntaxHighlighting := None;
         Chrome.clipboardEnabled := None; Chrome.commandBarEnabled := None;
         Chrome.sessionRecording := None; Chrome.consentGiven := None;
         Chrome.commands := None |};
    Chrome.APPLY_THEME newTheme]).

(** A sequence of [applyTheme] calls, first to last. *)
Definition applyThemes (platform : string) (themes : list string) (st : state) : state :=
  fold_left (fun s t => applyTheme platform t s) themes st.

(** What the module has made of the head it found: the page's own
    children, then the one link the module holds a reference to. *)
Definition managed (pageHead : list node) (floor : nat) (st : state) : Prop :=
  exists u,
    floor <= u
    /\ themeStylesheet st = Some u
    /\ nextUid st = S u
    /\ head st = pageHead ++ [stylesheetLink u (currentTheme st)].

End Theme.

(** The theme marker classes the body carries. *)
Definition themeMarkers (st : state) : list string :=
  filter (contains THEME_CLASSES) (bodyClasses st).

(** The page's own head never holds a node the module has yet to create. *)
Definition headBelow (st : state) : Prop :=
  Forall (fun n => match uidOf n with Some u => u < nextUid st | None => True end)
    (head st).

End ThemeManager.

(** ** [content/features/commandBar.js] *)

Module CommandBar.
Import Dom Control Chrome.

Record Selectors : Type := mkSelectors {
  inputArea : selector;
  submitButton : selector
}.

Definition chatgptSelectors : Selectors :=
  {| inputArea := [[SelTag "TEXTAREA"]];
     submitButton := [[SelTag "BUTTON"; SelAttrEq "data-testid" "send-button"]] |}.

Definition mistralSelectors : Selectors :=
  {| inputArea := [[SelClass "chat-input"]; [SelTag "TEXTAREA"]];
     submitButton :=
       [[SelClass "chat-input"]; [SelTag "BUTTON"; SelAttrEq "type" "submit"]] |}.

(** [PLATFORM_SELECTORS[platform]] *)
Definition PLATFORM_SELECTORS (platform : string) : option Selectors :=
  if String.eqb platform "chatgpt" then Some chatgptSelectors
  else if String.eqb platform "mistral" then Some mistralSelectors
  else None.

(** [a || b]: [a] when it is truthy, else [b]. *)
Definition orElse {A : Type} (truthy : A -> bool) (a b : A) : A :=
  if truthy a then a else b.

(** A selector string is truthy unless it is empty. *)
Definition selectorTruthy (sel : selector) : bool :=
  match sel with [] => false | _ => true end.

Definition DEFAULT_COMMANDS : list Command :=
  [ {| name := "Explain"; text := "Explain this in simple terms: " |};
    {| name := "Summarize"; text := "Summarize this text: " |};
    {| name := "Translate"; text := "Translate this to English: " |};
    {| name := "Code"; text := "Write code to: " |};
    {| name := "Fix"; text := "Fix this code: " |} ].

(** A [.command-button]: its label, and the text and selectors its click
    listener passes to [executeCommand]. *)
Record CommandButton : Type := mkButton {
  label : string;
  commandText : string;
  targets : Selectors
}.

(** The [.quick-command-bar] element: its inline style and the children of
    its [.commands-container].  Lengths are in pixels. *)
Record Bar : Type := mkBar {
  display : string;
  bottom : option Z;
  left : option Z;
  commandButtons : list CommandButton
}.

(** [getBoundingClientRect()], as far as the module reads it. *)
Record Rect : Type := mkRect {
  rectTop : Z;
  rectLeft : Z
}.

(** The module state ([commands], [commandBar], [isCommandBarVisible]), the
    page, and the messages sent so far. *)
Record state : Type := mkState {
  commands : list Command;
  commandBar : option Bar;
  isCommandBarVisible : bool;
  page : Dom.page;
  outbox : list RuntimeMessage
}.

(** The state when the module is loaded: [commands = [...DEFAULT_COMMANDS]],
    [commandBar = null], [isCommandBarVisible = false]. *)
Definition initial (pg : Dom.page) : state :=
  {| commands := DEFAULT_COMMANDS; commandBar := None;
     isCommandBarVisible := false; page := pg; outbox := [] |}.

Definition setPage (st : state) (pg : Dom.page) : state :=
  {| commands := commands st; commandBar := commandBar st;
     isCommandBarVisible := isCommandBarVisible st; page := pg;
     outbox := outbox st |}.

Definition send (st : state) (m : RuntimeMessage) : state :=
  {| commands := commands st; commandBar := commandBar st;
     isCommandBarVisible := isCommandBarVisible st; page := page st;
     outbox := outbox st ++ [m] |}.

(** The ancestors of the node [u] in the tree [n], nearest first, with the
    node itself at the head. *)
Fixpoint pathTo (u : nat) (n : node) : option (list node) :=
  match n with
  | Element u' _ _ _ k =>
      if u' =? u then Some [n]
      else
        match firstSome (pathTo u) k with
        | Some p => Some (p ++ [n])
        | None => None
        end
  | _ => None
  end.

(** [el.closest(c)] *)
Definition closest (pg : Dom.page) (u : nat) (c : compound) : option node :=
  match pathTo u (document pg) with
  | Some p => find (fun a => matchesCompound a c) p
  | None => None
  end.

(** [addCommandBarToggle(platform, selectors)] *)
Definition addCommandBarToggle (platform : string) (selectors : Selectors)
    (pg : Dom.page) : outcome Dom.page :=
  match querySelector (document pg) (inputArea selectors),
        querySelector (document pg) [[SelClass "command-bar-toggle"]] with
  | Some input, None =>
      let toggleButton :=
        Element (nextUid pg) "BUTTON" ["command-bar-toggle"]
          [("title", "Toggle Command Bar (Ctrl+Space)")] [Text "⌘"] in
      let created :=
        {| document := document pg; detached := detached pg;
           nextUid := S (nextUid pg) |} in
      match uidOf input with
      | None => Normal pg
      | Some iu =>
          if String.eqb platform "chatgpt" then
            match parentElement pg iu with
            | None => Throw created
            | Some parent =>
                match uidOf parent with
                | None => Throw created
                | Some pu =>
                    match parentElement pg pu with
                    | None => Throw created
                    | Some buttonParent =>
                        match uidOf buttonParent with
                        | Some bu => Normal (appendChild created bu toggleButton)
                        | None => Normal created
                        end
                    end
                end
            end
          else if String.eqb platform "mistral" then
            match closest pg iu [SelClass "chat-input"] with
            | None => Throw created
            | Some buttonParent =>
                match uidOf buttonParent with
                | Some bu => Normal (appendChild created bu toggleButton)
                | None => Normal created
                end
            end
          else Normal created
      end
  | _, _ => Normal pg
  end.

(** [createCommandBarUI(platform, selectors)]: the bar starts hidden, with
    one button per command; it is appended to [document.body] and holds no
    element that the queries of this module select. *)
Definition createCommandBarUI (platform : string) (selectors : Selectors)
    (st : state) : outcome state :=
  let bar :=
    {| display := "none"; bottom := None; left := None;
       commandButtons :=
         map (fun c => {| label := name c; commandText := text c;
                          targets := selectors |}) (commands st) |} in
  let st1 :=
    {| commands := commands st; commandBar := Some bar;
       isCommandBarVisible := isCommandBarVisible st; page := page st;
       outbox := outbox st |} in
  match addCommandBarToggle platform selectors (page st1) with
  | Normal pg => Normal (setPage st1 pg)
  | Throw pg => Throw (setPage st1 pg)
  end.

(** [initCommandBar(platform)]; [response] is what the background page
    answers to [GET_SETTINGS]. *)
Definition initCommandBar (platform : string) (response : option Settings)
    (st : state) : state :=
  match PLATFORM_SELECTORS platform with
  | None => st
  | Some selectors =>
      let st1 := send st GET_SETTINGS in
      let settings := getSettings response in
      let st2 :=
        match Chrome.commands settings with
        | Some cs =>
            {| commands := cs; commandBar := commandBar st1;
               isCommandBarVisible := isCommandBarVisible st1;
               page := page st1; outbox := outbox st1 |}
        | None => st1
        end in
      caught (createCommandBarUI platform selectors st2)
  end.

(** [toggleCommandBar()].  [layout] and [innerHeight] are the boxes and the
    viewport height at the time of the call, in whole pixels. *)
Definition toggleCommandBar (layout : nat -> Rect) (innerHeight : Z)
    (st : state) : outcome state :=
  let visible := negb (isCommandBarVisible st) in
  match commandBar st with
  | None =>
      Throw {| commands := commands st; commandBar := None;
               isCommandBarVisible := visible; page := page st;
               outbox := outbox st |}
  | Some bar =>
      let shown :=
        {| display := if visible then "block" else "none";
           bottom := bottom bar; left := left bar;
           commandButtons := commandButtons bar |} in
      let placed :=
        if visible then
          match querySelector (document (page st))
                  (orElse selectorTruthy (inputArea chatgptSelectors)
                     (inputArea mistralSelectors)) with
          | Some input =>
              match uidOf input with
              | Some iu =>
                  let rect := layout iu in
                  {| display := display shown;
                     bottom := Some (innerHeight - rectTop rect + 10)%Z;
                     left := Some (rectLeft rect);
                     commandButtons := commandButtons shown |}
              | None => shown
              end
          | None => shown
          end
        else shown in
      Normal {| commands := commands st; commandBar := Some placed;
                isCommandBarVisible := visible; page := page st;
                outbox := outbox st |}
  end.

(** [addCustomCommand(name, text)]; [response] is what the background page
    answers to the [GET_SETTINGS] of line 248. *)
Definition addCustomCommand (name text : string) (response : option Settings)
    (st : state) : state :=
  let commands' := commands st ++ [ {| Chrome.name := name; Chrome.text := text |} ] in
  match commandBar st with
  | None =>
      {| commands := commands'; commandBar := None;
         isCommandBarVisible := isCommandBarVisible st; page := page st;
         outbox := outbox st |}
  | Some bar =>
      let commandButton :=
        {| label := name; commandText := text;
           targets :=
             orElse (fun _ => true) chatgptSelectors mistralSelectors |} in
      let bar' :=
        {| display := display bar; bottom := bottom bar; left := left bar;
           commandButtons := commandButtons bar ++ [commandButton] |} in
      let settings := getSettings response in
      let settings' :=
        {| Chrome.theme := Chrome.theme settings;
           Chrome.syntaxHighlighting := Chrome.syntaxHighlighting settings;
           Chrome.clipboardEnabled := Chrome.clipboardEnabled settings;
           Chrome.commandBarEnabled := Chrome.commandBarEnabled settings;
           Chrome.sessionRecording := Chrome.sessionRecording settings;
           Chrome.consentGiven := Chrome.consentGiven settings;
           Chrome.commands := Some commands' |} in
      {| commands := commands'; commandBar := Some bar';
         isCommandBarVisible := isCommandBarVisible st; page := page st;
         outbox := outbox st ++ [GET_SETTINGS; SAVE_SETTINGS settings'] |}
  end.

(** The [click] listener of the Add button (lines 127-136): both fields are
    trimmed, and nothing is added unless both are non-empty. *)
Definition onAddClicked (nameField textField : string)
    (response : option Settings) (st : state) : state :=
  let name := Js.trim nameField in
  let text := Js.trim textField in
  if Js.truthy name && Js.truthy text
  then addCustomCommand name text response st
  else st.

(** The input control of [platform]: the first match of its own
    [inputArea] selector. *)
Definition platformInput (platform : string) (pg : Dom.page) : option node :=
  match PLATFORM_SELECTORS platform with
  | Some selectors => querySelector (document pg) (inputArea selectors)
  | None => None
  end.

End CommandBar.

(** ** [content/features/sessionRecorder.js] *)

Module SessionRecorder.
Import Dom Control Chrome DomUtils.

Record Selectors : Type := mkSelectors {
  chatContainer : selector;
  messages : selector;
  inputArea : selector
}.

Definition chatgptSelectors : Selectors :=
  {| chatContainer := [[SelClass "chat-container"]];
     messages := [[SelHasAttr "data-message-author-role"]];
     inputArea := [[SelTag "TEXTAREA"]] |}.

Definition mistralSelectors : Selectors :=
  {| chatContainer := [[SelClass "chat-container"]];
     messages := [[SelClass "chat-message"]];
     inputArea := [[SelClass "chat-input"]; [SelTag "TEXTAREA"]] |}.

(** [PLATFORM_SELECTORS[platform]] *)
Definition PLATFORM_SELECTORS (platform : string) : option Selectors :=
  if String.eqb platform "chatgpt" then Some chatgptSelectors
  else if String.eqb platform "mistral" then Some mistralSelectors
  else None.

(** How a promise of the consent collaborator settles. *)
Inductive settled (A : Type) : Type :=
| Resolved (a : A)
| Rejected.
Arguments Resolved {A} a.
Arguments Rejected {A}.

(** [checkConsent(forcePrompt)] at one moment: what it settles to without
    and with a forced prompt.  An omitted argument is [false]. *)
Definition ConsentManager : Type := bool -> settled bool.

(** The module state ([isRecording], [recordedSession],
    [recordingIndicator]), the page, the toggle button whose listener is
    installed, the message observers installed (the platform each was
    created for and the node each observes), the messages sent, and the
    number of [new Date()] evaluated so far. *)
Record state : Type := mkState {
  isRecording : bool;
  recordedSession : list RecordedMessage;
  recordingIndicator : option nat;
  page : Dom.page;
  toggleButton : option nat;
  observers : list (string * nat);
  outbox : list RuntimeMessage;
  dateReads : nat
}.

(** The state when the module is loaded. *)
Definition initial (pg : Dom.page) : state :=
  {| isRecording := false; recordedSession := []; recordingIndicator := None;
     page := pg; toggleButton := None; observers := []; outbox := [];
     dateReads := 0 |}.

Definition setPage (st : state) (pg : Dom.page) : state :=
  {| isRecording := isRecording st; recordedSession := recordedSession st;
     recordingIndicator := recordingIndicator st; page := pg;
     toggleButton := toggleButton st; observers := observers st;
     outbox := outbox st; dateReads := dateReads st |}.

Definition setRecording (st : state) (b : bool) : state :=
  {| isRecording := b; recordedSession := recordedSession st;
     recordingIndicator := recordingIndicator st; page := page st;
     toggleButton := toggleButton st; observers := observers st;
     outbox := outbox st; dateReads := dateReads st |}.

Definition setSession (st : state) (l : list RecordedMessage) : state :=
  {| isRecording := isRecording st; recordedSession := l;
     recordingIndicator := recordingIndicator st; page := page st;
     toggleButton := toggleButton st; observers := observers st;
     outbox := outbox st; dateReads := dateReads st |}.

Definition send (st : state) (m : RuntimeMessage) : state :=
  {| isRecording := isRecording st; recordedSession := recordedSession st;
     recordingIndicator := recordingIndicator st; page := page st;
     toggleButton := toggleButton st; observers := observers st;
     outbox := outbox st ++ [m]; dateReads := dateReads st |}.

Section Recorder.

(** [el.innerHTML]: the browser's serialisation of the children of [el]. *)
Variable innerHTML : node -> string.
(** [new Date().toISOString()] for the n-th date the script creates. *)
Variable toISOString : nat -> string.

(** Lines 428-434 and 468-474: [recordedSession.push] under the guard
    [role && content].  [None] is [null] or [undefined]. *)
Definition pushMessage (role content : option string) (st : state) : state :=
  match role, content with
  | Some r, Some c =>
      if Js.truthy r && Js.truthy c then
        {| isRecording := isRecording st;
           recordedSession :=
             recordedSession st ++
               [ {| Chrome.role := r; Chrome.content := c;
                    Chrome.timestamp := toISOString (dateReads st) |} ];
           recordingIndicator := recordingIndicator st; page := page st;
           toggleButton := toggleButton st; observers := observers st;
           outbox := outbox st; dateReads := S (dateReads st) |}
      else st
  | _, _ => st
  end.

(** The role the mistral branch infers from the class list. *)
Definition mistralRole (n : node) : string :=
  if contains (classesOf n) "user-message" then "user" else "assistant".

(** Lines 415-435: the body of [messages.forEach].  Reading [innerHTML] of
    a [null] query result throws. *)
Definition captureMessage (platform : string) (st : state) (message : node)
  : outcome state :=
  if String.eqb platform "chatgpt" then
    match elementQuerySelector message [SelClass "markdown"] with
    | None => Throw st
    | Some md =>
        Normal (pushMessage
                  (getAttribute (attributesOf message) "data-message-author-role")
                  (Some (innerHTML md)) st)
    end
  else if String.eqb platform "mistral" then
    match elementQuerySelector message [SelClass "message-content"] with
    | None => Throw st
    | Some mc =>
        Normal (pushMessage (Some (mistralRole message)) (Some (innerHTML mc)) st)
    end
  else Normal st.

(** [captureExistingMessages(platform, selectors)] *)
Definition captureExistingMessages (platform : string) (selectors : Selectors)
    (st : state) : outcome state :=
  forEach (captureMessage platform)
    (querySelectorAll (document (page st)) (messages selectors)) st.

(** Line 452-454: is the added node a message of the platform? *)
Definition isMessageNode (platform : string) (n : node) : bool :=
  isElement n &&
  ((String.eqb platform "chatgpt"
    && hasAttribute (attributesOf n) "data-message-author-role")
   || (String.eqb platform "mistral" && contains (classesOf n) "chat-message")).

(** Lines 450-476: the body of [mutation.addedNodes.forEach]; the optional
    chaining turns a missing content element into [undefined]. *)
Definition recordAddedNode (platform : string) (st : state) (n : node) : state :=
  if isMessageNode platform n then
    if String.eqb platform "chatgpt" then
      pushMessage (getAttribute (attributesOf n) "data-message-author-role")
        (option_map innerHTML (elementQuerySelector n [SelClass "markdown"])) st
    else if String.eqb platform "mistral" then
      pushMessage (Some (mistralRole n))
        (option_map innerHTML (elementQuerySelector n [SelClass "message-content"]))
        st
    else st
  else st.

(** Lines 445-479: the function handed to [new MutationObserver]. *)
Definition messageObserver (platform : string) (mutations : list MutationRecord)
    (st : state) : state :=
  if negb (isRecording st) then st
  else
    fold_left
      (fun s m =>
         if isChildList m && (0 <? List.length (addedNodes m))
         then fold_left (recordAddedNode platform) (addedNodes m) s
         else s)
      mutations st.

(** [setupMessageObserver(platform, selectors)]: the observer is installed
    only when a chat container is found. *)
Definition setupMessageObserver (platform : string) (selectors : Selectors)
    (st : state) : state :=
  match querySelector (document (page st)) (chatContainer selectors) with
  | Some container =>
      match uidOf container with
      | Some cu =>
          {| isRecording := isRecording st; recordedSession := recordedSession st;
             recordingIndicator := recordingIndicator st; page := page st;
             toggleButton := toggleButton st;
             observers := observers st ++ [(platform, cu)];
             outbox := outbox st; dateReads := dateReads st |}
      | None => st
      end
  | None => st
  end.

(** [createRecordingControls(platform, selectors)], with the
    [createSessionListingUI] call that ends it. *)
Definition createRecordingControls (platform : string) (selectors : Selectors)
    (st : state) : outcome state :=
  let pg := page st in
  let u := nextUid pg in
  let button :=
    Element (S u) "BUTTON" ["recording-toggle"] [] [Text "Start Recording"] in
  let indicator :=
    Element (S (S u)) "DIV" ["recording-indicator"] [] [Text "⚪ Not Recording"] in
  let controls := Element u "DIV" ["recording-controls"] [] [button; indicator] in
  let created :=
    {| document := document pg; detached := detached pg;
       nextUid := S (S (S u)) |} in
  let st1 :=
    {| isRecording := isRecording st; recordedSession := recordedSession st;
       recordingIndicator := Some (S (S u)); page := created;
       toggleButton := Some (S u); observers := observers st;
       outbox := outbox st; dateReads := dateReads st |} in
  let target :=
    match querySelector (document pg) (chatContainer selectors) with
    | Some container => Some container
    | None => documentBody pg
    end in
  match target with
  | None => Throw st1
  | Some t =>
      match uidOf t with
      | Some tu =>
          Normal (send (setPage st1 (appendChild created tu controls))
                    INJECT_POPUP_SCRIPT)
      | None => Throw st1
      end
  end.

(** [showSaveConfirmation()]; the timer that removes the notice three
    seconds later is not followed. *)
Definition showSaveConfirmation (st : state) : outcome state :=
  let pg := page st in
  match documentBody pg with
  | None => Throw st
  | Some body =>
      match uidOf body with
      | None => Throw st
      | Some bu =>
          let confirmation :=
            Element (nextUid pg) "DIV" ["session-save-confirmation"] []
              [Text "Session saved successfully!"] in
          let created :=
            {| document := document pg; detached := detached pg;
               nextUid := S (nextUid pg) |} in
          Normal (setPage st (appendChild created bu confirmation))
      end
  end.

(** [saveSession()]; [response] is what the background page answers to
    [SAVE_SESSION], [None] being [undefined].  Its own [try]/[catch] keeps
    every exception inside. *)
Definition saveSession (response : option Response) (st : state) : state :=
  if List.length (recordedSession st) =? 0 then st
  else
    let st1 := send st (SAVE_SESSION (recordedSession st) true) in
    match response with
    | None => st1
    | Some r => if success r then caught (showSaveConfirmation st1) else st1
    end.

(** Lines 382-385 and 395-398: the button and the indicator are updated;
    a [null] indicator throws after the button was set. *)
Definition updateControls (button : nat) (recording : bool) (st : state)
  : outcome state :=
  let st1 :=
    setPage st
      (setTextContent (page st) button
         (if recording then "Stop Recording" else "Start Recording")) in
  match recordingIndicator st1 with
  | None => Throw st1
  | Some ind =>
      let pg1 :=
        setTextContent (page st1) ind
          (if recording then "🔴 Recording" else "⚪ Not Recording") in
      let pg2 :=
        if recording then addClass pg1 ind "recording-active"
        else removeClass pg1 ind "recording-active" in
      Normal (setPage st1 pg2)
  end.

(** [toggleRecording(platform, selectors, toggleButton)].  [checkConsent]
    is the consent collaborator at the time of the call and [response] the
    answer to the [SAVE_SESSION] request, should one be sent. *)
Definition toggleRecording (platform : string) (selectors : Selectors)
    (button : nat) (checkConsent : ConsentManager) (response : option Response)
    (st : state) : state :=
  if negb (isRecording st) then
    match checkConsent true with
    | Rejected => st
    | Resolved false => st
    | Resolved true =>
        let st1 := setSession (setRecording st true) [] in
        match captureExistingMessages platform selectors st1 with
        | Throw st2 => st2
        | Normal st2 => caught (updateControls button true st2)
        end
    end
  else
    let st1 := setRecording st false in
    let st2 := saveSession response st1 in
    caught (updateControls button false st2).

(** [initSessionRecorder(platform)] *)
Definition initSessionRecorder (platform : string) (checkConsent : ConsentManager)
    (st : state) : state :=
  match PLATFORM_SELECTORS platform with
  | None => st
  | Some selectors =>
      match checkConsent false with
      | Rejected => st
      | Resolved false => st
      | Resolved true =>
          let created :=
            match querySelector (document (page st))
                    [[SelClass "recording-controls"]] with
            | Some _ => Normal st
            | None => createRecordingControls platform selectors st
            end in
          match created with
          | Throw st1 => st1
          | Normal st1 => setupMessageObserver platform selectors st1
          end
      end
  end.

(** Does the node [parent] lie in the subtree that an observer of [target]
    watches? *)
Definition inSubtree (pg : Dom.page) (target parent : nat) : bool :=
  match getNode pg target with
  | Some t =>
      match findNode parent t with Some _ => true | None => false end
  | None => false
  end.

(** The host page appends [child], a node with identities of its own, to
    the node [parent]: every observer that watches [parent] receives the
    batch with that one record. *)
Definition pageAppendChild (parent : nat) (child : node) (st : state) : state :=
  let record :=
    {| mtype := childList; addedNodes := [child]; removedNodes := [] |} in
  let watching := inSubtree (page st) in
  let st1 := setPage st (appendChild (page st) parent child) in
  fold_left
    (fun s o =>
       if watching (snd o) parent then messageObserver (fst o) [record] s else s)
    (observers st) st1.

(** The state with one more recorded message, stamped with the next date. *)
Definition appended (st : state) (role content : string) : state :=
  {| isRecording := isRecording st;
     recordedSession :=
       recordedSession st ++
         [ {| Chrome.role := role; Chrome.content := content;
              Chrome.timestamp := toISOString (dateReads st) |} ];
     recordingIndicator := recordingIndicator st; page := page st;
     toggleButton := toggleButton st; observers := observers st;
     outbox := outbox st; dateReads := S (dateReads st) |}.

(** A chatgpt message node with the role [role] whose first [.markdown]
    descendant exists and serialises to the non-empty markup [content]. *)
Definition messageWith (m : node) (role content : string) : Prop :=
  getAttribute (attributesOf m) "data-message-author-role" = Some role
  /\ Js.truthy role = true
  /\ exists md,
       elementQuerySelector m [SelClass "markdown"] = Some md
       /\ innerHTML md = content
       /\ Js.truthy content = true.

(** The entries recorded for roles and contents from the n-th date on. *)
Fixpoint stamped (n : nat) (rcs : list (string * string)) : list RecordedMessage :=
  match rcs with
  | [] => []
  | (r, c) :: rest =>
      {| Chrome.role := r; Chrome.content := c;
         Chrome.timestamp := toISOString n |} :: stamped (S n) rest
  end.

(** The state after appending, in order, an entry per pair. *)
Definition appendedAll (st : state) (rcs : list (string * string)) : state :=
  fold_left (fun s rc => appended s (fst rc) (snd rc)) rcs st.

(** What can happen to the recorder: the orchestrator initialises it, the
    user clicks the toggle button, the host page adds a node. *)
Inductive event : Type :=
| Initialised (platform : string) (checkConsent : ConsentManager)
| ToggleClicked (platform : string) (selectors : Selectors) (button : nat)
    (checkConsent : ConsentManager) (response : option Response)
| PageAppended (parent : nat) (child : node).

Definition step (e : event) (st : state) : state :=
  match e with
  | Initialised platform checkConsent =>
      initSessionRecorder platform checkConsent st
  | ToggleClicked platform selectors button checkConsent response =>
      toggleRecording platform selectors button checkConsent response st
  | PageAppended parent child => pageAppendChild parent child st
  end.

Definition run (events : list event) (st : state) : state :=
  fold_left (fun s e => step e s) events st.

End Recorder.

(** The [SAVE_SESSION] requests among the messages sent. *)
Definition savedSessions (st : state) : list (list RecordedMessage) :=
  flat_map
    (fun m => match m with SAVE_SESSION content _ => [content] | _ => [] end)
    (outbox st).

(** An entry that passes the guard [role && content] of lines 428 and
    468. *)
Definition complete (m : RecordedMessage) : bool :=
  Js.truthy (Chrome.role m) && Js.truthy (Chrome.content m).

(** A request as this module writes it: the one for the popup script, or a
    [SAVE_SESSION] with [consentGiven: true] and a buffer that is not
    empty and holds complete entries only. *)
Definition wellFormedRequest (m : RuntimeMessage) : bool :=
  match m with
  | INJECT_POPUP_SCRIPT => true
  | SAVE_SESSION content consentGiven =>
      consentGiven && negb (List.length content =? 0) && forallb complete content
  | _ => false
  end.

End SessionRecorder.

(** ** [content/content.js] *)

Module Content.
Import Control Chrome.

(** The calls [initializeExtension] makes into the feature modules and the
    browser, in the order it makes them.  Every feature initialiser keeps
    its exceptions to itself, as the ones under [content/features] do. *)
Inductive call : Type :=
| InitSyntaxHighlighter (platform : string) (isReinitialization : bool)
| InitClipboardManager (platform : string)
| InitThemeManager (platform : string) (theme : option string)
| InitCommandBar (platform : string)
| CheckConsent
| InitSessionRecorder (platform : string)
| ObserveDOMChanges (platform : string)
| AddMessageListener.

(** Lines 43-51: the session recorder.  Reading [enabled] of an absent
    [sessionRecording] throws, and so does a rejected consent check. *)
Definition startSessionRecorder (platform : string) (settings : Settings)
    (consent : SessionRecorder.settled bool) (done : list call)
  : outcome (list call) :=
  match sessionRecording settings with
  | None => Throw done
  | Some sr =>
      if enabled sr then
        match consent with
        | SessionRecorder.Rejected => Throw (done ++ [CheckConsent])
        | SessionRecorder.Resolved true =>
            Normal (done ++ [CheckConsent; InitSessionRecorder platform])
        | SessionRecorder.Resolved false => Normal (done ++ [CheckConsent])
        end
      else Normal done
  end.

(** [initializeExtension()]: [detected] is the result of
    [detectChatbotPlatform()], [response] the answer to [GET_SETTINGS], and
    [consent] what [checkConsent()] settles to if it is called. *)
Definition initializeExtension (detected : option string)
    (response : option Settings) (consent : SessionRecorder.settled bool)
  : list call :=
  match detected with
  | None => []
  | Some platform =>
      if negb (Js.truthy platform) then []
      else
        let settings := getSettings response in
        let c1 :=
          if flag (syntaxHighlighting settings)
          then [InitSyntaxHighlighter platform false] else [] in
        let c2 :=
          if flag (clipboardEnabled settings)
          then c1 ++ [InitClipboardManager platform] else c1 in
        let c3 := c2 ++ [InitThemeManager platform (theme settings)] in
        let c4 :=
          if flag (commandBarEnabled settings)
          then c3 ++ [InitCommandBar platform] else c3 in
        match startSessionRecorder platform settings consent c4 with
        | Throw c5 => c5
        | Normal c5 => c5 ++ [ObserveDOMChanges platform; AddMessageListener]
        end
  end.

(** The callback handed to [observeDOMChanges] at line 54. *)
Definition onDOMChange (platform : string) (settings : Settings) : list call :=
  if flag (syntaxHighlighting settings)
  then [InitSyntaxHighlighter platform true] else [].

Definition isThemeInit (c : call) : bool :=
  match c with InitThemeManager _ _ => true | _ => false end.
Definition isHighlighterInit (c : call) : bool :=
  match c with InitSyntaxHighlighter _ _ => true | _ => false end.
Definition isClipboardInit (c : call) : bool :=
  match c with InitClipboardManager _ => true | _ => false end.
Definition isCommandBarInit (c : call) : bool :=
  match c with InitCommandBar _ => true | _ => false end.
Definition isRecorderInit (c : call) : bool :=
  match c with InitSessionRecorder _ => true | _ => false end.

Definition isObserve (c : call) : bool :=
  match c with ObserveDOMChanges _ => true | _ => false end.
Definition isListener (c : call) : bool :=
  match c with AddMessageListener => true | _ => false end.

(** The platform a call is made with, for the calls that take one. *)
Definition platformOf (c : call) : option string :=
  match c with
  | InitSyntaxHighlighter platform _ => Some platform
  | InitClipboardManager platform => Some platform
  | InitThemeManager platform _ => Some platform
  | InitCommandBar platform => Some platform
  | InitSessionRecorder platform => Some platform
  | ObserveDOMChanges platform => Some platform
  | CheckConsent => None
  | AddMessageListener => None
  end.

(** How many calls of a kind a run makes. *)
Definition calls (kind : call -> bool) (run : list call) : nat :=
  List.length (filter kind run).

(** The [enabled] flag of the session-recording sub-record, [false] when
    the sub-record is absent. *)
Definition recordingEnabled (settings : Settings) : bool :=
  match sessionRecording settings with
  | Some sr => enabled sr
  | None => false
  end.

End Content.

(** ** [utils/storage.js]: the stored sessions *)

Module Storage.
Import Chrome.

(** A stored session, with the fields the extension reads: [id] and
    [timestamp], and the recorded [content]. *)
Record Session : Type := mkSession {
  id : nat;
  content : list RecordedMessage;
  timestamp : string
}.

(** [chrome.storage.local], as far as sessions go: the value under the key
    [sessions], [None] when the key is absent. *)
Record local : Type := mkLocal {
  sessions : option (list Session)
}.

(** [getSessions()] resolves to [data.sessions || []]. *)
Definition getSessions (st : local) : list Session :=
  match sessions st with Some l => l | None => [] end.

(** [deleteSession(sessionId)]: the store it leaves and the value it
    resolves to. *)
Definition deleteSession (sessionId : nat) (st : local) : local * bool :=
  let filteredSessions :=
    filter (fun session => negb (id session =? sessionId)) (getSessions st) in
  ({| sessions := Some filteredSessions |}, true).

(** How many stored sessions have the id [i]. *)
Definition countId (i : nat) (l : list Session) : nat :=
  List.length (filter (fun session => id session =? i) l).

End Storage.

(** ** The background page: defaults and the retention policy
    ([content/content.js], lines 82-138) *)

Module Background.
Import Chrome Storage.

(** The settings that [onInstalled] stores. *)
Definition defaultSettings : Settings :=
  {| theme := Some "light";
     syntaxHighlighting := Some true;
     clipboardEnabled := Some true;
     commandBarEnabled := Some true;
     sessionRecording :=
       Some {| enabled := false; autoDelete := true; retentionDays := 7 |};
     consentGiven := Some false;
     commands := None |}.

(** [chrome.storage.sync] (the key [settings]), [chrome.storage.local]
    (the keys [sessions] and [clipboardSnippets]) and the alarms created,
    each with its period in minutes. *)
Record store : Type := mkStore {
  settings : option Settings;
  stored : Storage.local;
  clipboardSnippets : option (list string);
  alarms : list (string * nat)
}.

(** The [onInstalled] listener. *)
Definition onInstalled (st : store) : store :=
  {| settings := Some defaultSettings;
     stored := stored st;
     clipboardSnippets := Some [];
     alarms := alarms st ++ [("sessionCleanup", 1440)] |}.

Section Retention.

(** [new Date(s).getTime()]; [None] is an invalid date. *)
Variable parseDate : string -> option Z.
(** The time value of [d] after [d.setDate(d.getDate() - days)]. *)
Variable daysBefore : Z -> nat -> Z.

(** Line 129: [new Date(session.timestamp) >= cutoffDate]; a comparison
    with an invalid date is false. *)
Definition retained (cutoff : Z) (session : Session) : bool :=
  match parseDate (timestamp session) with
  | Some t => (t >=? cutoff)%Z
  | None => false
  end.

(** [cleanupOldSessions()], run when the clock reads [now]. *)
Definition cleanupOldSessions (now : Z) (st : store) : store :=
  match settings st with
  | Some s =>
      match sessionRecording s with
      | Some sr =>
          if autoDelete sr then
            let cutoff := daysBefore now (retentionDays sr) in
            {| settings := settings st;
               stored :=
                 {| sessions :=
                      Some (filter (retained cutoff) (getSessions (stored st))) |};
               clipboardSnippets := clipboardSnippets st;
               alarms := alarms st |}
          else st
      | None => st
      end
  | None => st
  end.

(** The [onAlarm] listener. *)
Definition onAlarm (name : string) (now : Z) (st : store) : store :=
  if String.eqb name "sessionCleanup" then cleanupOldSessions now st else st.

End Retention.

End Background.

(** ** [content/features/commandBar.js]: running a command *)

Module CommandExecution.
Import Dom Control Chrome CommandBar.

(** The command bar module with the form controls of the page: the
    [value] set on a control (the latest first), the element that has the
    focus, and the controls an [input] event was dispatched on. *)
Record world : Type := mkWorld {
  bar : CommandBar.state;
  values : list (nat * string);
  focused : option nat;
  inputEvents : list nat
}.

(** [el.value] for a control the extension has written to. *)
Fixpoint valueOf (vs : list (nat * string)) (u : nat) : option string :=
  match vs with
  | [] => None
  | (v, s) :: r => if v =? u then Some s else valueOf r u
  end.

(** [executeCommand(commandText, selectors)] *)
Definition executeCommand (layout : nat -> Rect) (innerHeight : Z)
    (commandText : string) (selectors : Selectors) (w : world) : outcome world :=
  let document := Dom.document (page (bar w)) in
  match querySelector document (inputArea selectors),
        querySelector document (submitButton selectors) with
  | Some input, Some _ =>
      match uidOf input with
      | Some iu =>
          let written :=
            {| bar := bar w; values := (iu, commandText) :: values w;
               focused := Some iu; inputEvents := inputEvents w ++ [iu] |} in
          match toggleCommandBar layout innerHeight (bar w) with
          | Normal b =>
              Normal {| bar := b; values := values written;
                        focused := focused written;
                        inputEvents := inputEvents written |}
          | Throw b =>
              Throw {| bar := b; values := values written;
                       focused := focused written;
                       inputEvents := inputEvents written |}
          end
      | None => Normal w
      end
  | _, _ => Normal w
  end.

(** The [click] listener of the k-th command button. *)
Definition clickCommandButton (layout : nat -> Rect) (innerHeight : Z)
    (k : nat) (w : world) : outcome world :=
  match commandBar (bar w) with
  | None => Normal w
  | Some b =>
      match nth_error (commandButtons b) k with
      | None => Normal w
      | Some button =>
          executeCommand layout innerHeight (commandText button)
            (targets button) w
      end
  end.

End CommandExecution.

(** * Sample pages and collaborators

    Concrete inputs on which the routines are run below. *)

(** A chatgpt batch with three qualifying nodes among a text node, a
    removal, an attribute record and a non-qualifying element. *)
Definition sampleBatch : list DomUtils.MutationRecord :=
  [ DomUtils.mkMutation DomUtils.childList
      [ Dom.Element 10 "DIV" [] [("data-message-author-role", "user")] [];
        Dom.Text "typing";
        Dom.Element 11 "DIV" ["markdown"] [] [] ] [];
    DomUtils.mkMutation DomUtils.childList [] [Dom.Element 3 "DIV" ["markdown"] [] []];
    DomUtils.mkMutation DomUtils.attributesChange [] [];
    DomUtils.mkMutation DomUtils.childList
      [ Dom.Element 12 "SPAN" ["chat-message"] [] [];
        Dom.Element 13 "DIV" ["markdown"; "prose"] [] [] ] [] ].

(** A stand-in for Prism on plain text: every language has a grammar and
    the markup of a text is the text itself, which parses to one text
    node. *)
Definition plainPrism : SyntaxHighlighter.PrismLib unit :=
  {| SyntaxHighlighter.languages := fun _ => Some tt;
     SyntaxHighlighter.highlight := fun code _ _ => Some code |}.

Definition parsePlain (markup : string) : list Dom.node :=
  Dom.textChildren markup.

(** U+3000, the ideographic space, and U+00A0, the no-break space, as
    their UTF-8 bytes. *)
Definition ideographicSpace : string :=
  String (ascii_of_nat 227)
    (String (ascii_of_nat 128) (String (ascii_of_nat 128) EmptyString)).

Definition noBreakSpace : string :=
  String (ascii_of_nat 194) (String (ascii_of_nat 160) EmptyString).

(** A chatgpt page with a blank code block (uid 4), whose text is spaces,
    a line feed, an ideographic space and a no-break space, and a block
    that holds code (uid 6). *)
Definition blankBlock : Dom.node :=
  Dom.Element 4 "CODE" ["language-python"] []
    [Dom.Text "  "; Dom.Text "
"; Dom.Text (String.append ideographicSpace noBreakSpace)].

Definition blankPage : Dom.page :=
  Dom.mkPage
    (Dom.Element 0 "HTML" [] []
       [Dom.Element 1 "BODY" [] []
          [Dom.Element 2 "DIV" ["markdown"] []
             [Dom.Element 3 "PRE" [] [] [blankBlock];
              Dom.Element 5 "PRE" [] []
                [Dom.Element 6 "CODE" ["language-js"] [] [Dom.Text "let x = 1"]]]]])
    [] 7.

(** A chatgpt page where a code block with text (uid 4) holds a blank code
    element (uid 5) that names its own language. *)
Definition nestedBlankBlock : Dom.node :=
  Dom.Element 5 "CODE" ["language-js"] [] [Dom.Text " "].

Definition nestedBlankPage : Dom.page :=
  Dom.mkPage
    (Dom.Element 0 "HTML" [] []
       [Dom.Element 1 "BODY" [] []
          [Dom.Element 2 "DIV" ["markdown"] []
             [Dom.Element 3 "PRE" [] []
                [Dom.Element 4 "CODE" ["language-js"] []
                   [Dom.Text "x = 1"; nestedBlankBlock]]]]])
    [] 6.

(** A chatgpt page where a code block (uid 4) holds text and another code
    element (uid 5), followed by an ordinary code block (uid 7). *)
Definition nestedPage : Dom.page :=
  Dom.mkPage
    (Dom.Element 0 "HTML" [] []
       [Dom.Element 1 "BODY" [] []
          [Dom.Element 2 "DIV" ["markdown"] []
             [Dom.Element 3 "PRE" [] []
                [Dom.Element 4 "CODE" ["language-javascript"] []
                   [Dom.Text "a"; Dom.Element 5 "CODE" [] [] [Dom.Text "b"]]];
              Dom.Element 6 "PRE" [] []
                [Dom.Element 7 "CODE" ["language-javascript"] [] [Dom.Text "c"]]]]])
    [] 8.

(** A page head with a title and a stylesheet of the page's own. *)
Definition sampleHead : list Dom.node :=
  [ Dom.Element 1 "TITLE" [] [] [Dom.Text "Chat"];
    Dom.Element 2 "LINK" [] [("rel", "stylesheet"); ("href", "/site.css")] [] ].

Definition extensionURL (path : string) : string :=
  String.append "chrome-extension://abcdef/" path.

(** A mistral page: a feedback box with a textarea of its own (uid 3)
    comes before the chat input, whose textarea (uid 5) is the
    platform's input control. *)
Definition mistralPage : Dom.page :=
  Dom.mkPage
    (Dom.Element 0 "HTML" [] []
       [Dom.Element 1 "BODY" [] []
          [Dom.Element 2 "DIV" ["feedback"] [] [Dom.Element 3 "TEXTAREA" [] [] []];
           Dom.Element 4 "DIV" ["chat-input"] []
             [Dom.Element 5 "TEXTAREA" [] [] [];
              Dom.Element 6 "BUTTON" [] [("type", "submit")] []]]])
    [] 7.

(** The boxes of the two textareas in an 800 pixel high viewport. *)
Definition mistralLayout (u : nat) : CommandBar.Rect :=
  if u =? 3 then {| CommandBar.rectTop := 40; CommandBar.rectLeft := 900 |}
  else if u =? 5 then {| CommandBar.rectTop := 700; CommandBar.rectLeft := 200 |}
  else {| CommandBar.rectTop := 0; CommandBar.rectLeft := 0 |}.

(** The n-th date of a run, n below ten. *)
Definition sampleClock (n : nat) : string :=
  String.append "2024-05-01T10:00:0"
    (String (ascii_of_nat (48 + n mod 10)) ".000Z").

(** A chatgpt message node: the role attribute on the outside, the rendered
    markup in a [.markdown] element inside. *)
Definition chatMessage (u : nat) (role body : string) : Dom.node :=
  Dom.Element u "DIV" [] [("data-message-author-role", role)]
    [Dom.Element (S u) "DIV" ["markdown"] []
       [Dom.Element (S (S u)) "P" [] [] [Dom.Text body]]].

Definition threeMessages : list Dom.node :=
  [ chatMessage 10 "user" "Hi";
    chatMessage 20 "assistant" "Hello & welcome";
    chatMessage 30 "user" "2 < 3?" ].

(** The three messages inside a [.chat-container] element (uid 2). *)
Definition chatPage : Dom.page :=
  Dom.mkPage
    (Dom.Element 0 "HTML" [] []
       [Dom.Element 1 "BODY" [] []
          [Dom.Element 2 "MAIN" ["chat-container"] [] threeMessages]])
    [] 100.

(** The same messages on a page that has no [.chat-container] element. *)
Definition plainChatPage : Dom.page :=
  Dom.mkPage
    (Dom.Element 0 "HTML" [] []
       [Dom.Element 1 "BODY" [] []
          [Dom.Element 2 "MAIN" ["conversation"] [] threeMessages]])
    [] 100.

(** A page with a chat container whose second message has been inserted
    but not rendered yet: its [.markdown] element is empty. *)
Definition streamingChatPage : Dom.page :=
  Dom.mkPage
    (Dom.Element 0 "HTML" [] []
       [Dom.Element 1 "BODY" [] []
          [Dom.Element 2 "MAIN" ["chat-container"] []
             [ chatMessage 10 "user" "Hi";
               Dom.Element 20 "DIV" [] [("data-message-author-role", "assistant")]
                 [Dom.Element 21 "DIV" ["markdown"] [] []];
               chatMessage 30 "user" "2 < 3?" ]]])
    [] 100.

(** A page with a chat container whose second message is a placeholder
    with no [.markdown] element yet. *)
Definition pendingChatPage : Dom.page :=
  Dom.mkPage
    (Dom.Element 0 "HTML" [] []
       [Dom.Element 1 "BODY" [] []
          [Dom.Element 2 "MAIN" ["chat-container"] []
             [ chatMessage 10 "user" "Hi";
               Dom.Element 20 "DIV" [] [("data-message-author-role", "assistant")]
                 [Dom.Element 21 "SPAN" ["typing"] [] []];
               chatMessage 30 "user" "2 < 3?" ]]])
    [] 100.

(** A chat container with no message in it. *)
Definition emptyChatPage : Dom.page :=
  Dom.mkPage
    (Dom.Element 0 "HTML" [] []
       [Dom.Element 1 "BODY" [] []
          [Dom.Element 2 "MAIN" ["chat-container"] [] []]])
    [] 100.

(** The user consents whenever asked. *)
Definition consenting : SessionRecorder.ConsentManager :=
  fun _ => SessionRecorder.Resolved true.

(** Consent is on record, so the unforced check says yes, but the user
    declines the forced prompt. *)
Definition cachedButDeclined : SessionRecorder.ConsentManager :=
  fun forcePrompt =>
    if forcePrompt then SessionRecorder.Resolved false
    else SessionRecorder.Resolved true.

(** The recorder initialised on a page; the controls it creates take the
    uids 100 (container), 101 (toggle button) and 102 (indicator). *)
Definition initialisedOn (pg : Dom.page) : SessionRecorder.state :=
  SessionRecorder.initSessionRecorder "chatgpt" consenting
    (SessionRecorder.initial pg).

Definition clickToggle (checkConsent : SessionRecorder.ConsentManager)
    (st : SessionRecorder.state) : SessionRecorder.state :=
  SessionRecorder.toggleRecording Dom.serializeChildren sampleClock "chatgpt"
    SessionRecorder.chatgptSelectors 101 checkConsent
    (Some {| Chrome.success := true |}) st.

(** A clock for the background page: the two ISO dates it knows, in
    milliseconds since the epoch, and days of 86 400 000 ms. *)
Definition sampleParseDate (s : string) : option Z :=
  if String.eqb s "2024-01-01T00:00:00.000Z" then Some 1704067200000%Z
  else if String.eqb s "2024-01-20T00:00:00.000Z" then Some 1705708800000%Z
  else None.

Definition sampleDaysBefore (now : Z) (days : nat) : Z :=
  (now - 86400000 * Z.of_nat days)%Z.

(** A store after installation that holds an old session, a recent one and
    one whose timestamp does not parse. *)
Definition sampleStore : Background.store :=
  {| Background.settings := Some Background.defaultSettings;
     Background.stored :=
       {| Storage.sessions :=
            Some [ Storage.mkSession 1 [] "2024-01-01T00:00:00.000Z";
                   Storage.mkSession 2 [] "2024-01-20T00:00:00.000Z";
                   Storage.mkSession 3 [] "yesterday" ] |};
     Background.clipboardSnippets := Some [];
     Background.alarms := [("sessionCleanup", 1440)] |}.

(** * Properties *)

(** ** The change observer *)

Section ObserverFacts.
Import Dom DomUtils.

Lemma scanAddedNodes_exists (platform : string) (nodes : list node) (flag : bool) :
  scanAddedNodes platform flag nodes = flag || existsb (relevantNode platform) nodes.
Proof.
  unfold scanAddedNodes. revert flag.
  induction nodes as [|n nodes IH]; intros flag; simpl.
  - now rewrite orb_false_r.
  - rewrite IH. destruct (relevantNode platform n), flag; reflexivity.
Qed.

Lemma scanMutations_from (platform : string) (mutations : list MutationRecord)
    (flag : bool) :
  fold_left
    (fun f m =>
       if isChildList m && (0 <? List.length (addedNodes m))
       then scanAddedNodes platform f (addedNodes m)
       else f)
    mutations flag
  = flag || existsb (relevantNode platform) (addedInBatch mutations).
Proof.
  revert flag. induction mutations as [|m mutations IH]; intros flag; simpl.
  - now rewrite orb_false_r.
  - rewrite IH. unfold addedInBatch. simpl. rewrite existsb_app.
    destruct (isChildList m); simpl.
    + destruct (addedNodes m) as [|n l] eqn:E; simpl.
      * reflexivity.
      * rewrite scanAddedNodes_exists.
        destruct (relevantNode platform n), flag,
          (existsb (relevantNode platform) l); reflexivity.
    + reflexivity.
Qed.

Lemma scanMutations_exists (platform : string) (mutations : list MutationRecord) :
  scanMutations platform mutations
  = existsb (relevantNode platform) (addedInBatch mutations).
Proof. unfold scanMutations. now rewrite scanMutations_from. Qed.

(** The test the source writes and the predicate the specification words
    agree on every node and every platform string. *)
Lemma relevantNode_qualifies (platform : string) (n : node) :
  relevantNode platform n = qualifies platform n.
Proof.
  unfold relevantNode, qualifies.
  destruct n as [d|d|u t cl attrs k]; simpl; try reflexivity.
  destruct (String.eqb platform "chatgpt") eqn:E1; simpl.
  - apply String.eqb_eq in E1. subst platform. simpl. now rewrite orb_false_r.
  - destruct (String.eqb platform "mistral"); reflexivity.
Qed.

Lemma existsb_filter_length {A : Type} (f : A -> bool) (l : list A) :
  existsb f l = negb (List.length (filter f l) =? 0).
Proof.
  induction l as [|x l IH]; simpl; [reflexivity|].
  destruct (f x); simpl; [reflexivity | exact IH].
Qed.

Lemma scanMutations_count (platform : string) (mutations : list MutationRecord) :
  scanMutations platform mutations = negb (qualifyingCount platform mutations =? 0).
Proof.
  rewrite scanMutations_exists. unfold qualifyingCount.
  rewrite <- existsb_filter_length.
  induction (addedInBatch mutations) as [|n l IH]; simpl; [reflexivity|].
  now rewrite relevantNode_qualifies, IH.
Qed.

End ObserverFacts.

(** C3.  For every platform string and every mutation batch: when the batch
    adds N >= 1 qualifying element nodes (child-list records only; removals
    and attribute records add none) the reaction callback runs exactly once,
    whatever N is, and when it adds none the callback does not run.  The
    statement is given for an arbitrary callback acting on an arbitrary
    state, and for the callback that counts its own invocations. *)
Theorem observer_reacts_once_per_batch :
  forall (platform : string) (batch : list DomUtils.MutationRecord),
    (1 <= DomUtils.qualifyingCount platform batch ->
       DomUtils.callbackInvocations platform batch = 1
       /\ forall (S : Type) (callback : S -> S) (s : S),
            DomUtils.observerCallback platform callback batch s = callback s)
    /\ (DomUtils.qualifyingCount platform batch = 0 ->
       DomUtils.callbackInvocations platform batch = 0
       /\ forall (S : Type) (callback : S -> S) (s : S),
            DomUtils.observerCallback platform callback batch s = s).
Proof.
  intros platform batch.
  unfold DomUtils.callbackInvocations, DomUtils.observerCallback.
  rewrite scanMutations_count.
  split; intros H.
  - destruct (DomUtils.qualifyingCount platform batch) as [|k]; [lia|].
    simpl. split; [reflexivity | intros; reflexivity].
  - rewrite H. simpl. split; [reflexivity | intros; reflexivity].
Qed.

Lemma observer_reacts_once_per_batch_witness :
  DomUtils.qualifyingCount "chatgpt" sampleBatch = 3
  /\ DomUtils.callbackInvocations "chatgpt" sampleBatch = 1.
Proof.
  split; [reflexivity|].
  apply (proj1 (observer_reacts_once_per_batch "chatgpt" sampleBatch)).
  vm_compute. lia.
Defined.

(** ** The syntax highlighter *)

Section TrimFacts.

Lemma trimStart_step (a : ascii) (r1 : string) :
  Js.trimStart (String a r1)
  = if Js.isWhiteSpace1 a then Js.trimStart r1
    else
      match r1 with
      | EmptyString => String a r1
      | String b r2 =>
          if Js.isWhiteSpace2 a b then Js.trimStart r2
          else
            match r2 with
            | EmptyString => String a r1
            | String c r3 =>
                if Js.isWhiteSpace3 a b c then Js.trimStart r3 else String a r1
            end
      end.
Proof. reflexivity. Qed.

Lemma allWhiteSpace_step (a : ascii) (r1 : string) :
  Js.allWhiteSpace (String a r1)
  = if Js.isWhiteSpace1 a then Js.allWhiteSpace r1
    else
      match r1 with
      | EmptyString => false
      | String b r2 =>
          if Js.isWhiteSpace2 a b then Js.allWhiteSpace r2
          else
            match r2 with
            | EmptyString => false
            | String c r3 => Js.isWhiteSpace3 a b c && Js.allWhiteSpace r3
            end
      end.
Proof. reflexivity. Qed.

(** What [trimStart] leaves is white space throughout exactly when the
    whole string was. *)
Lemma allWhiteSpace_trimStart_bounded (n : nat) :
  forall s, String.length s <= n ->
            Js.allWhiteSpace (Js.trimStart s) = Js.allWhiteSpace s.
Proof.
  induction n as [|n IH]; intros s Hlen.
  - destruct s; [reflexivity | simpl in Hlen; lia].
  - destruct s as [|a r1]; [reflexivity|].
    rewrite trimStart_step, (allWhiteSpace_step a r1).
    simpl in Hlen.
    destruct (Js.isWhiteSpace1 a) eqn:H1; [apply IH; lia|].
    destruct r1 as [|b r2]; [now rewrite allWhiteSpace_step, H1|].
    simpl in Hlen.
    destruct (Js.isWhiteSpace2 a b) eqn:H2; [apply IH; lia|].
    destruct r2 as [|c r3]; [now rewrite allWhiteSpace_step, H1, H2|].
    simpl in Hlen.
    destruct (Js.isWhiteSpace3 a b c) eqn:H3.
    + simpl andb. apply IH. lia.
    + now rewrite allWhiteSpace_step, H1, H2, H3.
Qed.

Lemma allWhiteSpace_trimStart (s : string) :
  Js.allWhiteSpace (Js.trimStart s) = Js.allWhiteSpace s.
Proof. exact (allWhiteSpace_trimStart_bounded (String.length s) s (le_n _)). Qed.

Lemma trimStart_allWhiteSpace (s : string) :
  Js.allWhiteSpace s = true -> Js.trimStart s = "".
Proof.
  intros H.
  assert (Hkeep : forall n t, String.length t <= n ->
                              Js.allWhiteSpace t = true -> Js.trimStart t = "").
  { clear. induction n as [|n IH]; intros t Hlen Ht.
    - destruct t; [reflexivity | simpl in Hlen; lia].
    - destruct t as [|a r1]; [reflexivity|].
      rewrite trimStart_step. rewrite allWhiteSpace_step in Ht. simpl in Hlen.
      destruct (Js.isWhiteSpace1 a); [apply IH; [lia | exact Ht]|].
      destruct r1 as [|b r2]; [discriminate|]. simpl in Hlen.
      destruct (Js.isWhiteSpace2 a b); [apply IH; [lia | exact Ht]|].
      destruct r2 as [|c r3]; [discriminate|]. simpl in Hlen.
      destruct (Js.isWhiteSpace3 a b c); [|discriminate].
      apply IH; [lia | exact Ht]. }
  exact (Hkeep (String.length s) s (le_n _) H).
Qed.

(** [!s.trim()] holds exactly for the strings that are empty or made of
    white space only. *)
Lemma trim_empty_iff (s : string) :
  Js.truthy (Js.trim s) = negb (Js.allWhiteSpace s).
Proof.
  unfold Js.trim. rewrite <- (allWhiteSpace_trimStart s).
  destruct (Js.trimStart s) as [|c r]; [reflexivity|].
  cbn [Js.trimEnd]. destruct (Js.allWhiteSpace (String c r)); reflexivity.
Qed.

(** [trim] on Unicode white space: an ideographic space and a no-break
    space go with the spaces around them; U+200B, the zero-width space
    (E2 80 8B), is not white space and stays. *)
Example trim_unicode_white_space :
  Js.trim (String.append " "
             (String.append ideographicSpace
                (String.append "x" (String.append noBreakSpace " ")))) = "x"
  /\ Js.trim (String (ascii_of_nat 226)
                (String (ascii_of_nat 128) (String (ascii_of_nat 139) " ")))
     = String (ascii_of_nat 226)
         (String (ascii_of_nat 128) (String (ascii_of_nat 139) "")).
Proof. split; reflexivity. Qed.

End TrimFacts.

Section HighlighterFacts.
Import Dom Control SyntaxHighlighter.

Variable Grammar : Type.
Variable prism : option (PrismLib Grammar).
Variable parseHTML : string -> list node.

(** A block that bears the processed marker is skipped: the callback
    returns at line 39 with the page and the count as they were. *)
Lemma marked_block_skipped (pg : page) (count u : nat) (codeBlock : node) :
  getNode pg u = Some codeBlock ->
  contains (classesOf codeBlock) PROCESSED = true ->
  processCodeBlock Grammar prism parseHTML (pg, count) u = Normal (pg, count).
Proof.
  intros Hget Hmark. unfold processCodeBlock. now rewrite Hget, Hmark.
Qed.

(** A block whose text is empty or white space leaves the callback, by
    whichever exit, with the page and the count as they were. *)
Lemma blank_block_state (pg : page) (count u : nat) (codeBlock : node) :
  getNode pg u = Some codeBlock ->
  Js.allWhiteSpace (textContent codeBlock) = true ->
  caught (processCodeBlock Grammar prism parseHTML (pg, count) u) = (pg, count).
Proof.
  intros Hget Hblank. unfold processCodeBlock. rewrite Hget.
  destruct (contains (classesOf codeBlock) PROCESSED); [reflexivity|].
  destruct (determineLanguage pg u codeBlock) as [language|]; [|reflexivity].
  destruct prism as [Prism|]; [|reflexivity].
  now rewrite trim_empty_iff, Hblank.
Qed.

(** A pass over blocks that all bear the marker changes nothing and
    counts nothing. *)
Lemma marked_blocks_pass (pg : page) (count : nat) (us : list nat) :
  (forall u, In u us ->
     exists n, getNode pg u = Some n
               /\ contains (classesOf n) PROCESSED = true) ->
  forEach (processCodeBlock Grammar prism parseHTML) us (pg, count)
  = Normal (pg, count).
Proof.
  induction us as [|u us IH]; intros H; cbn [forEach]; [reflexivity|].
  destruct (H u (or_introl eq_refl)) as (n & Hget & Hmark).
  rewrite (marked_block_skipped pg count u n Hget Hmark).
  apply IH. intros v Hv. apply H. now right.
Qed.

(** When every code block of the document bears the marker, and each
    reference of the node list denotes the node it was selected as,
    [initSyntaxHighlighter] leaves the page as it is and highlights
    nothing. *)
Lemma fully_marked_pass_changes_nothing (platform : string)
    (isReinitialization : bool) (pg : page) (selectors : Selectors) :
  PLATFORM_SELECTORS platform = Some selectors ->
  (forall n,
     In n (querySelectorAll (document pg) (codeBlockSelector selectors)) ->
     contains (classesOf n) PROCESSED = true
     /\ forall u, uidOf n = Some u -> getNode pg u = Some n) ->
  initSyntaxHighlighter Grammar prism parseHTML platform isReinitialization pg
  = (pg, 0).
Proof.
  intros Hsel Hall. unfold initSyntaxHighlighter. rewrite Hsel.
  rewrite marked_blocks_pass; [reflexivity|].
  intros u Hu. apply in_flat_map in Hu. destruct Hu as (n & Hn & Hu).
  destruct (Hall n Hn) as (Hmark & Hget).
  destruct (uidOf n) as [v|] eqn:E; simpl in Hu; [|contradiction].
  destruct Hu as [Hu|[]]. subst v.
  exists n. split; [now apply Hget | exact Hmark].
Qed.

End HighlighterFacts.

(** The statement for blank code blocks over a whole pass rests on the
    facts about a page under an update and follows them below.  On
    [blankPage] a whole pass highlights the other block only, and a second
    pass finds the blank block unmarked and highlights nothing. *)
Example blank_block_over_two_passes :
  let pass := SyntaxHighlighter.initSyntaxHighlighter unit (Some plainPrism)
                parsePlain "chatgpt" true in
  snd (pass blankPage) = 1
  /\ Dom.getNode (fst (pass blankPage)) 4 = Some blankBlock
  /\ snd (pass (fst (pass blankPage))) = 0
  /\ Dom.getNode (fst (pass (fst (pass blankPage)))) 4 = Some blankBlock.
Proof. vm_compute. repeat split. Qed.

(** C2, evaluated where it fails.  The first pass over [nestedPage] selects
    the blocks 4, 5 and 7.  Highlighting block 4 replaces its children, so
    block 5 is no longer in the document when its turn comes: it has no
    language class, reading the tag name of its missing parent throws
    outside the inner [try], and the pass ends before block 7.  The second
    pass, with no change to the document in between, highlights block 7. *)
Theorem nested_code_block_second_pass_highlights :
  let pass := SyntaxHighlighter.initSyntaxHighlighter unit (Some plainPrism)
                parsePlain "chatgpt" true in
  let first := pass nestedPage in
  let second := pass (fst first) in
  map Dom.uidOf
    (Dom.querySelectorAll (Dom.document nestedPage)
       [[Dom.SelClass "markdown"]; [Dom.SelTag "CODE"]])
  = [Some 4; Some 5; Some 7]
  /\ snd first = 1
  /\ option_map Dom.classesOf (Dom.getNode (fst first) 4)
     = Some ["language-javascript"; "prism-highlighted"]
  /\ Dom.parentElement (fst first) 5 = None
  /\ option_map Dom.classesOf (Dom.getNode (fst first) 7)
     = Some ["language-javascript"]
  /\ snd second = 1
  /\ option_map Dom.classesOf (Dom.getNode (fst second) 7)
     = Some ["language-javascript"; "prism-highlighted"].
Proof. vm_compute. repeat split. Qed.

(** ** The theme manager *)

Section ThemeFacts.
Import Dom ThemeManager.

Variable getURL : string -> string.

Lemma filter_classRemove_same (cs l : list string) :
  filter (contains cs) (classRemove l cs) = [].
Proof.
  unfold classRemove. induction l as [|c l IH]; simpl; [reflexivity|].
  destruct (contains cs c) eqn:E; simpl; [exact IH|]. now rewrite E.
Qed.

Lemma filter_none_not_contains (cs l : list string) (c : string) :
  filter (contains cs) l = [] -> contains cs c = true -> contains l c = false.
Proof.
  intros Hf Hc. unfold contains.
  induction l as [|x l IH]; simpl; [reflexivity|].
  simpl in Hf. destruct (contains cs x) eqn:Ex; [discriminate|].
  destruct (String.eqb c x) eqn:E; simpl.
  - apply String.eqb_eq in E. subst x. congruence.
  - now apply IH.
Qed.

Lemma filter_classAdd_marker (cs l : list string) (c : string) :
  filter (contains cs) l = [] -> contains cs c = true ->
  filter (contains cs) (classAdd l c) = [c].
Proof.
  intros Hf Hc. unfold classAdd.
  rewrite (filter_none_not_contains cs l c Hf Hc).
  rewrite filter_app, Hf. simpl. now rewrite Hc.
Qed.

Lemma filter_classRemove_other (cs rs l : list string) :
  (forall c, contains cs c = true -> contains rs c = false) ->
  filter (contains cs) (classRemove l rs) = filter (contains cs) l.
Proof.
  intros Hdisj. unfold classRemove.
  induction l as [|c l IH]; simpl; [reflexivity|].
  destruct (contains cs c) eqn:E.
  - rewrite (Hdisj c E). simpl. now rewrite E, IH.
  - destruct (contains rs c); simpl; [exact IH|]. now rewrite E, IH.
Qed.

Lemma filter_classAdd_other (cs l : list string) (c : string) :
  contains cs c = false ->
  filter (contains cs) (classAdd l c) = filter (contains cs) l.
Proof.
  intros Hc. unfold classAdd. destruct (contains l c); [reflexivity|].
  rewrite filter_app. simpl. rewrite Hc. apply app_nil_r.
Qed.

Lemma prism_classes_not_markers (c : string) :
  contains THEME_CLASSES c = true ->
  contains ["prism-light"; "prism-dark"; "prism-high-contrast"] c = false.
Proof.
  unfold contains, THEME_CLASSES. simpl. intros H.
  repeat rewrite orb_false_r in *.
  repeat (apply orb_true_iff in H; destruct H as [H|H]);
    apply String.eqb_eq in H; subst c; reflexivity.
Qed.

(** The highlighter's own body classes leave the theme markers alone. *)
Lemma highlighter_theme_keeps_markers (theme : string) (l : list string) :
  filter (contains THEME_CLASSES)
    (SyntaxHighlighter.updateSyntaxHighlighterTheme theme l)
  = filter (contains THEME_CLASSES) l.
Proof.
  unfold SyntaxHighlighter.updateSyntaxHighlighterTheme.
  destruct (String.eqb theme "dark"); [|destruct (String.eqb theme "high-contrast")];
    (rewrite filter_classAdd_other by reflexivity);
    apply filter_classRemove_other; exact prism_classes_not_markers.
Qed.

Lemma available_theme_class (theme : string) :
  In theme AVAILABLE_THEMES ->
  contains THEME_CLASSES (String.append "theme-" theme) = true.
Proof.
  unfold AVAILABLE_THEMES. simpl.
  intros [H|[H|[H|[H|[]]]]]; subst theme; reflexivity.
Qed.

Lemma available_theme_token (theme : string) :
  In theme AVAILABLE_THEMES ->
  validToken (String.append "theme-" theme) = true.
Proof.
  unfold AVAILABLE_THEMES. simpl.
  intros [H|[H|[H|[H|[]]]]]; subst theme; reflexivity.
Qed.

(** After [applyTheme] with an available theme the body carries that
    theme's marker and no other. *)
Lemma applyTheme_markers (platform theme : string) (st : state) :
  In theme AVAILABLE_THEMES ->
  themeMarkers (applyTheme getURL platform theme st)
  = [String.append "theme-" theme].
Proof.
  intros Hin. unfold themeMarkers, applyTheme.
  rewrite (available_theme_token theme Hin). simpl.
  rewrite highlighter_theme_keeps_markers.
  apply filter_classAdd_marker.
  - apply filter_classRemove_same.
  - now apply available_theme_class.
Qed.

Lemma filter_below (pageHead : list node) (floor u : nat) :
  Forall (fun n => match uidOf n with Some v => v < floor | None => True end)
    pageHead ->
  floor <= u ->
  filter (fun n => negb (hasUid u n)) pageHead = pageHead.
Proof.
  intros Hall Hle. induction Hall as [|n l Hn Hl IH]; simpl; [reflexivity|].
  rewrite IH. destruct n as [d|d|v t c a k]; simpl in *; try reflexivity.
  destruct (v =? u) eqn:E; simpl; [|reflexivity].
  apply Nat.eqb_eq in E. lia.
Qed.

Lemma applyTheme_first (platform theme : string) (pageHead : list node)
    (body : list string) (floor : nat) :
  managed getURL pageHead floor (applyTheme getURL platform theme (initial pageHead body floor)).
Proof.
  exists floor. unfold applyTheme, initial. cbv zeta.
  destruct (validToken (String.append "theme-" theme)); simpl;
    repeat split; auto.
Qed.

Lemma applyTheme_managed (platform theme : string) (pageHead : list node)
    (floor : nat) (st : state) :
  Forall (fun n => match uidOf n with Some v => v < floor | None => True end)
    pageHead ->
  managed getURL pageHead floor st ->
  managed getURL pageHead floor (applyTheme getURL platform theme st).
Proof.
  intros Hall (u & Hle & Hsheet & Hnext & Hhead).
  exists (S u). unfold applyTheme. rewrite Hsheet, Hnext, Hhead. cbv zeta.
  destruct (validToken (String.append "theme-" theme)); simpl;
    (repeat split; try lia);
    rewrite filter_app; simpl; rewrite Nat.eqb_refl; simpl;
    rewrite app_nil_r; now rewrite (filter_below pageHead floor u Hall Hle).
Qed.

Lemma applyThemes_managed (platform : string) (themes : list string)
    (pageHead : list node) (floor : nat) (st : state) :
  Forall (fun n => match uidOf n with Some v => v < floor | None => True end)
    pageHead ->
  managed getURL pageHead floor st ->
  managed getURL pageHead floor (applyThemes getURL platform themes st).
Proof.
  intros Hall. revert st. unfold applyThemes.
  induction themes as [|t themes IH]; intros st Hm; simpl; [exact Hm|].
  apply IH. now apply applyTheme_managed.
Qed.

Lemma applyThemes_snoc (platform : string) (themes : list string) (theme : string)
    (st : state) :
  applyThemes getURL platform (themes ++ [theme]) st
  = applyTheme getURL platform theme (applyThemes getURL platform themes st).
Proof. unfold applyThemes. now rewrite fold_left_app. Qed.

Lemma applyTheme_current (platform theme : string) (st : state) :
  currentTheme (applyTheme getURL platform theme st) = theme.
Proof.
  unfold applyTheme. cbv zeta.
  destruct (validToken (String.append "theme-" theme)); reflexivity.
Qed.

End ThemeFacts.

(** C5.  Start from the module as loaded into any page whose head nodes
    have identities below [floor].  After any sequence of [applyTheme]
    calls that ends with an available theme [Y] (for whatever platform
    string): the body carries exactly one theme marker class, [theme-Y],
    a marker class being one of the four classes of [THEME_CLASSES], one
    per available theme; the head is the page's own head followed
    by exactly one link element, the stylesheet of [Y], which is the node
    [themeStylesheet] refers to and is none of the page's own nodes; and
    [currentTheme] is [Y].  Every earlier link is gone: each call removes
    the link of the call before it and appends a new one. *)
Theorem theme_exclusive_after_any_sequence :
  forall (getURL : string -> string) (platform : string)
         (earlier : list string) (Y : string)
         (pageHead : list Dom.node) (pageBody : list string) (floor : nat),
    Forall (fun n => match Dom.uidOf n with Some v => v < floor | None => True end)
      pageHead ->
    In Y ThemeManager.AVAILABLE_THEMES ->
    let st :=
      ThemeManager.applyThemes getURL platform (earlier ++ [Y])
        (ThemeManager.initial pageHead pageBody floor) in
    ThemeManager.themeMarkers st = [String.append "theme-" Y]
    /\ (exists u,
          ThemeManager.head st
          = pageHead ++ [ThemeManager.stylesheetLink getURL u Y]
          /\ ThemeManager.themeStylesheet st = Some u
          /\ floor <= u)
    /\ ThemeManager.currentTheme st = Y.
Proof.
  intros getURL platform earlier Y pageHead pageBody floor Hall HY st.
  subst st. rewrite applyThemes_snoc. split; [|split].
  - now apply applyTheme_markers.
  - assert (Hm : ThemeManager.managed getURL pageHead floor
                   (ThemeManager.applyTheme getURL platform Y
                      (ThemeManager.applyThemes getURL platform earlier
                         (ThemeManager.initial pageHead pageBody floor)))).
    { destruct earlier as [|X earlier].
      - apply applyTheme_first.
      - apply applyTheme_managed; [exact Hall|].
        change (ThemeManager.applyThemes getURL platform (X :: earlier)
                  (ThemeManager.initial pageHead pageBody floor))
          with (ThemeManager.applyThemes getURL platform earlier
                  (ThemeManager.applyTheme getURL platform X
                     (ThemeManager.initial pageHead pageBody floor))).
        apply applyThemes_managed; [exact Hall|]. apply applyTheme_first. }
    destruct Hm as (u & Hle & Hsheet & Hnext & Hhead).
    exists u. rewrite Hhead, Hsheet. rewrite applyTheme_current. auto.
  - apply applyTheme_current.
Qed.

Lemma theme_exclusive_after_any_sequence_witness :
  Forall (fun n => match Dom.uidOf n with Some v => v < 3 | None => True end)
    sampleHead
  /\ In "high-contrast" ThemeManager.AVAILABLE_THEMES
  /\ let st :=
       ThemeManager.applyThemes extensionURL "chatgpt"
         (["dark"; "custom"] ++ ["high-contrast"])
         (ThemeManager.initial sampleHead ["theme-dark"; "app"] 3) in
     ThemeManager.themeMarkers st = ["theme-high-contrast"]
     /\ (exists u,
           ThemeManager.head st
           = sampleHead
             ++ [ThemeManager.stylesheetLink extensionURL u "high-contrast"]
           /\ ThemeManager.themeStylesheet st = Some u
           /\ 3 <= u)
     /\ ThemeManager.currentTheme st = "high-contrast".
Proof.
  assert (Hhead : Forall (fun n => match Dom.uidOf n with
                                   | Some v => v < 3
                                   | None => True
                                   end) sampleHead)
    by (repeat constructor).
  assert (Hin : In "high-contrast" ThemeManager.AVAILABLE_THEMES)
    by (simpl; auto).
  split; [exact Hhead|]. split; [exact Hin|].
  exact (theme_exclusive_after_any_sequence extensionURL "chatgpt"
           ["dark"; "custom"] "high-contrast" sampleHead
           ["theme-dark"; "app"] 3 Hhead Hin).
Defined.

(** The same run, evaluated: the body and the head it leaves. *)
Example theme_switch_evaluated :
  let st :=
    ThemeManager.applyThemes extensionURL "chatgpt" ["dark"; "high-contrast"]
      (ThemeManager.initial sampleHead ["theme-dark"; "app"] 3) in
  ThemeManager.bodyClasses st = ["app"; "theme-high-contrast"; "prism-high-contrast"]
  /\ ThemeManager.head st
     = sampleHead
       ++ [Dom.Element 4 "LINK" []
             [("rel", "stylesheet");
              ("href", "chrome-extension://abcdef/themes/high-contrast.css")] []].
Proof. vm_compute. split; reflexivity. Qed.

(** A theme outside [AVAILABLE_THEMES] is outside the four marker classes:
    its class is added like any other and is not among those line 129
    removes. *)
Example unknown_theme_class_stays :
  ThemeManager.bodyClasses
    (ThemeManager.applyThemes extensionURL "chatgpt" ["solarized"; "dark"]
       (ThemeManager.initial sampleHead [] 3))
  = ["theme-solarized"; "theme-dark"; "prism-dark"].
Proof. reflexivity. Qed.

(** ** The command bar *)

Section CommandBarFacts.
Import Dom Control Chrome CommandBar.

(** The selector [toggleCommandBar] queries is the chatgpt one, whatever
    the platform: the left operand of [||] is a non-empty string. *)
Lemma toggle_selector_is_chatgpt :
  orElse selectorTruthy (inputArea chatgptSelectors) (inputArea mistralSelectors)
  = inputArea chatgptSelectors.
Proof. reflexivity. Qed.

(** Showing the bar places it by the first [textarea] of the document, when
    there is one, and leaves its position alone otherwise; hiding it never
    moves it. *)
Lemma toggleCommandBar_places (layout : nat -> Rect) (innerHeight : Z)
    (st : state) (bar : Bar) :
  commandBar st = Some bar ->
  exists bar',
    toggleCommandBar layout innerHeight st
    = Normal {| commands := commands st; commandBar := Some bar';
                isCommandBarVisible := negb (isCommandBarVisible st);
                page := page st; outbox := outbox st |}
    /\ commandButtons bar' = commandButtons bar
    /\ (isCommandBarVisible st = true ->
          display bar' = "none" /\ bottom bar' = bottom bar /\ left bar' = left bar)
    /\ (isCommandBarVisible st = false ->
          display bar' = "block"
          /\ match platformInput "chatgpt" (page st) with
             | Some (Element iu _ _ _ _) =>
                 bottom bar' = Some (innerHeight - rectTop (layout iu) + 10)%Z
                 /\ left bar' = Some (rectLeft (layout iu))
             | _ => bottom bar' = bottom bar /\ left bar' = left bar
             end).
Proof.
  intros Hbar. unfold toggleCommandBar. rewrite Hbar.
  rewrite toggle_selector_is_chatgpt. unfold platformInput. simpl PLATFORM_SELECTORS.
  destruct (isCommandBarVisible st) eqn:Hv; simpl negb; cbv iota.
  - eexists. split; [reflexivity|]. simpl.
    repeat (split || intro); try discriminate; reflexivity.
  - change (inputArea chatgptSelectors) with [[SelTag "TEXTAREA"]].
    destruct (querySelector (document (page st)) [[SelTag "TEXTAREA"]])
      as [[d|d|iu t c a k]|] eqn:Hq; simpl uidOf; cbv iota;
      eexists; (split; [reflexivity|]); simpl;
      repeat (split || intro); try discriminate; try reflexivity;
      simpl in Hq; rewrite Hq; split; reflexivity.
Qed.

(** [createCommandBarUI] leaves a hidden bar with one button per command,
    whether or not placing the toggle button throws. *)
Lemma createCommandBarUI_bar (platform : string) (selectors : Selectors) (st : state) :
  let st' := caught (createCommandBarUI platform selectors st) in
  commands st' = commands st
  /\ outbox st' = outbox st
  /\ isCommandBarVisible st' = isCommandBarVisible st
  /\ commandBar st'
     = Some {| display := "none"; bottom := None; left := None;
               commandButtons :=
                 map (fun c => {| label := name c; commandText := text c;
                                  targets := selectors |}) (commands st) |}.
Proof.
  unfold createCommandBarUI. simpl.
  destruct (addCommandBarToggle platform selectors (page st)); simpl; auto.
Qed.

(** [addCustomCommand] on a bar that exists: one command more at the end
    of the list, one button more at the end of the container, and a
    [SAVE_SETTINGS] request whose command list is the whole new list. *)
Lemma addCustomCommand_appends (name text : string) (response : option Settings)
    (st : state) (bar : Bar) :
  commandBar st = Some bar ->
  let st' := addCustomCommand name text response st in
  commands st' = commands st ++ [ {| Chrome.name := name; Chrome.text := text |} ]
  /\ option_map (fun b => map label (commandButtons b)) (commandBar st')
     = Some (map label (commandButtons bar) ++ [name])
  /\ exists settings,
       outbox st' = outbox st ++ [GET_SETTINGS; SAVE_SETTINGS settings]
       /\ Chrome.commands settings = Some (commands st')
       /\ Chrome.theme settings = Chrome.theme (getSettings response)
       /\ Chrome.sessionRecording settings
          = Chrome.sessionRecording (getSettings response).
Proof.
  intros Hbar. unfold addCustomCommand. rewrite Hbar. simpl.
  repeat split.
  - now rewrite map_app.
  - eexists. repeat split.
Qed.

End CommandBarFacts.

(** C8.  On a supported platform, with no command list in the stored
    settings, the bar starts with the 5 built-in commands and 5 command
    buttons.  Adding the custom command Foo with the text "Do foo: " appends
    it to the in-memory list and to the buttons, giving 6 of each, and sends
    one [SAVE_SETTINGS] request whose settings record has that whole list of
    6 as its command list, in place of whatever list the stored settings
    held.  There is no merging by name: adding Foo again gives 7 commands,
    the last two both Foo, and the next request carries all 7. *)
Theorem custom_command_appended_and_persisted :
  forall (platform : string) (pg : Dom.page)
         (stored answer1 answer2 : option Chrome.Settings),
    CommandBar.PLATFORM_SELECTORS platform <> None ->
    Chrome.commands (Chrome.getSettings stored) = None ->
    let foo := {| Chrome.name := "Foo"; Chrome.text := "Do foo: " |} in
    let st0 := CommandBar.initCommandBar platform stored (CommandBar.initial pg) in
    let st1 := CommandBar.addCustomCommand "Foo" "Do foo: " answer1 st0 in
    let st2 := CommandBar.addCustomCommand "Foo" "Do foo: " answer2 st1 in
    let buttons :=
      fun st => option_map (fun b => map CommandBar.label (CommandBar.commandButtons b))
                  (CommandBar.commandBar st) in
    (CommandBar.commands st0 = CommandBar.DEFAULT_COMMANDS
     /\ List.length (CommandBar.commands st0) = 5
     /\ buttons st0 = Some ["Explain"; "Summarize"; "Translate"; "Code"; "Fix"])
    /\ (CommandBar.commands st1 = CommandBar.DEFAULT_COMMANDS ++ [foo]
        /\ List.length (CommandBar.commands st1) = 6
        /\ buttons st1
           = Some ["Explain"; "Summarize"; "Translate"; "Code"; "Fix"; "Foo"]
        /\ exists settings,
             CommandBar.outbox st1
             = CommandBar.outbox st0
               ++ [Chrome.GET_SETTINGS; Chrome.SAVE_SETTINGS settings]
             /\ Chrome.commands settings
                = Some (CommandBar.DEFAULT_COMMANDS ++ [foo])
             /\ option_map (@List.length Chrome.Command) (Chrome.commands settings)
                = Some 6)
    /\ (CommandBar.commands st2 = CommandBar.DEFAULT_COMMANDS ++ [foo; foo]
        /\ exists settings,
             CommandBar.outbox st2
             = CommandBar.outbox st1
               ++ [Chrome.GET_SETTINGS; Chrome.SAVE_SETTINGS settings]
             /\ Chrome.commands settings
                = Some (CommandBar.DEFAULT_COMMANDS ++ [foo; foo])).
Proof.
  intros platform pg stored answer1 answer2 Hsup Hnone foo st0 st1 st2 buttons.
  assert (H0 : CommandBar.commands st0 = CommandBar.DEFAULT_COMMANDS
               /\ CommandBar.commandBar st0
                  = Some {| CommandBar.display := "none";
                            CommandBar.bottom := None; CommandBar.left := None;
                            CommandBar.commandButtons :=
                              map (fun c =>
                                     {| CommandBar.label := Chrome.name c;
                                        CommandBar.commandText := Chrome.text c;
                                        CommandBar.targets :=
                                          match CommandBar.PLATFORM_SELECTORS platform with
                                          | Some sel => sel
                                          | None => CommandBar.chatgptSelectors
                                          end |})
                                CommandBar.DEFAULT_COMMANDS |}).
  { subst st0. unfold CommandBar.initCommandBar.
    destruct (CommandBar.PLATFORM_SELECTORS platform) as [sel|]; [|congruence].
    rewrite Hnone.
    destruct (createCommandBarUI_bar platform sel
                (CommandBar.send (CommandBar.initial pg) Chrome.GET_SETTINGS))
      as (Hc & _ & _ & Hb).
    split; [exact Hc | exact Hb]. }
  destruct H0 as [Hc0 Hb0].
  destruct (addCustomCommand_appends "Foo" "Do foo: " answer1 st0 _ Hb0)
    as (Hc1 & Hl1 & s1 & Ho1 & Hs1 & _).
  fold st1 in Hc1, Hl1, Ho1, Hs1.
  assert (Hb1 : exists bar1, CommandBar.commandBar st1 = Some bar1
                 /\ map CommandBar.label (CommandBar.commandButtons bar1)
                    = ["Explain"; "Summarize"; "Translate"; "Code"; "Fix"; "Foo"]).
  { destruct (CommandBar.commandBar st1) as [bar1|]; [|discriminate].
    exists bar1. split; [reflexivity|]. simpl in Hl1. now inversion Hl1. }
  destruct Hb1 as (bar1 & Hb1 & Hlab1).
  destruct (addCustomCommand_appends "Foo" "Do foo: " answer2 st1 _ Hb1)
    as (Hc2 & _ & s2 & Ho2 & Hs2 & _).
  fold st2 in Hc2, Ho2, Hs2.
  rewrite Hc0 in Hc1. rewrite Hc1 in Hc2, Hs1. rewrite Hc2 in Hs2.
  split; [|split].
  - split; [exact Hc0|]. split; [now rewrite Hc0|].
    unfold buttons. now rewrite Hb0.
  - split; [exact Hc1|]. split; [now rewrite Hc1|].
    split; [unfold buttons; now rewrite Hb1, <- Hlab1|].
    exists s1. split; [exact Ho1|]. split; [exact Hs1|]. now rewrite Hs1.
  - split; [now rewrite Hc2, <- app_assoc|].
    exists s2. split; [exact Ho2|]. now rewrite Hs2, <- app_assoc.
Qed.

Lemma custom_command_appended_and_persisted_witness :
  CommandBar.PLATFORM_SELECTORS "mistral" <> None
  /\ Chrome.commands (Chrome.getSettings None) = None
  /\ let st0 :=
       CommandBar.initCommandBar "mistral" None (CommandBar.initial mistralPage) in
     let st1 := CommandBar.addCustomCommand "Foo" "Do foo: " None st0 in
     List.length (CommandBar.commands st0) = 5
     /\ List.length (CommandBar.commands st1) = 6.
Proof.
  assert (Hsup : CommandBar.PLATFORM_SELECTORS "mistral" <> None) by discriminate.
  split; [exact Hsup|]. split; [reflexivity|].
  destruct (custom_command_appended_and_persisted "mistral" mistralPage
              None None None Hsup eq_refl)
    as ((_ & H0 & _) & (_ & H1 & _) & _).
  split; [exact H0 | exact H1].
Defined.

(** Through the Add button the text is trimmed first: the command that
    the fields Foo and "Do foo: " add has the text "Do foo:". *)
Example add_button_trims_text :
  CommandBar.commands
    (CommandBar.onAddClicked " Foo" "Do foo: " None
       (CommandBar.initCommandBar "chatgpt" None (CommandBar.initial mistralPage)))
  = CommandBar.DEFAULT_COMMANDS
    ++ [ {| Chrome.name := "Foo"; Chrome.text := "Do foo:" |} ].
Proof. reflexivity. Qed.

(** C7, evaluated where it fails.  On the mistral page above the platform's
    own input control is the textarea 5, at top 700 and left 200.  The bar,
    initialised for mistral and then shown, is placed by the box of the
    textarea 3, the first [textarea] of the document: bottom 770 and left
    900, where the platform's input would give bottom 110 and left 200. *)
Theorem mistral_bar_placed_by_first_textarea :
  let st0 := CommandBar.initCommandBar "mistral" None (CommandBar.initial mistralPage) in
  let st1 := Control.caught (CommandBar.toggleCommandBar mistralLayout 800 st0) in
  let placed :=
    option_map (fun b => (CommandBar.display b, CommandBar.bottom b, CommandBar.left b))
      (CommandBar.commandBar st1) in
  option_map Dom.uidOf (CommandBar.platformInput "mistral" (CommandBar.page st0))
  = Some (Some 5)
  /\ CommandBar.isCommandBarVisible st1 = true
  /\ placed = Some ("block", Some 770%Z, Some 900%Z)
  /\ (800 - CommandBar.rectTop (mistralLayout 5) + 10 = 110)%Z
  /\ CommandBar.rectLeft (mistralLayout 5) = 200%Z.
Proof. vm_compute. repeat split. Qed.

(** ** The session recorder *)

Section RecorderFacts.
Import Dom Control Chrome DomUtils SessionRecorder.

Variable innerHTML : node -> string.
Variable toISOString : nat -> string.

Lemma pushMessage_truthy (st : state) (r c : string) :
  Js.truthy r = true -> Js.truthy c = true ->
  pushMessage toISOString (Some r) (Some c) st = appended toISOString st r c.
Proof. intros Hr Hc. unfold pushMessage. now rewrite Hr, Hc. Qed.

Lemma pushMessage_isRecording (r c : option string) (st : state) :
  isRecording (pushMessage toISOString r c st) = isRecording st.
Proof.
  unfold pushMessage. destruct r as [r|], c as [c|]; try reflexivity.
  destruct (Js.truthy r && Js.truthy c); reflexivity.
Qed.

Lemma captureMessage_chatgpt (st : state) (m md : node) (r : string) :
  getAttribute (attributesOf m) "data-message-author-role" = Some r ->
  Js.truthy r = true ->
  elementQuerySelector m [SelClass "markdown"] = Some md ->
  Js.truthy (innerHTML md) = true ->
  captureMessage innerHTML toISOString "chatgpt" st m
  = Normal (appended toISOString st r (innerHTML md)).
Proof.
  intros Hr Ht Hmd Hc. unfold captureMessage. simpl String.eqb. cbv iota.
  rewrite Hmd, Hr. now rewrite pushMessage_truthy.
Qed.

Lemma recordAddedNode_chatgpt (st : state) (m md : node) (r : string) :
  isElement m = true ->
  getAttribute (attributesOf m) "data-message-author-role" = Some r ->
  Js.truthy r = true ->
  elementQuerySelector m [SelClass "markdown"] = Some md ->
  Js.truthy (innerHTML md) = true ->
  recordAddedNode innerHTML toISOString "chatgpt" st m
  = appended toISOString st r (innerHTML md).
Proof.
  intros He Hr Ht Hmd Hc. unfold recordAddedNode, isMessageNode, hasAttribute.
  rewrite He, Hr, Hmd. simpl. now rewrite Ht, Hc.
Qed.

Lemma recordAddedNode_isRecording (platform : string) (st : state) (n : node) :
  isRecording (recordAddedNode innerHTML toISOString platform st n) = isRecording st.
Proof.
  unfold recordAddedNode.
  destruct (isMessageNode platform n); [|reflexivity].
  destruct (String.eqb platform "chatgpt"); [apply pushMessage_isRecording|].
  destruct (String.eqb platform "mistral"); [apply pushMessage_isRecording|].
  reflexivity.
Qed.

(** While idle the observer callback returns at line 446. *)
Lemma messageObserver_idle (platform : string) (mutations : list MutationRecord)
    (st : state) :
  isRecording st = false ->
  messageObserver innerHTML toISOString platform mutations st = st.
Proof. intros H. unfold messageObserver. now rewrite H. Qed.

(** While idle a node the page adds changes the page and nothing else. *)
Lemma pageAppendChild_idle (parent : nat) (child : node) (st : state) :
  isRecording st = false ->
  pageAppendChild innerHTML toISOString parent child st
  = setPage st (appendChild (page st) parent child).
Proof.
  intros H. unfold pageAppendChild.
  assert (Hidle : isRecording (setPage st (appendChild (page st) parent child)) = false)
    by exact H.
  revert Hidle. generalize (setPage st (appendChild (page st) parent child)).
  induction (observers st) as [|o os IH]; intros s Hs; simpl; [reflexivity|].
  destruct (inSubtree (page st) (snd o) parent).
  - rewrite messageObserver_idle by exact Hs. now apply IH.
  - now apply IH.
Qed.

(** The controls are updated without touching what is recorded or sent. *)
Lemma updateControls_core (button : nat) (recording : bool) (st : state) :
  let st' := caught (updateControls button recording st) in
  isRecording st' = isRecording st
  /\ recordedSession st' = recordedSession st
  /\ outbox st' = outbox st
  /\ observers st' = observers st
  /\ dateReads st' = dateReads st.
Proof.
  unfold updateControls. simpl.
  destruct (recordingIndicator st); simpl; auto.
Qed.

Lemma showSaveConfirmation_core (st : state) :
  let st' := caught (showSaveConfirmation st) in
  isRecording st' = isRecording st
  /\ recordedSession st' = recordedSession st
  /\ outbox st' = outbox st
  /\ observers st' = observers st
  /\ dateReads st' = dateReads st.
Proof.
  unfold showSaveConfirmation.
  destruct (documentBody (page st)) as [body|]; simpl; auto.
  destruct (uidOf body); simpl; auto.
Qed.

(** [saveSession] with nothing recorded returns at line 495. *)
Lemma saveSession_empty (response : option Response) (st : state) :
  recordedSession st = [] -> saveSession response st = st.
Proof. intros H. unfold saveSession. now rewrite H. Qed.

(** [saveSession] with something recorded sends exactly one request, which
    carries the whole buffer. *)
Lemma saveSession_sends (response : option Response) (st : state) :
  recordedSession st <> [] ->
  let st' := saveSession response st in
  outbox st' = outbox st ++ [SAVE_SESSION (recordedSession st) true]
  /\ isRecording st' = isRecording st
  /\ recordedSession st' = recordedSession st.
Proof.
  intros H. unfold saveSession.
  destruct (recordedSession st) as [|e l] eqn:E; [congruence|]. simpl.
  destruct response as [r|]; simpl; [|rewrite E; auto].
  destruct (success r); simpl; [|rewrite E; auto].
  destruct (showSaveConfirmation_core
              (send st (SAVE_SESSION (e :: l) true))) as (H1 & H2 & H3 & _).
  rewrite H1, H2, H3. simpl. rewrite E. auto.
Qed.

Lemma createRecordingControls_isRecording (platform : string)
    (selectors : Selectors) (st : state) :
  isRecording (caught (createRecordingControls platform selectors st))
  = isRecording st.
Proof.
  unfold createRecordingControls.
  destruct (querySelector (document (page st)) (chatContainer selectors)) as [c|].
  - destruct (uidOf c); reflexivity.
  - destruct (documentBody (page st)) as [b|]; [|reflexivity].
    destruct (uidOf b); reflexivity.
Qed.

Lemma setupMessageObserver_isRecording (platform : string)
    (selectors : Selectors) (st : state) :
  isRecording (setupMessageObserver platform selectors st) = isRecording st.
Proof.
  unfold setupMessageObserver.
  destruct (querySelector (document (page st)) (chatContainer selectors)) as [c|];
    [|reflexivity].
  destruct (uidOf c); reflexivity.
Qed.

(** Initialising the recorder, whatever the page-load consent check says,
    leaves the recording flag as it was. *)
Lemma initSessionRecorder_isRecording (platform : string)
    (checkConsent : ConsentManager) (st : state) :
  isRecording (initSessionRecorder platform checkConsent st) = isRecording st.
Proof.
  unfold initSessionRecorder.
  destruct (PLATFORM_SELECTORS platform) as [selectors|]; [|reflexivity].
  destruct (checkConsent false) as [[|]|]; try reflexivity.
  destruct (querySelector (document (page st)) [[SelClass "recording-controls"]]).
  - apply setupMessageObserver_isRecording.
  - pose proof (createRecordingControls_isRecording platform selectors st) as H.
    destruct (createRecordingControls platform selectors st) as [st1|st1];
      simpl in H; [|exact H].
    now rewrite setupMessageObserver_isRecording.
Qed.

(** A step that takes an idle recorder to a recording one is a click on
    the toggle whose forced consent check resolved to [true]. *)
Lemma idle_step_recording (e : event) (st : state) :
  isRecording st = false ->
  isRecording (step innerHTML toISOString e st) = true ->
  exists platform selectors button checkConsent response,
    e = ToggleClicked platform selectors button checkConsent response
    /\ checkConsent true = Resolved true.
Proof.
  intros Hidle.
  destruct e as [platform cc | platform selectors button cc response
                | parent child]; simpl.
  - rewrite initSessionRecorder_isRecording. congruence.
  - intros H. exists platform, selectors, button, cc, response.
    split; [reflexivity|].
    unfold toggleRecording in H. rewrite Hidle in H. simpl in H.
    destruct (cc true) as [[|]|]; [reflexivity | congruence | congruence].
  - rewrite pageAppendChild_idle by exact Hidle. simpl. congruence.
Qed.

(** Along any run from the state the module is loaded in: if the recorder
    ends up recording, one of the events was a click on the toggle whose
    forced consent check resolved to [true]. *)
Lemma recording_run_has_consented_click (events : list event) (pg : Dom.page) :
  isRecording (run innerHTML toISOString events (initial pg)) = true ->
  exists platform selectors button checkConsent response,
    In (ToggleClicked platform selectors button checkConsent response) events
    /\ checkConsent true = Resolved true.
Proof.
  induction events as [|e events IH] using rev_ind; [discriminate|].
  unfold run in *. rewrite fold_left_app. simpl. intros H.
  destruct (isRecording
              (fold_left (fun s e0 => step innerHTML toISOString e0 s) events
                 (initial pg))) eqn:Hprev.
  - destruct (IH eq_refl) as (p & sel & b & cc & r & Hin & Hyes).
    exists p, sel, b, cc, r. split; [|exact Hyes].
    apply in_or_app. now left.
  - destruct (idle_step_recording e _ Hprev H)
      as (p & sel & b & cc & r & He & Hyes).
    exists p, sel, b, cc, r. split; [|exact Hyes].
    apply in_or_app. right. subst e. now left.
Qed.

End RecorderFacts.

(** C6.  Stopping a recording whose buffer is empty sends nothing: for
    every platform, consent manager and channel answer, the toggle leaves
    the recorder idle with the list of sent messages exactly as it was, so
    no [SAVE_SESSION] request, and no empty session, goes out. *)
Theorem empty_recording_is_not_saved :
  forall (innerHTML : Dom.node -> string) (toISOString : nat -> string)
         (platform : string) (selectors : SessionRecorder.Selectors)
         (button : nat) (checkConsent : SessionRecorder.ConsentManager)
         (response : option Chrome.Response) (st : SessionRecorder.state),
    SessionRecorder.isRecording st = true ->
    SessionRecorder.recordedSession st = [] ->
    let st' :=
      SessionRecorder.toggleRecording innerHTML toISOString platform selectors
        button checkConsent response st in
    SessionRecorder.isRecording st' = false
    /\ SessionRecorder.outbox st' = SessionRecorder.outbox st
    /\ SessionRecorder.savedSessions st' = SessionRecorder.savedSessions st
    /\ SessionRecorder.recordedSession st' = [].
Proof.
  intros innerHTML toISOString platform selectors button checkConsent response
    st Hrec Hempty st'.
  subst st'. unfold SessionRecorder.toggleRecording. rewrite Hrec. simpl negb.
  cbv iota.
  rewrite saveSession_empty by exact Hempty.
  destruct (updateControls_core button false (SessionRecorder.setRecording st false))
    as (H1 & H2 & H3 & _).
  unfold SessionRecorder.savedSessions.
  rewrite H1, H2, H3. simpl. auto.
Qed.

(** C4.  From an idle recorder, whatever happens next (an initialisation, a
    click on the toggle, a node added by the page): if the recorder is
    recording afterwards, what happened was a click on the toggle and the
    consent check made for that click with a forced prompt,
    [checkConsent(true)], resolved to [true]; and a click for which that
    check resolves to [false] or is rejected leaves the whole state as
    it was, whatever the same consent manager answers without the forced
    prompt, as at page load. *)
Theorem recording_starts_only_on_fresh_consent :
  forall (innerHTML : Dom.node -> string) (toISOString : nat -> string)
         (e : SessionRecorder.event) (st : SessionRecorder.state),
    SessionRecorder.isRecording st = false ->
    (SessionRecorder.isRecording (SessionRecorder.step innerHTML toISOString e st)
     = true ->
     exists platform selectors button checkConsent response,
       e = SessionRecorder.ToggleClicked platform selectors button checkConsent
             response
       /\ checkConsent true = SessionRecorder.Resolved true)
    /\ (forall platform selectors button checkConsent response,
          e = SessionRecorder.ToggleClicked platform selectors button
                checkConsent response ->
          checkConsent true <> SessionRecorder.Resolved true ->
          SessionRecorder.step innerHTML toISOString e st = st).
Proof.
  intros innerHTML toISOString e st Hidle. split.
  - now apply idle_step_recording.
  - intros platform selectors button cc response He Hno. subst e. simpl.
    unfold SessionRecorder.toggleRecording. rewrite Hidle. simpl.
    destruct (cc true) as [[|]|]; [congruence | reflexivity | reflexivity].
Qed.

Lemma empty_recording_is_not_saved_witness :
  let recording := clickToggle consenting (initialisedOn emptyChatPage) in
  SessionRecorder.isRecording recording = true
  /\ SessionRecorder.recordedSession recording = []
  /\ SessionRecorder.isRecording (clickToggle consenting recording) = false
  /\ SessionRecorder.outbox (clickToggle consenting recording)
     = SessionRecorder.outbox recording
  /\ SessionRecorder.savedSessions (clickToggle consenting recording) = [].
Proof.
  intros recording. split; [reflexivity|]. split; [reflexivity|].
  destruct (empty_recording_is_not_saved Dom.serializeChildren sampleClock
              "chatgpt" SessionRecorder.chatgptSelectors 101 consenting
              (Some {| Chrome.success := true |}) recording
              eq_refl eq_refl) as (H1 & H2 & H3 & _).
  split; [exact H1|]. split; [exact H2 | exact H3].
Defined.

Lemma recording_starts_only_on_fresh_consent_witness :
  SessionRecorder.isRecording (initialisedOn chatPage) = false
  /\ cachedButDeclined false = SessionRecorder.Resolved true
  /\ cachedButDeclined true <> SessionRecorder.Resolved true
  /\ SessionRecorder.step Dom.serializeChildren sampleClock
       (SessionRecorder.ToggleClicked "chatgpt" SessionRecorder.chatgptSelectors
          101 cachedButDeclined None)
       (initialisedOn chatPage)
     = initialisedOn chatPage.
Proof.
  assert (Hno : cachedButDeclined true <> SessionRecorder.Resolved true)
    by discriminate.
  split; [reflexivity|]. split; [reflexivity|]. split; [exact Hno|].
  exact (proj2 (recording_starts_only_on_fresh_consent Dom.serializeChildren
                  sampleClock
                  (SessionRecorder.ToggleClicked "chatgpt"
                     SessionRecorder.chatgptSelectors 101 cachedButDeclined None)
                  (initialisedOn chatPage) eq_refl)
           "chatgpt" SessionRecorder.chatgptSelectors 101 cachedButDeclined None
           eq_refl Hno).
Defined.

(** *** The recording scenario *)

Section RecorderScenario.
Import Dom Control Chrome DomUtils SessionRecorder.

Variable innerHTML : node -> string.
Variable toISOString : nat -> string.

Lemma messageWith_element (m : node) (role content : string) :
  messageWith innerHTML m role content -> isElement m = true.
Proof.
  intros (Hr & _). destruct m; simpl in *; [discriminate | discriminate | reflexivity].
Qed.

Lemma appendedAll_core (rcs : list (string * string)) (st : state) :
  isRecording (appendedAll toISOString st rcs) = isRecording st
  /\ recordedSession (appendedAll toISOString st rcs)
     = recordedSession st ++ stamped toISOString (dateReads st) rcs
  /\ outbox (appendedAll toISOString st rcs) = outbox st
  /\ observers (appendedAll toISOString st rcs) = observers st
  /\ page (appendedAll toISOString st rcs) = page st
  /\ recordingIndicator (appendedAll toISOString st rcs) = recordingIndicator st
  /\ dateReads (appendedAll toISOString st rcs) = List.length rcs + dateReads st.
Proof.
  revert st. unfold appendedAll.
  induction rcs as [|[r c] rcs IH]; intros st; simpl.
  - rewrite app_nil_r. repeat split.
  - destruct (IH (appended toISOString st r c)) as (H1 & H2 & H3 & H4 & H5 & H6 & H7).
    rewrite H1, H2, H3, H4, H5, H6, H7. simpl.
    rewrite <- app_assoc. simpl. repeat split. lia.
Qed.

(** The initial snapshot: every message node that has a role and rendered
    content is captured, in the order of the node list. *)
Lemma captureAll_chatgpt (ms : list node) (rcs : list (string * string)) (st : state) :
  Forall2 (fun m rc => messageWith innerHTML m (fst rc) (snd rc)) ms rcs ->
  forEach (captureMessage innerHTML toISOString "chatgpt") ms st
  = Normal (appendedAll toISOString st rcs).
Proof.
  intros H. revert st. induction H as [|m [r c] ms rcs Hm _ IH]; intros st.
  - reflexivity.
  - simpl in Hm. destruct Hm as (Hr & Ht & md & Hmd & Hc & Htc). subst c.
    simpl forEach.
    rewrite (captureMessage_chatgpt innerHTML toISOString st m md r Hr Ht Hmd Htc).
    apply IH.
Qed.

(** Starting a recording with consent: the recorder is recording, holds the
    snapshot and has sent nothing. *)
Lemma start_captures_snapshot (st : state) (button : nat)
    (checkConsent : ConsentManager) (response : option Response)
    (ms : list node) (rcs : list (string * string)) :
  isRecording st = false ->
  checkConsent true = Resolved true ->
  querySelectorAll (document (page st)) (messages chatgptSelectors) = ms ->
  Forall2 (fun m rc => messageWith innerHTML m (fst rc) (snd rc)) ms rcs ->
  let st1 :=
    toggleRecording innerHTML toISOString "chatgpt" chatgptSelectors button
      checkConsent response st in
  isRecording st1 = true
  /\ recordedSession st1 = stamped toISOString (dateReads st) rcs
  /\ outbox st1 = outbox st
  /\ observers st1 = observers st
  /\ dateReads st1 = List.length rcs + dateReads st.
Proof.
  intros Hidle Hyes Hq Hms. unfold toggleRecording.
  rewrite Hidle, Hyes. simpl negb. cbv iota.
  unfold captureExistingMessages.
  change (page (setSession (setRecording st true) [])) with (page st).
  rewrite Hq.
  rewrite (captureAll_chatgpt ms rcs _ Hms).
  destruct (updateControls_core button true
              (appendedAll toISOString (setSession (setRecording st true) []) rcs))
    as (H1 & H2 & H3 & H4 & H5).
  destruct (appendedAll_core rcs (setSession (setRecording st true) []))
    as (G1 & G2 & G3 & G4 & _ & _ & G7).
  simpl. rewrite H1, H2, H3, H4, H5, G1, G2, G3, G4, G7. simpl. auto.
Qed.

(** While recording, a message node that the page adds under the node the
    one observer watches is appended to the buffer. *)
Lemma observed_message_appended (st : state) (container parent : nat)
    (m : node) (role content : string) :
  isRecording st = true ->
  observers st = [("chatgpt", container)] ->
  inSubtree (page st) container parent = true ->
  messageWith innerHTML m role content ->
  let st' := pageAppendChild innerHTML toISOString parent m st in
  isRecording st' = true
  /\ recordedSession st' = recordedSession st ++ stamped toISOString (dateReads st) [(role, content)]
  /\ outbox st' = outbox st.
Proof.
  intros Hrec Hobs Hsub Hm. unfold pageAppendChild. rewrite Hobs. simpl.
  rewrite Hsub. unfold messageObserver.
  change (isRecording (setPage st (appendChild (page st) parent m)))
    with (isRecording st).
  rewrite Hrec. simpl.
  pose proof (messageWith_element m role content Hm) as He.
  destruct Hm as (Hr & Ht & md & Hmd & Hc & Htc). subst content.
  rewrite (recordAddedNode_chatgpt innerHTML toISOString _ m md role He Hr Ht Hmd Htc).
  simpl. auto.
Qed.

(** Stopping a recording that holds something sends the buffer, whole and
    in order, in one request. *)
Lemma stop_sends_buffer (st : state) (platform : string) (selectors : Selectors)
    (button : nat) (checkConsent : ConsentManager) (response : option Response) :
  isRecording st = true ->
  recordedSession st <> [] ->
  let st' :=
    toggleRecording innerHTML toISOString platform selectors button checkConsent
      response st in
  isRecording st' = false
  /\ outbox st' = outbox st ++ [SAVE_SESSION (recordedSession st) true].
Proof.
  intros Hrec Hne. unfold toggleRecording. rewrite Hrec. simpl negb. cbv iota.
  destruct (saveSession_sends response (setRecording st false) Hne)
    as (H1 & H2 & _).
  destruct (updateControls_core button false
              (saveSession response (setRecording st false)))
    as (G1 & _ & G3 & _).
  simpl. rewrite G1, G3, H1, H2. simpl. auto.
Qed.

End RecorderScenario.

(** C1, as amended.  On chatgpt, take an idle recorder whose one message
    observer watches the node [container] (the [.chat-container] element
    found at initialisation) and a document whose message nodes are exactly
    [m1], [m2], [m3], in document order, with the roles user, assistant,
    user, each holding a [.markdown] element with non-empty markup.  A click
    on the toggle with consent confirmed starts the recording and captures
    the three, in that order.  An assistant message node with non-empty
    markup that the page then adds under a node inside [container] is
    appended as the fourth entry.  The next click stops the recording and
    sends exactly one [SAVE_SESSION] request, whose content is these four
    entries in that order. *)
Theorem recording_scenario_captures_four_in_order :
  forall (innerHTML : Dom.node -> string) (toISOString : nat -> string)
         (st : SessionRecorder.state) (button container parent : nat)
         (m1 m2 m3 m4 : Dom.node) (c1 c2 c3 c4 : string)
         (startConsent stopConsent : SessionRecorder.ConsentManager)
         (startResponse stopResponse : option Chrome.Response),
    SessionRecorder.isRecording st = false ->
    SessionRecorder.observers st = [("chatgpt", container)] ->
    Dom.querySelectorAll (Dom.document (SessionRecorder.page st))
      (SessionRecorder.messages SessionRecorder.chatgptSelectors)
    = [m1; m2; m3] ->
    SessionRecorder.messageWith innerHTML m1 "user" c1 ->
    SessionRecorder.messageWith innerHTML m2 "assistant" c2 ->
    SessionRecorder.messageWith innerHTML m3 "user" c3 ->
    SessionRecorder.messageWith innerHTML m4 "assistant" c4 ->
    startConsent true = SessionRecorder.Resolved true ->
    let st1 :=
      SessionRecorder.toggleRecording innerHTML toISOString "chatgpt"
        SessionRecorder.chatgptSelectors button startConsent startResponse st in
    SessionRecorder.inSubtree (SessionRecorder.page st1) container parent = true ->
    let st2 := SessionRecorder.pageAppendChild innerHTML toISOString parent m4 st1 in
    let st3 :=
      SessionRecorder.toggleRecording innerHTML toISOString "chatgpt"
        SessionRecorder.chatgptSelectors button stopConsent stopResponse st2 in
    let first := SessionRecorder.dateReads st in
    let three :=
      SessionRecorder.stamped toISOString first [("user", c1); ("assistant", c2); ("user", c3)] in
    let four :=
      SessionRecorder.stamped toISOString first
        [("user", c1); ("assistant", c2); ("user", c3); ("assistant", c4)] in
    (SessionRecorder.isRecording st1 = true
     /\ SessionRecorder.recordedSession st1 = three)
    /\ (SessionRecorder.isRecording st2 = true
        /\ SessionRecorder.recordedSession st2 = four)
    /\ (SessionRecorder.isRecording st3 = false
        /\ SessionRecorder.outbox st3
           = SessionRecorder.outbox st ++ [Chrome.SAVE_SESSION four true]
        /\ SessionRecorder.savedSessions st3
           = SessionRecorder.savedSessions st ++ [four]).
Proof.
  intros innerHTML toISOString st button container parent m1 m2 m3 m4
    c1 c2 c3 c4 startConsent stopConsent startResponse stopResponse
    Hidle Hobs Hq Hm1 Hm2 Hm3 Hm4 Hyes st1 Hsub st2 st3 first three four.
  assert (Hall : Forall2
                   (fun m rc => SessionRecorder.messageWith innerHTML m (fst rc) (snd rc))
                   [m1; m2; m3]
                   [("user", c1); ("assistant", c2); ("user", c3)])
    by (constructor; [exact Hm1|]; constructor; [exact Hm2|];
        constructor; [exact Hm3|]; constructor).
  destruct (start_captures_snapshot innerHTML toISOString st button startConsent
              startResponse [m1; m2; m3]
              [("user", c1); ("assistant", c2); ("user", c3)]
              Hidle Hyes Hq Hall)
    as (A1 & A2 & A3 & A4 & A5).
  fold st1 in A1, A2, A3, A4, A5.
  assert (Hobs1 : SessionRecorder.observers st1 = [("chatgpt", container)])
    by congruence.
  destruct (observed_message_appended innerHTML toISOString st1 container parent
              m4 "assistant" c4 A1 Hobs1 Hsub Hm4)
    as (B1 & B2 & B3).
  fold st2 in B1, B2, B3.
  assert (Hfour : SessionRecorder.recordedSession st2 = four).
  { rewrite B2, A2, A5. reflexivity. }
  assert (Hne : SessionRecorder.recordedSession st2 <> [])
    by (rewrite Hfour; discriminate).
  destruct (stop_sends_buffer innerHTML toISOString st2 "chatgpt"
              SessionRecorder.chatgptSelectors button stopConsent stopResponse
              B1 Hne)
    as (C1 & C2).
  fold st3 in C1, C2.
  split; [split; [exact A1 | exact A2]|].
  split; [split; [exact B1 | exact Hfour]|].
  split; [exact C1|]. rewrite Hfour, B3, A3 in C2. split; [exact C2|].
  unfold SessionRecorder.savedSessions. rewrite C2, flat_map_app. simpl.
  reflexivity.
Qed.

Lemma append_empty_r (s : string) : String.append s "" = s.
Proof. induction s as [|c r IH]; simpl; [reflexivity | now rewrite IH]. Qed.

Lemma chatMessage_messageWith (u : nat) (role body : string) :
  Js.truthy role = true ->
  SessionRecorder.messageWith Dom.serializeChildren (chatMessage u role body) role
    (String.append "<p>" (String.append (Dom.escapeText body) "</p>")).
Proof.
  intros Hr. unfold SessionRecorder.messageWith, chatMessage. simpl.
  split; [reflexivity|]. split; [exact Hr|].
  eexists. split; [reflexivity|]. split; [|reflexivity].
  unfold Dom.serializeChildren. simpl.
  rewrite !append_empty_r. reflexivity.
Qed.

Lemma recording_scenario_captures_four_in_order_witness :
  let st0 := initialisedOn chatPage in
  let st1 := clickToggle consenting st0 in
  let st2 :=
    SessionRecorder.pageAppendChild Dom.serializeChildren sampleClock 2
      (chatMessage 40 "assistant" "Yes") st1 in
  let st3 := clickToggle cachedButDeclined st2 in
  (SessionRecorder.isRecording st0 = false
   /\ SessionRecorder.observers st0 = [("chatgpt", 2)]
   /\ Dom.querySelectorAll (Dom.document (SessionRecorder.page st0))
        (SessionRecorder.messages SessionRecorder.chatgptSelectors)
      = threeMessages
   /\ SessionRecorder.inSubtree (SessionRecorder.page st1) 2 2 = true)
  /\ SessionRecorder.savedSessions st3
     = [ [ Chrome.mkRecorded "user" "<p>Hi</p>" "2024-05-01T10:00:00.000Z";
           Chrome.mkRecorded "assistant" "<p>Hello &amp; welcome</p>"
             "2024-05-01T10:00:01.000Z";
           Chrome.mkRecorded "user" "<p>2 &lt; 3?</p>" "2024-05-01T10:00:02.000Z";
           Chrome.mkRecorded "assistant" "<p>Yes</p>" "2024-05-01T10:00:03.000Z" ] ].
Proof.
  intros st0 st1 st2 st3.
  split; [repeat split; reflexivity|].
  pose proof
    (recording_scenario_captures_four_in_order Dom.serializeChildren sampleClock
       (initialisedOn chatPage) 101 2 2
       (chatMessage 10 "user" "Hi") (chatMessage 20 "assistant" "Hello & welcome")
       (chatMessage 30 "user" "2 < 3?") (chatMessage 40 "assistant" "Yes")
       _ _ _ _ consenting cachedButDeclined
       (Some {| Chrome.success := true |}) (Some {| Chrome.success := true |})
       eq_refl eq_refl eq_refl
       (chatMessage_messageWith 10 "user" "Hi" eq_refl)
       (chatMessage_messageWith 20 "assistant" "Hello & welcome" eq_refl)
       (chatMessage_messageWith 30 "user" "2 < 3?" eq_refl)
       (chatMessage_messageWith 40 "assistant" "Yes" eq_refl)
       eq_refl eq_refl) as H.
  destruct H as (_ & _ & _ & _ & H).
  exact H.
Defined.

(** C1 as stated, evaluated where it fails.  On [plainChatPage] the three
    message nodes with the roles user, assistant, user are in the document,
    but there is no [.chat-container] element, so initialisation installs no
    observer: the recording starts with the three entries, the assistant
    node added while it is active is not appended, and stopping sends a
    session of three entries.  On [streamingChatPage] the three nodes are in
    the document too, but the assistant node has no markup yet, and the
    recording starts with two entries. *)
Lemma recording_scenario_as_stated_fails :
  (let st0 := initialisedOn plainChatPage in
   let st1 := clickToggle consenting st0 in
   let st2 :=
     SessionRecorder.pageAppendChild Dom.serializeChildren sampleClock 2
       (chatMessage 40 "assistant" "Yes") st1 in
   let st3 := clickToggle consenting st2 in
   map (fun m => Dom.getAttribute (Dom.attributesOf m) "data-message-author-role")
     (Dom.querySelectorAll (Dom.document (SessionRecorder.page st0))
        (SessionRecorder.messages SessionRecorder.chatgptSelectors))
   = [Some "user"; Some "assistant"; Some "user"]
   /\ SessionRecorder.observers st0 = []
   /\ SessionRecorder.isRecording st1 = true
   /\ List.length (SessionRecorder.recordedSession st1) = 3
   /\ SessionRecorder.isRecording st2 = true
   /\ List.length (SessionRecorder.recordedSession st2) = 3
   /\ map (@List.length Chrome.RecordedMessage) (SessionRecorder.savedSessions st3)
      = [3])
  /\ (let st0 := initialisedOn streamingChatPage in
      let st1 := clickToggle consenting st0 in
      map (fun m => Dom.getAttribute (Dom.attributesOf m) "data-message-author-role")
        (Dom.querySelectorAll (Dom.document (SessionRecorder.page st0))
           (SessionRecorder.messages SessionRecorder.chatgptSelectors))
      = [Some "user"; Some "assistant"; Some "user"]
      /\ SessionRecorder.isRecording st1 = true
      /\ map Chrome.role (SessionRecorder.recordedSession st1) = ["user"; "user"]).
Proof. vm_compute. repeat split. Qed.

(** ** The orchestrator *)

Lemma detected_platform (url : string) (document : Dom.node) :
  DomUtils.detectChatbotPlatform url document = Some "chatgpt"
  \/ DomUtils.detectChatbotPlatform url document = Some "mistral"
  \/ DomUtils.detectChatbotPlatform url document = None.
Proof.
  unfold DomUtils.detectChatbotPlatform.
  destruct (Js.includes url "chat.openai.com"); [now left|].
  destruct (Js.includes url "mistral.ai"); [now right; left|].
  destruct (Dom.querySelector document [[Dom.SelClass "markdown"]]); [now left|].
  destruct (Dom.querySelector document [[Dom.SelClass "chat-message"]]);
    [now right; left | now right; right].
Qed.

(** C10.  For every page address and document, every answer of the
    settings channel and every outcome of the consent check: when no
    platform is detected nothing is initialised; when one is, the theme
    manager is initialised exactly once, with the stored theme, whatever
    the settings record holds, while the syntax highlighter, the clipboard
    manager and the command bar are initialised once if their own flag is
    true and not at all otherwise, and the session recorder is initialised
    once if its [enabled] flag is true and the consent check resolves to
    [true], and not at all otherwise. *)
Theorem theme_manager_is_not_gated :
  forall (url : string) (document : Dom.node)
         (response : option Chrome.Settings)
         (consent : SessionRecorder.settled bool),
    let detected := DomUtils.detectChatbotPlatform url document in
    let settings := Chrome.getSettings response in
    let run := Content.initializeExtension detected response consent in
    match detected with
    | None => run = []
    | Some platform =>
        filter Content.isThemeInit run
        = [Content.InitThemeManager platform (Chrome.theme settings)]
        /\ Content.calls Content.isHighlighterInit run
           = (if Chrome.flag (Chrome.syntaxHighlighting settings) then 1 else 0)
        /\ Content.calls Content.isClipboardInit run
           = (if Chrome.flag (Chrome.clipboardEnabled settings) then 1 else 0)
        /\ Content.calls Content.isCommandBarInit run
           = (if Chrome.flag (Chrome.commandBarEnabled settings) then 1 else 0)
        /\ Content.calls Content.isRecorderInit run
           = (if Content.recordingEnabled settings
                 && match consent with
                    | SessionRecorder.Resolved true => true
                    | _ => false
                    end
              then 1 else 0)
    end.
Proof.
  intros url document response consent detected settings run.
  subst run detected.
  destruct (detected_platform url document) as [E|[E|E]]; rewrite E;
    [| |reflexivity];
    unfold Content.initializeExtension, Content.startSessionRecorder,
      Content.recordingEnabled, Content.calls;
    fold settings;
    destruct (Chrome.flag (Chrome.syntaxHighlighting settings));
    destruct (Chrome.flag (Chrome.clipboardEnabled settings));
    destruct (Chrome.flag (Chrome.commandBarEnabled settings));
    destruct (Chrome.sessionRecording settings) as [[en ad rd]|];
    try destruct en; try destruct consent as [[|]|];
    simpl; repeat split; reflexivity.
Qed.

(** * Further properties *)

(** ** The document tree *)

(** Induction on a node with the hypothesis for every child. *)
Lemma node_nested_ind (P : Dom.node -> Prop) :
  (forall d, P (Dom.Text d)) ->
  (forall d, P (Dom.Comment d)) ->
  (forall u t c a k, Forall P k -> P (Dom.Element u t c a k)) ->
  forall n, P n.
Proof.
  intros Htext Hcomment Helem. fix IH 1.
  intros [d|d|u t c a k]; [apply Htext | apply Hcomment |].
  apply Helem. induction k as [|x k IHk]; constructor; [apply IH | exact IHk].
Qed.

Lemma flat_map_ext_Forall {A B : Type} (f g : A -> list B) (l : list A) :
  Forall (fun x => f x = g x) l -> flat_map f l = flat_map g l.
Proof.
  induction 1 as [|x l Hx _ IH]; simpl; [reflexivity | now rewrite Hx, IH].
Qed.

Lemma filter_flat_map {A B : Type} (p : B -> bool) (f : A -> list B) (l : list A) :
  filter p (flat_map f l) = flat_map (fun x => filter p (f x)) l.
Proof.
  induction l as [|x l IH]; simpl; [reflexivity|].
  now rewrite filter_app, IH.
Qed.

(** For a compound selector, [querySelectorAll] returns exactly the
    elements that match, in document order. *)
Lemma selectFrom_compound (c : Dom.compound) (n : Dom.node) :
  forall ancestors,
    Dom.selectFrom [c] ancestors n
    = filter (fun e => Dom.matchesCompound e c) (Dom.elements n).
Proof.
  induction n as [d|d|u t cl a k IH] using node_nested_ind; intros ancestors;
    try reflexivity.
  simpl Dom.elements. simpl filter.
  change (Dom.selectFrom [c] ancestors (Dom.Element u t cl a k))
    with ((if Dom.matchesSelector ancestors (Dom.Element u t cl a k) [c]
           then [Dom.Element u t cl a k] else [])
          ++ flat_map (Dom.selectFrom [c] (Dom.Element u t cl a k :: ancestors)) k).
  assert (Hm : Dom.matchesSelector ancestors (Dom.Element u t cl a k) [c]
               = Dom.matchesCompound (Dom.Element u t cl a k) c).
  { unfold Dom.matchesSelector. simpl. destruct ancestors; apply andb_true_r. }
  rewrite Hm, filter_flat_map.
  rewrite (flat_map_ext_Forall
             (Dom.selectFrom [c] (Dom.Element u t cl a k :: ancestors))
             (fun x => filter (fun e => Dom.matchesCompound e c) (Dom.elements x)) k).
  - destruct (Dom.matchesCompound (Dom.Element u t cl a k) c); reflexivity.
  - eapply Forall_impl; [|exact IH]. intros x Hx. apply Hx.
Qed.

Lemma elements_are_elements (n : Dom.node) :
  Forall (fun e => Dom.isElement e = true) (Dom.elements n).
Proof.
  induction n as [d|d|u t cl a k IH] using node_nested_ind; simpl;
    try constructor; [reflexivity|].
  induction IH as [|x k Hx _ IHk]; simpl; [constructor|].
  apply Forall_app. split; assumption.
Qed.

(** [document.querySelector('.c')] finds an element exactly when some
    element of the document carries the class. *)
Lemma querySelector_class (root : Dom.node) (c : string) :
  match Dom.querySelector root [[Dom.SelClass c]] with
  | Some _ => true
  | None => false
  end
  = existsb (fun e => Dom.contains (Dom.classesOf e) c) (Dom.elements root).
Proof.
  unfold Dom.querySelector, Dom.querySelectorAll. rewrite selectFrom_compound.
  pose proof (elements_are_elements root) as Hel.
  induction Hel as [|e l He _ IH]; simpl; [reflexivity|].
  unfold Dom.matchesCompound at 1. rewrite He. simpl.
  destruct e as [d|d|u t cl a k]; try discriminate. simpl.
  rewrite andb_true_r.
  destruct (Dom.contains cl c); simpl; [reflexivity | exact IH].
Qed.

(** ** Platform detection and waiting for an element *)

(** X1.  [detectChatbotPlatform] decides in a fixed order.  An address that
    contains chat.openai.com gives chatgpt and, failing that, one that
    contains mistral.ai gives mistral, whatever the document holds.
    Otherwise the document decides: chatgpt as soon as any element anywhere
    carries the class [markdown], even beside [chat-message] elements;
    mistral when no element carries [markdown] but one carries
    [chat-message]; and [null] exactly when no element carries either. *)
Theorem platform_detection_order :
  forall (url : string) (document : Dom.node),
    let carried :=
      fun c => existsb (fun e => Dom.contains (Dom.classesOf e) c)
                 (Dom.elements document) in
    DomUtils.detectChatbotPlatform url document
    = if Js.includes url "chat.openai.com" then Some "chatgpt"
      else if Js.includes url "mistral.ai" then Some "mistral"
      else if carried "markdown" then Some "chatgpt"
      else if carried "chat-message" then Some "mistral"
      else None.
Proof.
  intros url document carried. subst carried. cbv beta.
  unfold DomUtils.detectChatbotPlatform.
  rewrite <- !querySelector_class.
  destruct (Js.includes url "chat.openai.com"); [reflexivity|].
  destruct (Js.includes url "mistral.ai"); [reflexivity|].
  destruct (Dom.querySelector document [[Dom.SelClass "markdown"]]);
    [reflexivity|].
  destruct (Dom.querySelector document [[Dom.SelClass "chat-message"]]);
    reflexivity.
Qed.

Section WaitFacts.
Import Dom DomUtils.

Variable sel : selector.
Variable timeout startTime : Z.

Lemma waiting_pending (checks : list (node * Z)) :
  Forall (keepsWaiting sel timeout startTime) checks ->
  waitForElementFrom sel timeout startTime checks = None.
Proof.
  induction 1 as [|[doc now] l [Hq Ht] _ IH]; simpl; [reflexivity|].
  simpl in Hq, Ht. rewrite Hq.
  destruct (Z.geb_spec (now - startTime) timeout); [lia | exact IH].
Qed.

Lemma waiting_prefix (before after : list (node * Z)) :
  Forall (keepsWaiting sel timeout startTime) before ->
  waitForElementFrom sel timeout startTime (before ++ after)
  = waitForElementFrom sel timeout startTime after.
Proof.
  induction 1 as [|[doc now] l [Hq Ht] _ IH]; simpl; [reflexivity|].
  simpl in Hq, Ht. rewrite Hq.
  destruct (Z.geb_spec (now - startTime) timeout); [lia | exact IH].
Qed.

Lemma waiting_split (checks : list (node * Z)) :
  Forall (keepsWaiting sel timeout startTime) checks
  \/ exists before doc now after,
       checks = before ++ (doc, now) :: after
       /\ Forall (keepsWaiting sel timeout startTime) before
       /\ (querySelector doc sel <> None
           \/ (querySelector doc sel = None /\ (now - startTime >= timeout)%Z)).
Proof.
  induction checks as [|[doc now] l IH]; [left; constructor|].
  destruct (querySelector doc sel) as [e|] eqn:Hq.
  - right. exists [], doc, now, l. repeat split; [constructor|].
    left. congruence.
  - destruct (Z.geb_spec (now - startTime) timeout) as [Hge|Hlt].
    + right. exists [], doc, now, l. repeat split; [constructor|].
      right. split; [exact Hq | lia].
    + destruct IH as [Hall | (before & d & t & after & E & Hb & Hd)].
      * left. constructor; [split; assumption | exact Hall].
      * right. exists ((doc, now) :: before), d, t, after.
        split; [now rewrite E|]. split; [|exact Hd].
        constructor; [split; assumption | exact Hb].
Qed.

End WaitFacts.

(** X2.  [waitForElement] settles at the first run of [checkElement] that
    finds the element or finds the timeout elapsed, and at no other: every
    run before it found nothing with time still left.  A run that finds the
    element resolves with it even when the timeout has elapsed; the promise
    resolves with [null] only at a run that found nothing and read a clock
    at least [timeout] past the start; and it is still pending exactly when
    every run so far found nothing with time left.  The default timeout is
    5000. *)
Theorem waitForElement_settles_at_first_decisive_check :
  forall (sel : Dom.selector) (timeout : option Z) (startTime : Z)
         (checks : list (Dom.node * Z)),
    let limit := match timeout with Some t => t | None => 5000%Z end in
    match DomUtils.waitForElement sel timeout startTime checks with
    | None => Forall (DomUtils.keepsWaiting sel limit startTime) checks
    | Some result =>
        exists before document now after,
          checks = before ++ (document, now) :: after
          /\ Forall (DomUtils.keepsWaiting sel limit startTime) before
          /\ match result with
             | Some element => Dom.querySelector document sel = Some element
             | None =>
                 Dom.querySelector document sel = None
                 /\ (now - startTime >= limit)%Z
             end
    end.
Proof.
  intros sel timeout startTime checks limit. unfold DomUtils.waitForElement.
  fold limit.
  destruct (waiting_split sel limit startTime checks)
    as [Hall | (before & doc & now & after & E & Hb & Hd)].
  - now rewrite (waiting_pending sel limit startTime checks Hall).
  - subst checks. rewrite (waiting_prefix sel limit startTime before _ Hb).
    simpl. destruct (Dom.querySelector doc sel) as [e|] eqn:Hq.
    + exists before, doc, now, after. auto.
    + destruct Hd as [Hd | [_ Hge]]; [congruence|].
      destruct (Z.geb_spec (now - startTime) limit); [|lia].
      exists before, doc, now, after. auto.
Qed.

(** ** Themes *)

Section MoreThemeFacts.
Import Dom ThemeManager.

Lemma prism_class_is_prism (theme : string) :
  contains SyntaxHighlighter.PRISM_CLASSES
    (SyntaxHighlighter.prismClassFor theme) = true.
Proof.
  unfold SyntaxHighlighter.prismClassFor.
  destruct (String.eqb theme "dark"); [reflexivity|].
  destruct (String.eqb theme "high-contrast"); reflexivity.
Qed.

Lemma updateSyntaxHighlighterTheme_eq (theme : string) (body : list string) :
  SyntaxHighlighter.updateSyntaxHighlighterTheme theme body
  = classAdd (classRemove body SyntaxHighlighter.PRISM_CLASSES)
      (SyntaxHighlighter.prismClassFor theme).
Proof.
  unfold SyntaxHighlighter.updateSyntaxHighlighterTheme,
    SyntaxHighlighter.prismClassFor.
  destruct (String.eqb theme "dark"); [reflexivity|].
  destruct (String.eqb theme "high-contrast"); reflexivity.
Qed.

(** Removing classes and adding one of them back leaves every other
    class where it was. *)
Lemma filter_outside_classAdd (cs l : list string) (c : string) :
  contains cs c = true ->
  filter (fun x => negb (contains cs x)) (classAdd l c)
  = filter (fun x => negb (contains cs x)) l.
Proof.
  intros Hc. unfold classAdd. destruct (contains l c); [reflexivity|].
  rewrite filter_app. simpl. rewrite Hc. apply app_nil_r.
Qed.

Lemma filter_outside_classRemove (cs l : list string) :
  filter (fun x => negb (contains cs x)) (classRemove l cs) = classRemove l cs.
Proof.
  unfold classRemove. induction l as [|x l IH]; simpl; [reflexivity|].
  destruct (contains cs x) eqn:E; simpl; [exact IH|]. now rewrite E, IH.
Qed.

Lemma filter_filter_comm {A : Type} (p q : A -> bool) (l : list A) :
  filter p (filter q l) = filter q (filter p l).
Proof.
  induction l as [|x l IH]; simpl; [reflexivity|].
  destruct (p x) eqn:Hp, (q x) eqn:Hq; simpl; rewrite ?Hp, ?Hq, IH; reflexivity.
Qed.

Lemma hasAsciiWhiteSpace_append (a b : string) :
  hasAsciiWhiteSpace (String.append a b)
  = hasAsciiWhiteSpace a || hasAsciiWhiteSpace b.
Proof.
  induction a as [|c a IH]; simpl; [reflexivity|].
  now rewrite IH, orb_assoc.
Qed.

End MoreThemeFacts.

(** X3.  [updateSyntaxHighlighterTheme] leaves the body with exactly one
    of the three prism classes: [prism-dark] for dark, [prism-high-contrast]
    for high-contrast and [prism-light] for every other theme, custom and
    unknown names included.  Every other class of the body stays, in its
    order. *)
Theorem prism_theme_class_exclusive :
  forall (theme : string) (body : list string),
    let body' := SyntaxHighlighter.updateSyntaxHighlighterTheme theme body in
    filter (Dom.contains SyntaxHighlighter.PRISM_CLASSES) body'
    = [SyntaxHighlighter.prismClassFor theme]
    /\ filter (fun c => negb (Dom.contains SyntaxHighlighter.PRISM_CLASSES c)) body'
       = filter (fun c => negb (Dom.contains SyntaxHighlighter.PRISM_CLASSES c)) body
    /\ SyntaxHighlighter.prismClassFor "custom" = "prism-light".
Proof.
  intros theme body body'. subst body'.
  rewrite updateSyntaxHighlighterTheme_eq. split; [|split; [|reflexivity]].
  - apply filter_classAdd_marker.
    + apply filter_classRemove_same.
    + apply prism_class_is_prism.
  - rewrite filter_outside_classAdd by apply prism_class_is_prism.
    apply filter_outside_classRemove.
Qed.

Section ThemeFrameFacts.
Import Dom ThemeManager.

Lemma filter_classRemove_kept (keep : string -> bool) (cs l : list string) :
  (forall x, contains cs x = true -> keep x = false) ->
  filter keep (classRemove l cs) = filter keep l.
Proof.
  intros H. unfold classRemove. induction l as [|x l IH]; simpl; [reflexivity|].
  destruct (contains cs x) eqn:E; simpl.
  - now rewrite (H x E).
  - now rewrite IH.
Qed.

Lemma filter_classAdd_kept (keep : string -> bool) (l : list string) (c : string) :
  keep c = false -> filter keep (classAdd l c) = filter keep l.
Proof.
  intros H. unfold classAdd. destruct (contains l c); [reflexivity|].
  rewrite filter_app. simpl. rewrite H. apply app_nil_r.
Qed.

Lemma markers_not_prism (c : string) :
  contains SyntaxHighlighter.PRISM_CLASSES c = true ->
  contains THEME_CLASSES c = false.
Proof.
  unfold contains, SyntaxHighlighter.PRISM_CLASSES. simpl. intros H.
  repeat rewrite orb_false_r in *.
  repeat (apply orb_true_iff in H; destruct H as [H|H]);
    apply String.eqb_eq in H; subst c; reflexivity.
Qed.

End ThemeFrameFacts.

(** X4.  [applyTheme] touches no class of the body but its own: apart from
    the four theme markers, the three prism classes and the class of the
    theme being applied, the class list after the call is the class list
    before it, with nothing removed, nothing added and the order kept.
    This holds for every theme name and whether or not the call runs to
    its end. *)
Theorem applyTheme_keeps_page_classes :
  forall (getURL : string -> string) (platform theme : string)
         (st : ThemeManager.state),
    let own :=
      fun c => Dom.contains ThemeManager.THEME_CLASSES c
               || Dom.contains SyntaxHighlighter.PRISM_CLASSES c
               || String.eqb (String.append "theme-" theme) c in
    filter (fun c => negb (own c))
      (ThemeManager.bodyClasses (ThemeManager.applyTheme getURL platform theme st))
    = filter (fun c => negb (own c)) (ThemeManager.bodyClasses st).
Proof.
  intros getURL platform theme st own.
  assert (Hthemes : forall x, Dom.contains ThemeManager.THEME_CLASSES x = true ->
                              negb (own x) = false).
  { intros x Hx. unfold own. now rewrite Hx. }
  assert (Hprism : forall x, Dom.contains SyntaxHighlighter.PRISM_CLASSES x = true ->
                             negb (own x) = false).
  { intros x Hx. unfold own. rewrite Hx. now rewrite orb_true_r. }
  assert (Htoken : negb (own (String.append "theme-" theme)) = false).
  { unfold own. rewrite String.eqb_refl. now rewrite orb_true_r. }
  unfold ThemeManager.applyTheme. cbv zeta.
  destruct (Dom.validToken (String.append "theme-" theme)); simpl.
  - rewrite updateSyntaxHighlighterTheme_eq.
    rewrite filter_classAdd_kept
      by (apply Hprism; apply prism_class_is_prism).
    rewrite (filter_classRemove_kept _ _ _ Hprism).
    rewrite filter_classAdd_kept by exact Htoken.
    apply (filter_classRemove_kept _ _ _ Hthemes).
  - apply (filter_classRemove_kept _ _ _ Hthemes).
Qed.

(** X5.  [applyTheme] is not all-or-nothing.  For a theme name with ASCII
    white space in it, [classList.add] rejects the class token at line 130
    and the [catch] ends the call there: [currentTheme] and the stylesheet
    link have already switched to the new theme, the body is left with no
    theme marker class at all, and the prism class and the value of the
    theme selector are as they were. *)
Theorem applyTheme_stops_at_rejected_class :
  forall (getURL : string -> string) (platform theme : string)
         (st : ThemeManager.state),
    Dom.hasAsciiWhiteSpace theme = true ->
    let st' := ThemeManager.applyTheme getURL platform theme st in
    ThemeManager.currentTheme st' = theme
    /\ ThemeManager.themeStylesheet st' = Some (ThemeManager.nextUid st)
    /\ In (ThemeManager.stylesheetLink getURL (ThemeManager.nextUid st) theme)
         (ThemeManager.head st')
    /\ ThemeManager.themeMarkers st' = []
    /\ filter (Dom.contains SyntaxHighlighter.PRISM_CLASSES)
         (ThemeManager.bodyClasses st')
       = filter (Dom.contains SyntaxHighlighter.PRISM_CLASSES)
           (ThemeManager.bodyClasses st)
    /\ ThemeManager.themeSelector st' = ThemeManager.themeSelector st.
Proof.
  intros getURL platform theme st Hws st'. subst st'.
  unfold ThemeManager.applyTheme, ThemeManager.themeMarkers. cbv zeta.
  assert (Hbad : Dom.validToken (String.append "theme-" theme) = false).
  { unfold Dom.validToken. rewrite hasAsciiWhiteSpace_append, Hws.
    rewrite orb_true_r. apply andb_false_r. }
  rewrite Hbad. simpl.
  split; [reflexivity|]. split; [reflexivity|].
  split; [apply in_or_app; right; now left|].
  split; [apply filter_classRemove_same|].
  split; [|reflexivity].
  apply filter_classRemove_other. exact markers_not_prism.
Qed.

Lemma applyTheme_stops_at_rejected_class_witness :
  Dom.hasAsciiWhiteSpace "high contrast" = true
  /\ ThemeManager.themeMarkers
       (ThemeManager.applyTheme extensionURL "chatgpt" "high contrast"
          (ThemeManager.applyTheme extensionURL "chatgpt" "dark"
             (ThemeManager.initial sampleHead ["app"] 3)))
     = [].
Proof.
  split; [reflexivity|].
  apply (applyTheme_stops_at_rejected_class extensionURL "chatgpt"
           "high contrast"
           (ThemeManager.applyTheme extensionURL "chatgpt" "dark"
              (ThemeManager.initial sampleHead ["app"] 3))).
  reflexivity.
Defined.

(** ** Nodes by identity *)

Section IdentityFacts.
Import Dom.

Lemma firstSome_app {A B : Type} (f : A -> option B) (l1 l2 : list A) :
  firstSome f (l1 ++ l2)
  = match firstSome f l1 with Some y => Some y | None => firstSome f l2 end.
Proof.
  induction l1 as [|x l1 IH]; simpl; [reflexivity|].
  destruct (f x); [reflexivity | exact IH].
Qed.

Lemma firstSome_map {A B C : Type} (g : A -> B) (f : B -> option C) (l : list A) :
  firstSome f (map g l) = firstSome (fun x => f (g x)) l.
Proof.
  induction l as [|x l IH]; simpl; [reflexivity|].
  destruct (f (g x)); [reflexivity | exact IH].
Qed.

(** Two searches that agree, under a view [g], on every element of the
    list agree on the list. *)
Lemma firstSome_view {A B C : Type} (g : B -> C) (f1 f2 : A -> option B)
    (l : list A) :
  Forall (fun x => option_map g (f1 x) = option_map g (f2 x)) l ->
  option_map g (firstSome f1 l) = option_map g (firstSome f2 l).
Proof.
  induction 1 as [|x l Hx _ IH]; simpl; [reflexivity|].
  destruct (f1 x), (f2 x); simpl in *; try discriminate; assumption.
Qed.

Lemma firstSome_option_map {A B : Type} (g : B -> B) (f : A -> option B)
    (l : list A) :
  firstSome (fun x => option_map g (f x)) l = option_map g (firstSome f l).
Proof.
  induction l as [|x l IH]; simpl; [reflexivity|].
  destruct (f x); [reflexivity | exact IH].
Qed.

Lemma firstSome_ext_Forall {A B : Type} (f1 f2 : A -> option B) (l : list A) :
  Forall (fun x => f1 x = f2 x) l -> firstSome f1 l = firstSome f2 l.
Proof.
  induction 1 as [|x l Hx _ IH]; simpl; [reflexivity|].
  rewrite Hx. destruct (f2 x); [reflexivity | exact IH].
Qed.

Lemma findNode_element (u u' : nat) (t : string) (c : list string)
    (a : list (string * string)) (k : list node) :
  findNode u (Element u' t c a k)
  = if u' =? u then Some (Element u' t c a k) else firstSome (findNode u) k.
Proof.
  simpl. destruct (u' =? u); [reflexivity|].
  induction k as [|x k IH]; [reflexivity|].
  simpl. destruct (findNode u x); [reflexivity | exact IH].
Qed.

Lemma findNode_self (u : nat) (n : node) :
  hasUid u n = true -> findNode u n = Some n.
Proof.
  destruct n as [d|d|u' t c a k]; simpl; try discriminate.
  intros H. now rewrite H.
Qed.

Lemma updateNode_element (u u' : nat) (f : node -> node) (t : string)
    (c : list string) (a : list (string * string)) (k : list node) :
  updateNode u f (Element u' t c a k)
  = if u' =? u then f (Element u' t c a k)
    else Element u' t c a (map (updateNode u f) k).
Proof. reflexivity. Qed.

(** Updating the node [u] and then looking it up gives the updated node,
    for an update that keeps the identity. *)
Lemma findNode_updateNode_same (u : nat) (f : node -> node) (n : node) :
  (forall m, hasUid u m = true -> hasUid u (f m) = true) ->
  findNode u (updateNode u f n) = option_map f (findNode u n).
Proof.
  intros Hf. induction n as [d|d|u' t c a k IH] using node_nested_ind;
    try reflexivity.
  rewrite updateNode_element, (findNode_element u u').
  destruct (u' =? u) eqn:E.
  - simpl. apply findNode_self. apply Hf. simpl. exact E.
  - rewrite findNode_element, E, firstSome_map.
    rewrite (firstSome_ext_Forall _ (fun x => option_map f (findNode u x)) k IH).
    apply firstSome_option_map.
Qed.

(** Appending a child that does not hold the node [u] to any node leaves
    the class list found for [u] as it was. *)
Lemma findNode_after_append (u pu : nat) (child n : node) :
  findNode u child = None ->
  option_map classesOf
    (findNode u (updateNode pu (withChildren (fun k => k ++ [child])) n))
  = option_map classesOf (findNode u n).
Proof.
  intros Hchild. induction n as [d|d|u' t c a k IH] using node_nested_ind;
    try reflexivity.
  rewrite updateNode_element, (findNode_element u u').
  destruct (u' =? pu) eqn:Ep.
  - simpl withChildren. rewrite findNode_element.
    destruct (u' =? u); [reflexivity|].
    rewrite firstSome_app. simpl. rewrite Hchild.
    destruct (firstSome (findNode u) k); reflexivity.
  - rewrite findNode_element.
    destruct (u' =? u); [reflexivity|].
    rewrite firstSome_map. apply firstSome_view. exact IH.
Qed.

Lemma getNode_updatePage_same (pg : page) (u : nat) (f : node -> node) :
  (forall m, hasUid u m = true -> hasUid u (f m) = true) ->
  getNode (updatePage pg u f) u = option_map f (getNode pg u).
Proof.
  intros Hf. unfold getNode, updatePage. simpl document. simpl detached.
  change (updateNode u f (document pg) :: map (updateNode u f) (detached pg))
    with (map (updateNode u f) (document pg :: detached pg)).
  rewrite firstSome_map.
  rewrite (firstSome_ext_Forall _ (fun x => option_map f (findNode u x))).
  - apply firstSome_option_map.
  - apply Forall_forall. intros x _. now apply findNode_updateNode_same.
Qed.

Lemma classes_after_appendChild (pg : page) (u pu : nat) (child : node) :
  findNode u child = None ->
  option_map classesOf (getNode (appendChild pg pu child) u)
  = option_map classesOf (getNode pg u).
Proof.
  intros Hchild. unfold getNode, appendChild, updatePage.
  simpl document. simpl detached.
  change (updateNode pu (withChildren (fun k => k ++ [child])) (document pg)
          :: map (updateNode pu (withChildren (fun k => k ++ [child])))
               (detached pg))
    with (map (updateNode pu (withChildren (fun k => k ++ [child])))
            (document pg :: detached pg)).
  rewrite firstSome_map. apply firstSome_view.
  apply Forall_forall. intros x _. now apply findNode_after_append.
Qed.

Lemma withChildren_keeps_uid (u : nat) (g : list node -> list node) (m : node) :
  hasUid u m = true -> hasUid u (withChildren g m) = true.
Proof. destruct m; simpl; auto. Qed.

Lemma withClasses_keeps_uid (u : nat) (g : list string -> list string) (m : node) :
  hasUid u m = true -> hasUid u (withClasses g m) = true.
Proof. destruct m; simpl; auto. Qed.

Lemma contains_classAdd (cl : list string) (c : string) :
  contains (classAdd cl c) c = true.
Proof.
  unfold classAdd. destruct (contains cl c) eqn:E; [exact E|].
  unfold contains. rewrite existsb_app. simpl.
  rewrite String.eqb_refl. now rewrite orb_true_r.
Qed.

Lemma relabel_element (next u : nat) (t : string) (c : list string)
    (a : list (string * string)) (k : list node) :
  relabel next (Element u t c a k)
  = (Element next t c a (fst (relabelList (S next) k)),
     snd (relabelList (S next) k)).
Proof.
  simpl.
  assert (E : forall l nx,
             (fix go (l : list node) (nx : nat) : list node * nat :=
                match l with
                | [] => ([], nx)
                | x :: r =>
                    let '(x', n1) := relabel nx x in
                    let '(r', n2) := go r n1 in
                    (x' :: r', n2)
                end) l nx = relabelList nx l).
  { induction l as [|x l IH]; intros nx; [reflexivity|].
    simpl. destruct (relabel nx x) as [x' n1]. now rewrite IH. }
  rewrite E. now destruct (relabelList (S next) k).
Qed.

(** Fresh identities are handed out upwards. *)
Lemma relabel_grows (n : node) : forall next, next <= snd (relabel next n).
Proof.
  induction n as [d|d|u t c a k IH] using node_nested_ind; intros next;
    try (simpl; lia).
  rewrite relabel_element. simpl snd.
  assert (H : forall nx, nx <= snd (relabelList nx k)).
  { induction IH as [|x l Hx _ IHl]; intros nx; simpl; [lia|].
    specialize (Hx nx). destruct (relabel nx x) as [x' n1]. simpl in Hx.
    specialize (IHl n1). destruct (relabelList n1 l) as [r' n2]. simpl in *. lia. }
  specialize (H (S next)). lia.
Qed.

Lemma relabelList_grows (l : list node) :
  forall next, next <= snd (relabelList next l).
Proof.
  induction l as [|x l IH]; intros next; simpl; [lia|].
  pose proof (relabel_grows x next) as Hx.
  destruct (relabel next x) as [x' n1]. simpl in Hx.
  specialize (IH n1). destruct (relabelList n1 l) as [r' n2]. simpl in *. lia.
Qed.

End IdentityFacts.

(** ** One code block, examined again *)

Section BlockFacts.
Import Dom Control SyntaxHighlighter.

Variable Grammar : Type.
Variable prism : option (PrismLib Grammar).
Variable parseHTML : string -> list node.

Lemma findNode_hasUid (u : nat) (n m : node) :
  findNode u n = Some m -> hasUid u m = true.
Proof.
  induction n as [d|d|u' t c a k IH] using node_nested_ind; try discriminate.
  rewrite findNode_element. destruct (u' =? u) eqn:E.
  - intros H. injection H as <-. exact E.
  - induction IH as [|x l Hx _ IHl]; simpl; [discriminate|].
    destruct (findNode u x) eqn:Ex; [|exact IHl].
    intros H. injection H as <-. now apply Hx.
Qed.

Lemma getNode_hasUid (pg : page) (u : nat) (m : node) :
  getNode pg u = Some m -> hasUid u m = true.
Proof.
  unfold getNode. generalize (document pg :: detached pg).
  induction l as [|x l IH]; simpl; [discriminate|].
  destruct (findNode u x) eqn:Ex; [|exact IH].
  intros H. injection H as <-. exact (findNode_hasUid _ _ _ Ex).
Qed.

Lemma setInnerHTML_block (pg : page) (u : nat) (html : string) (old : node) :
  getNode pg u = Some old ->
  option_map classesOf (getNode (setInnerHTML parseHTML pg u html) u)
  = Some (classesOf old)
  /\ nextUid pg <= nextUid (setInnerHTML parseHTML pg u html).
Proof.
  intros Hget. unfold setInnerHTML. rewrite Hget.
  pose proof (relabelList_grows (parseHTML html) (nextUid pg)) as Hgrow.
  destruct (relabelList (nextUid pg) (parseHTML html)) as [kids next'].
  simpl in Hgrow. split; [|exact Hgrow].
  pose proof (getNode_updatePage_same pg u (withChildren (fun _ => kids))
                (withChildren_keeps_uid u _)) as Hsame.
  rewrite Hget in Hsame. unfold getNode in *.
  simpl document in *. simpl detached in *.
  rewrite app_comm_cons, firstSome_app, Hsame. simpl.
  now destruct old.
Qed.

Lemma addClass_block (pg : page) (u : nat) (c : string) (cl : list string) :
  option_map classesOf (getNode pg u) = Some cl ->
  option_map classesOf (getNode (addClass pg u c) u) = Some (classAdd cl c).
Proof.
  intros Hget. unfold addClass.
  rewrite (getNode_updatePage_same pg u _ (withClasses_keeps_uid u _)).
  destruct (getNode pg u) as [n|] eqn:En; [|discriminate].
  pose proof (getNode_hasUid _ _ _ En) as Hu.
  simpl in Hget. injection Hget as <-.
  destruct n; simpl in *; try discriminate; reflexivity.
Qed.

Lemma same_record (pg : page) (next u : nat) :
  getNode {| document := document pg; detached := detached pg; nextUid := next |} u
  = getNode pg u.
Proof. reflexivity. Qed.

Lemma addLanguageIndicator_keeps (pg : page) (u : nat) (language : string) :
  u < nextUid pg ->
  option_map classesOf (getNode (caught (addLanguageIndicator pg u language)) u)
  = option_map classesOf (getNode pg u)
  /\ nextUid pg <= nextUid (caught (addLanguageIndicator pg u language)).
Proof.
  intros Hlt. unfold addLanguageIndicator.
  destruct (String.eqb language "text"); [split; [reflexivity | simpl; lia]|].
  destruct (parentElement pg u) as [parent|]; [|split; [reflexivity | simpl; lia]].
  destruct (String.eqb (tagNameOf parent) "PRE"); [|split; [reflexivity | simpl; lia]].
  destruct (uidOf parent) as [pu|]; [|split; [reflexivity | simpl; lia]].
  cbv zeta. unfold caught. split; [|simpl; lia].
  rewrite same_record. apply classes_after_appendChild.
  rewrite findNode_element.
  assert (E : (nextUid pg =? u) = false) by (apply Nat.eqb_neq; lia).
  rewrite E. now destruct language.
Qed.

Lemma addCopyButton_keeps (pg : page) (u : nat) :
  u < nextUid pg ->
  option_map classesOf (getNode (caught (addCopyButton pg u)) u)
  = option_map classesOf (getNode pg u).
Proof.
  intros Hlt. unfold addCopyButton.
  destruct (parentElement pg u) as [parent|]; [|reflexivity].
  destruct (String.eqb (tagNameOf parent) "PRE"); [|reflexivity].
  destruct (elementQuerySelector parent [SelClass "code-copy-button"]);
    [reflexivity|].
  destruct (uidOf parent) as [pu|]; [|reflexivity].
  cbv zeta. unfold caught. rewrite same_record.
  apply classes_after_appendChild.
  rewrite findNode_element.
  assert (E : (nextUid pg =? u) = false) by (apply Nat.eqb_neq; lia).
  now rewrite E.
Qed.

(** The steps after a successful [Prism.highlight]: whatever the badge and
    the copy button do, the block ends with its old classes and the marker. *)
Lemma highlighted_block_classes (pg : page) (u : nat) (old : node)
    (html language : string) :
  getNode pg u = Some old ->
  u < nextUid pg ->
  let pg2 := addClass (setInnerHTML parseHTML pg u html) u PROCESSED in
  let pgF :=
    match addLanguageIndicator pg2 u language with
    | Throw pg3 => pg3
    | Normal pg3 => caught (addCopyButton pg3 u)
    end in
  option_map classesOf (getNode pgF u)
  = Some (classAdd (classesOf old) PROCESSED).
Proof.
  intros Hget Hlt pg2 pgF.
  destruct (setInnerHTML_block pg u html old Hget) as [H1 Hn1].
  pose proof (addClass_block _ u PROCESSED _ H1) as H2. fold pg2 in H2.
  assert (Hlt2 : u < nextUid pg2) by (unfold pg2, addClass, updatePage; simpl; lia).
  destruct (addLanguageIndicator_keeps pg2 u language Hlt2) as [H3 Hn3].
  subst pgF. destruct (addLanguageIndicator pg2 u language) as [pg3|pg3];
    simpl in H3, Hn3.
  - rewrite addCopyButton_keeps by lia. now rewrite H3.
  - now rewrite H3.
Qed.

(** The callback leaves the state as it was, or leaves the block marked and
    counted once. *)
Lemma processCodeBlock_cases (pg : page) (count u : nat) :
  u < nextUid pg ->
  caught (processCodeBlock Grammar prism parseHTML (pg, count) u) = (pg, count)
  \/ exists pgF n,
       caught (processCodeBlock Grammar prism parseHTML (pg, count) u)
       = (pgF, S count)
       /\ getNode pgF u = Some n
       /\ contains (classesOf n) PROCESSED = true.
Proof.
  intros Hlt. unfold processCodeBlock.
  destruct (getNode pg u) as [codeBlock|] eqn:Hget; [|now left].
  destruct (contains (classesOf codeBlock) PROCESSED); [now left|].
  destruct (determineLanguage pg u codeBlock) as [language|]; [|now left].
  destruct prism as [Prism|]; [|now left].
  destruct (negb (Js.truthy (Js.trim (textContent codeBlock)))); [now left|].
  cbv zeta.
  destruct (highlight Prism (textContent codeBlock) _ language) as [html|];
    [|now left].
  right.
  pose proof (highlighted_block_classes pg u codeBlock html language Hget Hlt)
    as Hcls.
  cbv zeta in Hcls.
  destruct (addLanguageIndicator
              (addClass (setInnerHTML parseHTML pg u html) u PROCESSED) u language)
    as [pg3|pg3]; simpl caught.
  - destruct (getNode (caught (addCopyButton pg3 u)) u) as [n|] eqn:En;
      [|discriminate].
    exists (caught (addCopyButton pg3 u)), n. repeat split; [exact En|].
    simpl in Hcls. injection Hcls as ->. apply contains_classAdd.
  - destruct (getNode pg3 u) as [n|] eqn:En; [|discriminate].
    exists pg3, n. repeat split; [exact En|].
    simpl in Hcls. injection Hcls as ->. apply contains_classAdd.
Qed.

End BlockFacts.

(** X6.  Examining a code block a second time changes nothing: whichever
    exit the callback of [codeBlocks.forEach] took for the block (no such
    node, already marked, no parent, no Prism, blank text, [highlight]
    throwing, or highlighted), the state it leaves is a fixed point of the
    callback for that block; in particular a highlighted block is not
    counted or rewritten again. *)
Theorem processCodeBlock_settles
    (Grammar : Type) (prism : option (SyntaxHighlighter.PrismLib Grammar))
    (parseHTML : string -> list Dom.node)
    (pg : Dom.page) (count u : nat) :
  u < Dom.nextUid pg ->
  let examine st :=
    Control.caught (SyntaxHighlighter.processCodeBlock Grammar prism parseHTML st u) in
  examine (examine (pg, count)) = examine (pg, count).
Proof.
  intros Hlt examine. subst examine. cbv beta.
  destruct (processCodeBlock_cases Grammar prism parseHTML pg count u Hlt)
    as [E | (pgF & n & E & Hn & Hmark)].
  - now rewrite !E.
  - rewrite E.
    now rewrite (marked_block_skipped Grammar prism parseHTML pgF (S count) u n).
Qed.

(** The block of [nestedPage] with identity 7 is examined twice. *)
Lemma processCodeBlock_settles_witness :
  7 < Dom.nextUid nestedPage
  /\ Control.caught
       (SyntaxHighlighter.processCodeBlock unit (Some plainPrism) parsePlain
          (Control.caught
             (SyntaxHighlighter.processCodeBlock unit (Some plainPrism) parsePlain
                (nestedPage, 0) 7)) 7)
     = Control.caught
         (SyntaxHighlighter.processCodeBlock unit (Some plainPrism) parsePlain
            (nestedPage, 0) 7).
Proof.
  split; [vm_compute; lia|].
  apply (processCodeBlock_settles unit (Some plainPrism) parsePlain nestedPage 0 7).
  vm_compute; lia.
Defined.

(** ** A pass that cannot highlight *)

Section IdlePassFacts.
Import Dom Control SyntaxHighlighter.

(** A loop whose body leaves every state as it finds it, however it
    ends, leaves the state it started from. *)
Lemma forEach_idle {A S : Type} (f : S -> A -> outcome S) (l : list A) (s : S) :
  (forall x, f s x = Normal s \/ f s x = Throw s) ->
  caught (forEach f l s) = s.
Proof.
  intros H. induction l as [|x l IH]; simpl; [reflexivity|].
  destruct (H x) as [E|E]; rewrite E; [exact IH | reflexivity].
Qed.

Lemma processCodeBlock_without_markup (Grammar : Type)
    (prism : option (PrismLib Grammar)) (parseHTML : string -> list node)
    (st : page * nat) (u : nat) :
  match prism with
  | None => True
  | Some Prism => forall code grammar language,
                    highlight Prism code grammar language = None
  end ->
  processCodeBlock Grammar prism parseHTML st u = Normal st
  \/ processCodeBlock Grammar prism parseHTML st u = Throw st.
Proof.
  intros H. unfold processCodeBlock. destruct st as [pg count].
  destruct (getNode pg u) as [codeBlock|]; [|now left].
  destruct (contains (classesOf codeBlock) PROCESSED); [now left|].
  destruct (determineLanguage pg u codeBlock) as [language|]; [|now right].
  destruct prism as [Prism|]; [|now left].
  destruct (negb (Js.truthy (Js.trim (textContent codeBlock)))); [now left|].
  cbv zeta. rewrite H. now left.
Qed.

Lemma substring_whole (s : string) : String.substring 0 (String.length s) s = s.
Proof. induction s as [|c s IH]; simpl; [reflexivity | now rewrite IH]. Qed.

(** Stripping the prefix of a [language-*] class gives what follows it. *)
Lemma replace_language_prefix (x : string) :
  Js.replace (String.append "language-" x) "language-" "" = x.
Proof.
  unfold Js.replace.
  assert (E : String.index 0 "language-" (String.append "language-" x) = Some 0)
    by (destruct x; reflexivity).
  rewrite E. simpl. rewrite Nat.sub_0_r. apply substring_whole.
Qed.

Lemma find_first_match {A : Type} (p : A -> bool) (pre post : list A) (x : A) :
  Forall (fun y => p y = false) pre ->
  p x = true ->
  find p (pre ++ x :: post) = Some x.
Proof.
  induction 1 as [|y pre Hy _ IH]; intros Hx; simpl.
  - now rewrite Hx.
  - rewrite Hy. now apply IH.
Qed.

Lemma contains_classRemove_other (l cs : list string) (c : string) :
  contains cs c = false ->
  contains (classRemove l cs) c = contains l c.
Proof.
  intros H. unfold classRemove. induction l as [|x l IH]; [reflexivity|].
  simpl filter. destruct (contains cs x) eqn:E; simpl negb; cbv iota.
  - rewrite IH. unfold contains at 2. simpl.
    destruct (String.eqb_spec c x) as [->|_]; [congruence | reflexivity].
  - unfold contains in *. simpl. now rewrite IH.
Qed.

Lemma contains_classAdd_more (l : list string) (x c : string) :
  contains l c = true -> contains (classAdd l x) c = true.
Proof.
  intros H. unfold classAdd. destruct (contains l x); [exact H|].
  unfold contains in *. rewrite existsb_app, H. reflexivity.
Qed.

End IdlePassFacts.

(** X7.  Without Prism, or with a Prism whose [highlight] throws for every
    input, a pass of [initSyntaxHighlighter] leaves the page exactly as it
    was and counts no block, on every platform and document: no marker, no
    badge and no copy button is added, also when a block has no parent and
    the pass is cut short by the [TypeError] of line 51. *)
Theorem pass_without_markup_changes_nothing :
  forall (Grammar : Type) (parseHTML : string -> list Dom.node)
         (platform : string) (isReinitialization : bool) (pg : Dom.page),
    SyntaxHighlighter.initSyntaxHighlighter Grammar None parseHTML platform
      isReinitialization pg = (pg, 0)
    /\ forall languages : string -> option Grammar,
         SyntaxHighlighter.initSyntaxHighlighter Grammar
           (Some {| SyntaxHighlighter.languages := languages;
                    SyntaxHighlighter.highlight := fun _ _ _ => None |})
           parseHTML platform isReinitialization pg = (pg, 0).
Proof.
  intros Grammar parseHTML platform isReinitialization pg.
  unfold SyntaxHighlighter.initSyntaxHighlighter.
  destruct (SyntaxHighlighter.PLATFORM_SELECTORS platform) as [selectors|];
    [|split; reflexivity].
  split; [|intros languages]; apply forEach_idle; intros u;
    apply processCodeBlock_without_markup; simpl; auto.
Qed.

(** X8.  The language of a code block is decided by the first of its own
    classes that starts with [language-], and is what follows that prefix:
    the classes after it, the parent element and the parent's classes are
    not consulted, and a bare [language-] class gives the empty language. *)
Theorem first_language_class_decides :
  forall (pg : Dom.page) (u uid : nat) (tagName : string)
         (before after : list string) (x : string)
         (attributes : list (string * string)) (childNodes : list Dom.node),
    Forall (fun c => Js.startsWith c "language-" = false) before ->
    SyntaxHighlighter.determineLanguage pg u
      (Dom.Element uid tagName
         (before ++ String.append "language-" x :: after) attributes childNodes)
    = Some x.
Proof.
  intros pg u uid tagName before after x attributes childNodes Hbefore.
  unfold SyntaxHighlighter.determineLanguage, SyntaxHighlighter.languageClassOf.
  cbn [Dom.classesOf].
  rewrite (find_first_match _ before after (String.append "language-" x) Hbefore)
    by (unfold Js.startsWith; destruct x; reflexivity).
  now rewrite replace_language_prefix.
Qed.

(** A block inside a [PRE] that names another language. *)
Lemma first_language_class_decides_witness :
  Forall (fun c => Js.startsWith c "language-" = false) ["hljs"; "lang-js"]
  /\ SyntaxHighlighter.determineLanguage nestedPage 7
       (Dom.Element 7 "CODE"
          (["hljs"; "lang-js"] ++ String.append "language-" "python"
             :: ["language-rust"]) [] [Dom.Text "c"])
     = Some "python".
Proof.
  split; [repeat constructor|].
  apply (first_language_class_decides nestedPage 7 7 "CODE" ["hljs"; "lang-js"]
           ["language-rust"] "python" [] [Dom.Text "c"]).
  repeat constructor.
Defined.

(** X9.  The class of a theme outside [AVAILABLE_THEMES] is never cleaned
    up: once [applyTheme] has added [theme-<name>] for such a name, the body
    keeps that class through every later sequence of [applyTheme] calls,
    since line 129 removes the four known markers only. *)
Theorem unknown_theme_class_is_never_removed :
  forall (getURL : string -> string) (platform theme : string)
         (later : list string) (st : ThemeManager.state),
    Dom.validToken (String.append "theme-" theme) = true ->
    existsb (String.eqb theme) ThemeManager.AVAILABLE_THEMES = false ->
    Dom.contains
      (ThemeManager.bodyClasses
         (ThemeManager.applyThemes getURL platform later
            (ThemeManager.applyTheme getURL platform theme st)))
      (String.append "theme-" theme) = true.
Proof.
  intros getURL platform theme later st Hvalid Hunknown.
  set (token := String.append "theme-" theme) in *.
  assert (Hmark : Dom.contains ThemeManager.THEME_CLASSES token = false).
  { unfold Dom.contains, ThemeManager.THEME_CLASSES, token. simpl.
    simpl in Hunknown. exact Hunknown. }
  assert (Hprism : Dom.contains SyntaxHighlighter.PRISM_CLASSES token = false)
    by reflexivity.
  assert (Hkeep : forall t s,
            Dom.contains (ThemeManager.bodyClasses s) token = true ->
            Dom.contains
              (ThemeManager.bodyClasses (ThemeManager.applyTheme getURL platform t s))
              token = true).
  { intros t s Hs. unfold ThemeManager.applyTheme. cbv zeta.
    destruct (Dom.validToken (String.append "theme-" t)); simpl.
    - rewrite updateSyntaxHighlighterTheme_eq.
      apply contains_classAdd_more.
      rewrite contains_classRemove_other by exact Hprism.
      apply contains_classAdd_more.
      now rewrite contains_classRemove_other by exact Hmark.
    - now rewrite contains_classRemove_other by exact Hmark. }
  assert (Hfirst :
    Dom.contains
      (ThemeManager.bodyClasses (ThemeManager.applyTheme getURL platform theme st))
      token = true).
  { unfold ThemeManager.applyTheme. cbv zeta. fold token. rewrite Hvalid. simpl.
    rewrite updateSyntaxHighlighterTheme_eq.
    apply contains_classAdd_more.
    rewrite contains_classRemove_other by exact Hprism.
    apply contains_classAdd. }
  unfold ThemeManager.applyThemes.
  generalize dependent (ThemeManager.applyTheme getURL platform theme st).
  induction later as [|t later IH]; intros s Hs; simpl; [exact Hs|].
  apply IH. now apply Hkeep.
Qed.

Lemma unknown_theme_class_is_never_removed_witness :
  Dom.validToken (String.append "theme-" "solarized") = true
  /\ existsb (String.eqb "solarized") ThemeManager.AVAILABLE_THEMES = false
  /\ Dom.contains
       (ThemeManager.bodyClasses
          (ThemeManager.applyThemes extensionURL "chatgpt" ["dark"; "light"]
             (ThemeManager.applyTheme extensionURL "chatgpt" "solarized"
                (ThemeManager.initial sampleHead [] 3))))
       (String.append "theme-" "solarized") = true.
Proof.
  split; [reflexivity|]. split; [reflexivity|].
  apply (unknown_theme_class_is_never_removed extensionURL "chatgpt" "solarized"
           ["dark"; "light"] (ThemeManager.initial sampleHead [] 3));
    reflexivity.
Defined.

(** ** A page under an update at one identity *)

Section TreeFacts.
Import Dom.

Lemma elements_element (u : nat) (t : string) (c : list string)
    (a : list (string * string)) (k : list node) :
  elements (Element u t c a k) = Element u t c a k :: flat_map elements k.
Proof. reflexivity. Qed.

Lemma elements_self (n : node) : isElement n = true -> In n (elements n).
Proof. destruct n; try discriminate. intros _. now left. Qed.

Lemma elements_trans (n : node) :
  forall X m, In X (elements n) -> In m (elements X) -> In m (elements n).
Proof.
  induction n as [d|d|u t c a k IH] using node_nested_ind; intros X m HX Hm;
    try contradiction.
  rewrite elements_element in HX. destruct HX as [<-|HX]; [exact Hm|].
  rewrite elements_element. right.
  apply in_flat_map in HX. destruct HX as (x & Hx & HX).
  apply in_flat_map. exists x. split; [exact Hx|].
  rewrite Forall_forall in IH. exact (IH x Hx X m HX Hm).
Qed.

Lemma elements_children (X m : node) :
  In m (flat_map elements (childrenOf X)) -> In m (elements X).
Proof.
  destruct X as [d|d|u t c a k]; try contradiction.
  intros H. rewrite elements_element. now right.
Qed.

Lemma uidOf_hasUid (m : node) (v : nat) :
  uidOf m = Some v -> forall w, hasUid w m = (v =? w).
Proof. destruct m; try discriminate. intros [= ->] w. reflexivity. Qed.

Lemma hasUid_uidOf (m : node) (w : nat) :
  hasUid w m = true -> uidOf m = Some w.
Proof.
  destruct m; try discriminate. simpl. intros H.
  apply Nat.eqb_eq in H. now subst.
Qed.

Lemma map_plain (g : node -> node) (k : list node) :
  (forall d, g (Text d) = Text d) -> (forall d, g (Comment d) = Comment d) ->
  forallb (fun c => negb (isElement c)) k = true -> map g k = k.
Proof.
  intros Ht Hc. induction k as [|x k IH]; simpl; [reflexivity|].
  intros H. apply andb_true_iff in H. destruct H as [Hx Hk].
  rewrite (IH Hk). destruct x; [now rewrite Ht | now rewrite Hc | discriminate].
Qed.

(** An element that holds text only, and is not the one updated, is not
    changed by the update. *)
Lemma updateNode_plain (w : nat) (f : node -> node) (n : node) :
  hasUid w n = false -> textOnly n = true -> updateNode w f n = n.
Proof.
  destruct n as [d|d|u t c a k]; try reflexivity.
  unfold textOnly. simpl. intros Hw Hk. rewrite Hw.
  now rewrite (map_plain (updateNode w f) k (fun _ => eq_refl) (fun _ => eq_refl) Hk).
Qed.

Lemma updateNode_hit (w : nat) (f : node -> node) (n : node) :
  hasUid w n = true -> updateNode w f n = f n.
Proof. destruct n; try discriminate. simpl. now intros ->. Qed.

(** An update below a node leaves the node's identity, tag, classes and
    attributes. *)
Lemma updateNode_head (w : nat) (f : node -> node) (n : node) :
  hasUid w n = false ->
  uidOf (updateNode w f n) = uidOf n
  /\ isElement (updateNode w f n) = isElement n
  /\ tagNameOf (updateNode w f n) = tagNameOf n
  /\ classesOf (updateNode w f n) = classesOf n
  /\ attributesOf (updateNode w f n) = attributesOf n.
Proof.
  destruct n as [d|d|u t c a k]; simpl; auto.
  intros ->. simpl. auto.
Qed.

(** An element of an updated tree is the image of an element that was not
    the one updated, or lies in what the update made of one that was. *)
Lemma elements_updateNode (w : nat) (f : node -> node) (n m' : node) :
  In m' (elements (updateNode w f n)) ->
  (exists m, In m (elements n) /\ hasUid w m = false /\ m' = updateNode w f m)
  \/ (exists X, In X (elements n) /\ hasUid w X = true /\ In m' (elements (f X))).
Proof.
  revert m'. induction n as [d|d|u t c a k IH] using node_nested_ind; intros m' H;
    try contradiction.
  destruct (hasUid w (Element u t c a k)) eqn:Hw.
  - rewrite (updateNode_hit w f _ Hw) in H. right.
    exists (Element u t c a k). repeat split; [now left | exact Hw | exact H].
  - assert (E : updateNode w f (Element u t c a k)
                = Element u t c a (map (updateNode w f) k)).
    { simpl in *. now rewrite Hw. }
    rewrite E, elements_element in H. destruct H as [<-|H].
    + left. exists (Element u t c a k). repeat split; [now left | exact Hw | now symmetry].
    + apply in_flat_map in H. destruct H as (x' & Hx' & H).
      apply in_map_iff in Hx'. destruct Hx' as (x & <- & Hx).
      rewrite Forall_forall in IH.
      destruct (IH x Hx m' H) as [(m & Hm & Hmw & Em) | (X & HX & HXw & Hin)].
      * left. exists m. repeat split; try assumption.
        rewrite elements_element. right. apply in_flat_map. now exists x.
      * right. exists X. repeat split; try assumption.
        rewrite elements_element. right. apply in_flat_map. now exists x.
Qed.

Lemma findParent_element (w u : nat) (t : string) (c : list string)
    (a : list (string * string)) (k : list node) :
  findParent w (Element u t c a k)
  = if existsb (hasUid w) k then Some (Element u t c a k)
    else firstSome (findParent w) k.
Proof.
  simpl. destruct (existsb (hasUid w) k); [reflexivity|].
  induction k as [|x k IH]; [reflexivity|].
  simpl. destruct (findParent w x); [reflexivity | exact IH].
Qed.

Lemma firstSome_some {A B : Type} (g : A -> option B) (l : list A) (y : B) :
  firstSome g l = Some y -> exists x, In x l /\ g x = Some y.
Proof.
  induction l as [|x l IH]; simpl; [discriminate|].
  destruct (g x) eqn:E.
  - intros [= <-]. exists x. split; [now left | exact E].
  - intros H. destruct (IH H) as (x' & Hx' & E'). exists x'. split; [now right | exact E'].
Qed.

(** The parent that [findParent] returns is an element of the tree with
    a child of the identity asked for. *)
Lemma findParent_spec (w : nat) (n p : node) :
  findParent w n = Some p ->
  In p (elements n) /\ existsb (hasUid w) (childrenOf p) = true.
Proof.
  revert p. induction n as [d|d|u t c a k IH] using node_nested_ind; intros p;
    try discriminate.
  rewrite findParent_element. destruct (existsb (hasUid w) k) eqn:E.
  - intros [= <-]. split; [now left | exact E].
  - intros H. apply firstSome_some in H. destruct H as (x & Hx & H).
    rewrite Forall_forall in IH. destruct (IH x Hx p H) as [Hin Hc].
    split; [|exact Hc]. rewrite elements_element. right.
    apply in_flat_map. now exists x.
Qed.

Lemma findNode_elements (v : nat) (n m : node) :
  findNode v n = Some m -> In m (elements n) /\ hasUid v m = true.
Proof.
  revert m. induction n as [d|d|u t c a k IH] using node_nested_ind; intros m;
    try discriminate.
  rewrite findNode_element. destruct (u =? v) eqn:E.
  - intros [= <-]. split; [now left | exact E].
  - intros H. apply firstSome_some in H. destruct H as (x & Hx & H).
    rewrite Forall_forall in IH. destruct (IH x Hx m H) as [Hin Hu].
    split; [|exact Hu]. rewrite elements_element. right.
    apply in_flat_map. now exists x.
Qed.

Lemma firstSome_none {A B : Type} (g : A -> option B) (l : list A) :
  firstSome g l = None -> forall x, In x l -> g x = None.
Proof.
  induction l as [|x l IH]; simpl; [contradiction|].
  destruct (g x) eqn:E; [discriminate|].
  intros H y [<-|Hy]; [exact E | now apply IH].
Qed.

(** An identity that some element of the tree has is found. *)
Lemma findNode_found (v : nat) (n m : node) :
  In m (elements n) -> hasUid v m = true -> findNode v n <> None.
Proof.
  revert m. induction n as [d|d|u t c a k IH] using node_nested_ind; intros m Hin Hm;
    try contradiction.
  rewrite findNode_element. destruct (u =? v) eqn:E; [discriminate|].
  rewrite elements_element in Hin. destruct Hin as [<-|Hin].
  - simpl in Hm. congruence.
  - apply in_flat_map in Hin. destruct Hin as (x & Hx & Hin).
    intros Hnone. rewrite Forall_forall in IH.
    apply (IH x Hx m Hin Hm). exact (firstSome_none _ _ Hnone x Hx).
Qed.

End TreeFacts.

(** ** Selection under an update *)

Section SelectionFacts.
Import Dom.

Lemma grown_refl (n : node) : grown n n.
Proof. unfold grown. auto. Qed.

Lemma matchesSimple_grown (a a' : node) (s : simple) :
  grown a a' -> matchesSimple a s = true -> matchesSimple a' s = true.
Proof.
  intros (He & Ht & Ha & Hc).
  destruct a as [d|d|u t c at_ k]; try discriminate.
  destruct a' as [d|d|u' t' c' at_' k']; try discriminate.
  simpl in Ht, Ha, Hc. subst t' at_'.
  destruct s; simpl; auto.
Qed.

Lemma matchesCompound_grown (a a' : node) (c : compound) :
  grown a a' -> matchesCompound a c = true -> matchesCompound a' c = true.
Proof.
  intros Hg H. unfold matchesCompound in *.
  apply andb_true_iff in H. destruct H as [He Hall].
  destruct Hg as (He' & Hrest). rewrite He', He. simpl.
  rewrite forallb_forall in *. intros s Hs.
  apply (matchesSimple_grown a a'); [|now apply Hall].
  unfold grown. now rewrite He'.
Qed.

(** A selector with a requirement less, and a chain with an ancestor more,
    still match. *)
Lemma matchesAncestors_more (l : list node) :
  (forall c r, matchesAncestors l (c :: r) = true -> matchesAncestors l r = true)
  /\ (forall a r, matchesAncestors l r = true -> matchesAncestors (a :: l) r = true).
Proof.
  induction l as [|x l [IHdrop IHadd]].
  - split.
    + intros c r H. discriminate.
    + intros a [|c r] H; [reflexivity | discriminate].
  - assert (Hadd : forall a r, matchesAncestors (x :: l) r = true ->
                               matchesAncestors (a :: x :: l) r = true).
    { intros a [|d r] H; [reflexivity|].
      change (matchesAncestors (a :: x :: l) (d :: r))
        with (if matchesCompound a d then matchesAncestors (x :: l) r
              else matchesAncestors (x :: l) (d :: r)).
      destruct (matchesCompound a d); [|exact H].
      change (matchesAncestors (x :: l) (d :: r))
        with (if matchesCompound x d then matchesAncestors l r
              else matchesAncestors l (d :: r)) in H.
      destruct (matchesCompound x d).
      - now apply IHadd.
      - apply IHadd. now apply (IHdrop d). }
    split; [|exact Hadd].
    intros c r H.
    change (matchesAncestors (x :: l) (c :: r))
      with (if matchesCompound x c then matchesAncestors l r
            else matchesAncestors l (c :: r)) in H.
    destruct (matchesCompound x c).
    + now apply IHadd.
    + apply IHadd. now apply (IHdrop c).
Qed.

Lemma matchesAncestors_grown (anc anc' : list node) :
  Forall2 grown anc anc' ->
  forall rest, matchesAncestors anc rest = true -> matchesAncestors anc' rest = true.
Proof.
  induction 1 as [|a a' anc anc' Ha _ IH]; intros [|c rest] H;
    try reflexivity; try discriminate.
  change (matchesAncestors (a :: anc) (c :: rest))
    with (if matchesCompound a c then matchesAncestors anc rest
          else matchesAncestors anc (c :: rest)) in H.
  change (matchesAncestors (a' :: anc') (c :: rest))
    with (if matchesCompound a' c then matchesAncestors anc' rest
          else matchesAncestors anc' (c :: rest)).
  destruct (matchesCompound a c) eqn:E.
  - rewrite (matchesCompound_grown a a' c Ha E). now apply IH.
  - destruct (matchesCompound a' c).
    + apply IH. exact (proj1 (matchesAncestors_more anc) c rest H).
    + now apply IH.
Qed.

Lemma matchesSelector_grown (anc anc' : list node) (n n' : node) (sel : selector) :
  Forall2 grown anc anc' -> grown n n' ->
  matchesSelector anc n sel = true -> matchesSelector anc' n' sel = true.
Proof.
  intros Hanc Hn. unfold matchesSelector. destruct (rev sel) as [|c rest];
    [discriminate|].
  intros H. apply andb_true_iff in H. destruct H as [H1 H2].
  rewrite (matchesCompound_grown n n' c Hn H1).
  now rewrite (matchesAncestors_grown anc anc' Hanc rest H2).
Qed.

Lemma selectFrom_element (sel : selector) (anc : list node) (u : nat) (t : string)
    (c : list string) (a : list (string * string)) (k : list node) :
  selectFrom sel anc (Element u t c a k)
  = (if matchesSelector anc (Element u t c a k) sel then [Element u t c a k] else [])
    ++ flat_map (selectFrom sel (Element u t c a k :: anc)) k.
Proof. reflexivity. Qed.

(** What is selected is an element of the tree. *)
Lemma selectFrom_elements (sel : selector) (b n : node) :
  forall anc, In b (selectFrom sel anc n) -> In b (elements n).
Proof.
  induction n as [d|d|u t c a k IH] using node_nested_ind; intros anc H;
    try contradiction.
  rewrite selectFrom_element in H. rewrite elements_element.
  apply in_app_or in H. destruct H as [H|H].
  - destruct (matchesSelector anc (Element u t c a k) sel); [|contradiction].
    destruct H as [<-|[]]. now left.
  - right. apply in_flat_map in H. destruct H as (x & Hx & H).
    apply in_flat_map. exists x. split; [exact Hx|].
    rewrite Forall_forall in IH. exact (IH x Hx _ H).
Qed.

(** Selection in a tree whose ancestors have grown. *)
Lemma selectFrom_ancestors (sel : selector) (b n : node) :
  forall anc anc', Forall2 grown anc anc' ->
                   In b (selectFrom sel anc n) -> In b (selectFrom sel anc' n).
Proof.
  induction n as [d|d|u t c a k IH] using node_nested_ind; intros anc anc' Hanc H;
    try contradiction.
  rewrite selectFrom_element in *.
  apply in_app_or in H. apply in_or_app. destruct H as [H|H].
  - left. destruct (matchesSelector anc (Element u t c a k) sel) eqn:E;
      [|contradiction].
    now rewrite (matchesSelector_grown anc anc' _ _ sel Hanc (grown_refl _) E).
  - right. apply in_flat_map in H. destruct H as (x & Hx & H).
    apply in_flat_map. exists x. split; [exact Hx|].
    rewrite Forall_forall in IH.
    apply (IH x Hx (Element u t c a k :: anc)); [|exact H].
    constructor; [apply grown_refl | exact Hanc].
Qed.

Lemma selectFrom_plain (sel : selector) (anc : list node) (k : list node) :
  forallb (fun c => negb (isElement c)) k = true ->
  flat_map (selectFrom sel anc) k = [].
Proof.
  induction k as [|x k IH]; simpl; [reflexivity|].
  intros H. apply andb_true_iff in H. destruct H as [Hx Hk].
  rewrite (IH Hk). destruct x; try reflexivity. discriminate.
Qed.

(** A selected element that holds text only is still selected after an
    update at another identity that adds classes, appends children, or
    replaces the children of elements that held text only. *)
Lemma selectFrom_updateNode (sel : selector) (b : node) (w : nat)
    (f : node -> node) (n : node) :
  textOnly b = true ->
  hasUid w b = false ->
  (forall X, hasUid w X = true -> grown X (f X)) ->
  (forall X, In X (elements n) -> hasUid w X = true ->
             (exists extra, childrenOf (f X) = childrenOf X ++ extra)
             \/ textOnly X = true) ->
  forall anc anc', Forall2 grown anc anc' ->
                   In b (selectFrom sel anc n) ->
                   In b (selectFrom sel anc' (updateNode w f n)).
Proof.
  intros Hplain Hbw Hgrow.
  induction n as [d|d|u t c a k IH] using node_nested_ind;
    intros Hkids anc anc' Hanc H; try contradiction.
  set (n := Element u t c a k) in *.
  destruct (hasUid w n) eqn:Hw.
  - rewrite (updateNode_hit w f n Hw).
    pose proof (Hgrow n Hw) as Hg.
    unfold n in H. rewrite selectFrom_element in H. fold n in H.
    apply in_app_or in H. destruct H as [H|H].
    + destruct (matchesSelector anc n sel); [|contradiction].
      destruct H as [<-|[]]. congruence.
    + destruct (Hkids n (or_introl eq_refl) Hw) as [(extra & E) | Hn].
      * destruct (f n) as [d|d|u' t' c' a' k'] eqn:Ef.
        -- destruct Hg as (He & _). discriminate.
        -- destruct Hg as (He & _). discriminate.
        -- rewrite selectFrom_element. apply in_or_app. right.
           simpl in E. subst k'. rewrite flat_map_app. apply in_or_app. left.
           apply in_flat_map in H. destruct H as (x & Hx & H).
           apply in_flat_map. exists x. split; [exact Hx|].
           apply (selectFrom_ancestors sel b x (n :: anc)); [|exact H].
           constructor; [exact Hg | exact Hanc].
      * unfold textOnly in Hn. simpl in Hn.
        rewrite (selectFrom_plain sel (n :: anc) k Hn) in H. contradiction.
  - assert (E : updateNode w f n = Element u t c a (map (updateNode w f) k)).
    { unfold n in *. simpl in *. now rewrite Hw. }
    assert (Hg : grown n (Element u t c a (map (updateNode w f) k))).
    { unfold grown, n. simpl. auto. }
    rewrite E. unfold n in H. rewrite selectFrom_element in *. fold n in H.
    apply in_app_or in H. apply in_or_app. destruct H as [H|H].
    + left. destruct (matchesSelector anc n sel) eqn:Em; [|contradiction].
      destruct H as [<-|[]].
      assert (Eb : Element u t c a (map (updateNode w f) k) = n).
      { rewrite <- E. now apply updateNode_plain. }
      rewrite Eb.
      rewrite (matchesSelector_grown anc anc' n n sel Hanc (grown_refl _) Em).
      now left.
    + right. apply in_flat_map in H. destruct H as (x & Hx & H).
      rewrite flat_map_concat_map, map_map, <- flat_map_concat_map.
      apply in_flat_map. exists x. split; [exact Hx|].
      rewrite Forall_forall in IH.
      apply (IH x Hx) with (anc := n :: anc); [| |exact H].
      * intros X HX HXw. apply Hkids; [|exact HXw].
        unfold n. rewrite elements_element. right.
        apply in_flat_map. now exists x.
      * constructor; [exact Hg | exact Hanc].
Qed.

End SelectionFacts.

(** ** The elements of a page under an update *)

Section PageFacts.
Import Dom.

Lemma elements_cons (n : node) :
  isElement n = true -> elements n = n :: flat_map elements (childrenOf n).
Proof. destruct n; try discriminate. reflexivity. Qed.

Lemma pageElements_trans (pg : page) (X m : node) :
  In X (pageElements pg) -> In m (elements X) -> In m (pageElements pg).
Proof.
  unfold pageElements. intros HX Hm.
  apply in_flat_map in HX. destruct HX as (r & Hr & HX).
  apply in_flat_map. exists r. split; [exact Hr|].
  exact (elements_trans r X m HX Hm).
Qed.

Lemma getNode_elements (pg : page) (v : nat) (m : node) :
  getNode pg v = Some m -> In m (pageElements pg) /\ uidOf m = Some v.
Proof.
  unfold getNode. intros H. apply firstSome_some in H.
  destruct H as (r & Hr & H). apply findNode_elements in H.
  destruct H as [Hin Hu]. split; [|now apply hasUid_uidOf].
  unfold pageElements. apply in_flat_map. now exists r.
Qed.

Lemma parentElement_spec (pg : page) (w : nat) (p : node) :
  parentElement pg w = Some p ->
  In p (pageElements pg) /\ existsb (hasUid w) (childrenOf p) = true.
Proof.
  unfold parentElement. intros H. apply firstSome_some in H.
  destruct H as (r & Hr & H). apply findParent_spec in H.
  destruct H as [Hin Hc]. split; [|exact Hc].
  unfold pageElements. apply in_flat_map. now exists r.
Qed.

(** An element that holds text only is nobody's parent. *)
Lemma textOnly_no_child (w : nat) (p : node) :
  textOnly p = true -> existsb (hasUid w) (childrenOf p) = false.
Proof.
  unfold textOnly. induction (childrenOf p) as [|x k IH]; simpl; [reflexivity|].
  intros H. apply andb_true_iff in H. destruct H as [Hx Hk].
  rewrite (IH Hk). destruct x; try reflexivity. discriminate.
Qed.

Lemma plain_no_elements (k : list node) :
  forallb (fun c => negb (isElement c)) k = true -> flat_map elements k = [].
Proof.
  induction k as [|x k IH]; simpl; [reflexivity|].
  intros H. apply andb_true_iff in H. destruct H as [Hx Hk].
  rewrite (IH Hk). destruct x; try reflexivity. discriminate.
Qed.

(** The identities that [relabel] hands out are fresh. *)
Lemma relabel_fresh (n : node) :
  forall next m, In m (elements (fst (relabel next n))) ->
                 exists x, uidOf m = Some x /\ next <= x.
Proof.
  induction n as [d|d|u t c a k IH] using node_nested_ind; intros next m H;
    try contradiction.
  rewrite relabel_element in H. simpl fst in H. rewrite elements_element in H.
  destruct H as [<-|H]; [exists next; split; [reflexivity | lia]|].
  assert (Hl : forall nx, In m (flat_map elements (fst (relabelList nx k))) ->
                          exists x, uidOf m = Some x /\ nx <= x).
  { clear H. induction IH as [|y l Hy _ IHl]; intros nx H; [contradiction|].
    simpl in H. pose proof (relabel_grows y nx) as Hg.
    specialize (Hy nx m). destruct (relabel nx y) as [y' n1]. simpl in Hy, Hg.
    specialize (IHl n1). destruct (relabelList n1 l) as [r' n2]. simpl in IHl, H.
    apply in_app_or in H. destruct H as [H|H].
    - exact (Hy H).
    - destruct (IHl H) as (x & Hx & Hle). exists x. split; [exact Hx | lia]. }
  destruct (Hl (S next) H) as (x & Hx & Hle). exists x. split; [exact Hx | lia].
Qed.

Lemma relabelList_fresh (l : list node) :
  forall next m, In m (flat_map elements (fst (relabelList next l))) ->
                 exists x, uidOf m = Some x /\ next <= x.
Proof.
  induction l as [|y l IH]; intros next m H; [contradiction|].
  simpl in H. pose proof (relabel_grows y next) as Hg.
  pose proof (relabel_fresh y next m) as Hy.
  destruct (relabel next y) as [y' n1]. simpl in Hy, Hg.
  specialize (IH n1 m). destruct (relabelList n1 l) as [r' n2]. simpl in IH, H.
  apply in_app_or in H. destruct H as [H|H].
  - exact (Hy H).
  - destruct (IH H) as (x & Hx & Hle). exists x. split; [exact Hx | lia].
Qed.

End PageFacts.

Section PageUpdate.
Import Dom.

Variables (pg pg' : page) (w : nat) (f : node -> node) (extra : list node).

Hypothesis Hdoc : document pg' = updateNode w f (document pg).
Hypothesis Hdet : detached pg' = map (updateNode w f) (detached pg) ++ extra.
(** What the update makes of an element is the same element with, at
    most, more classes and other children. *)
Hypothesis Hgrow : forall X, hasUid w X = true -> grown X (f X) /\ hasUid w (f X) = true.

(** Where an element of the updated page comes from. *)
Lemma pageElements_update (m' : node) :
  In m' (pageElements pg') ->
  (exists m, In m (pageElements pg) /\ hasUid w m = false /\ m' = updateNode w f m)
  \/ (exists X, In X (pageElements pg) /\ hasUid w X = true
                /\ (m' = f X \/ In m' (flat_map elements (childrenOf (f X)))))
  \/ In m' (flat_map elements extra).
Proof.
  unfold pageElements at 1. rewrite Hdoc, Hdet. intros H.
  assert (Hroot : forall r, In r (document pg :: detached pg) ->
            In m' (elements (updateNode w f r)) ->
            (exists m, In m (pageElements pg) /\ hasUid w m = false
                       /\ m' = updateNode w f m)
            \/ (exists X, In X (pageElements pg) /\ hasUid w X = true
                          /\ (m' = f X \/ In m' (flat_map elements (childrenOf (f X)))))).
  { intros r Hr Hin.
    assert (Hsub : forall m, In m (elements r) -> In m (pageElements pg)).
    { intros m Hm. unfold pageElements. apply in_flat_map. now exists r. }
    destruct (elements_updateNode w f r m' Hin)
      as [(m & Hm & Hmw & E) | (X & HX & HXw & Hm)].
    - left. exists m. repeat split; auto.
    - right. exists X. split; [now apply Hsub|]. split; [exact HXw|].
      destruct (Hgrow X HXw) as [(He & _) _].
      assert (HeX : isElement X = true) by (destruct X; try discriminate; reflexivity).
      rewrite elements_cons in Hm by congruence.
      destruct Hm as [<-|Hm]; [now left | now right]. }
  simpl in H. apply in_app_or in H. destruct H as [H|H].
  - destruct (Hroot (document pg) (or_introl eq_refl) H) as [G|G]; auto.
  - rewrite flat_map_app in H. apply in_app_or in H. destruct H as [H|H].
    + apply in_flat_map in H. destruct H as (r' & Hr' & H).
      apply in_map_iff in Hr'. destruct Hr' as (r & <- & Hr).
      destruct (Hroot r (or_intror Hr) H) as [G|G]; auto.
    + right. right. exact H.
Qed.

(** The elements under an updated element were on the page before or are
    new, as were the elements of the subtrees set aside. *)
Hypothesis Hkids : forall X m,
  In X (pageElements pg) -> hasUid w X = true ->
  In m (flat_map elements (childrenOf (f X))) ->
  In m (pageElements pg) \/ exists x, uidOf m = Some x /\ nextUid pg <= x.
Hypothesis Hextra : forall m, In m (flat_map elements extra) -> In m (pageElements pg).

(** An identity that belongs to one text-only element, other than the one
    updated, belongs to it still. *)
Lemma update_keeps_denotes (v : nat) (Y : node) :
  uidOf Y = Some v -> textOnly Y = true -> v <> w -> v < nextUid pg ->
  denotes pg v Y -> denotes pg' v Y.
Proof.
  intros HY Hplain Hvw Hlt Hden m' Hm' Hu.
  destruct (pageElements_update m' Hm')
    as [(m & Hm & Hmw & E) | [(X & HX & HXw & [E|Hin]) | Hin]].
  - subst m'. destruct (updateNode_head w f m Hmw) as (Eu & _).
    rewrite Eu in Hu. rewrite (Hden m Hm Hu).
    apply updateNode_plain; [|exact Hplain].
    rewrite (uidOf_hasUid Y v HY). now apply Nat.eqb_neq.
  - subst m'. destruct (Hgrow X HXw) as [_ Hw'].
    apply hasUid_uidOf in Hw'. congruence.
  - destruct (Hkids X m' HX HXw Hin) as [Hold | (x & Hx & Hle)].
    + now apply Hden.
    + rewrite Hu in Hx. injection Hx as <-. lia.
  - apply Hden; [now apply Hextra | exact Hu].
Qed.

(** A class that every element of an identity bears, every element of that
    identity bears still. *)
Lemma update_keeps_class (v : nat) (c : string) :
  v < nextUid pg ->
  (forall m, In m (pageElements pg) -> uidOf m = Some v ->
             contains (classesOf m) c = true) ->
  forall m', In m' (pageElements pg') -> uidOf m' = Some v ->
             contains (classesOf m') c = true.
Proof.
  intros Hlt Hall m' Hm' Hu.
  destruct (pageElements_update m' Hm')
    as [(m & Hm & Hmw & E) | [(X & HX & HXw & [E|Hin]) | Hin]].
  - subst m'. destruct (updateNode_head w f m Hmw) as (Eu & _ & _ & Ec & _).
    rewrite Eu in Hu. rewrite Ec. now apply Hall.
  - subst m'. destruct (Hgrow X HXw) as [(_ & _ & _ & Hc) Hw'].
    apply Hc. apply Hall; [exact HX|].
    apply hasUid_uidOf in Hw', HXw. congruence.
  - destruct (Hkids X m' HX HXw Hin) as [Hold | (x & Hx & Hle)].
    + now apply Hall.
    + rewrite Hu in Hx. injection Hx as <-. lia.
  - apply Hall; [now apply Hextra | exact Hu].
Qed.

(** A selected text-only element, other than the one updated, is selected
    still. *)
Lemma update_keeps_selected (sel : selector) (b : node) :
  textOnly b = true -> hasUid w b = false ->
  (forall X, In X (pageElements pg) -> hasUid w X = true ->
             (exists more, childrenOf (f X) = childrenOf X ++ more)
             \/ textOnly X = true) ->
  In b (querySelectorAll (document pg) sel) ->
  In b (querySelectorAll (document pg') sel).
Proof.
  intros Hplain Hbw Hshape H. unfold querySelectorAll in *. rewrite Hdoc.
  apply (selectFrom_updateNode sel b w f (document pg) Hplain Hbw) with (anc := []);
    [| |constructor|exact H].
  - intros X HX. exact (proj1 (Hgrow X HX)).
  - intros X HX HXw. apply Hshape; [|exact HXw].
    unfold pageElements. apply in_flat_map. exists (document pg).
    split; [now left | exact HX].
Qed.

End PageUpdate.

(** ** A blank code block over a pass *)

Section PassFacts.
Import Dom Control SyntaxHighlighter.

Variable Grammar : Type.
Variable prism : option (PrismLib Grammar).
Variable parseHTML : string -> list node.

(** The selector of the pass, and a selected block [b], of identity [u],
    that holds text only. *)
Variable sel : selector.
Variable b : node.
Variable u : nat.
Hypothesis Hb_uid : uidOf b = Some u.
Hypothesis Hb_plain : textOnly b = true.
Hypothesis Hb_blank : Js.allWhiteSpace (textContent b) = true.

Lemma withChildren_grown (g : list node -> list node) (w : nat) (X : node) :
  hasUid w X = true ->
  grown X (withChildren g X) /\ hasUid w (withChildren g X) = true.
Proof. destruct X; try discriminate. unfold grown. simpl. auto. Qed.

Lemma withClasses_grown (c : string) (w : nat) (X : node) :
  hasUid w X = true ->
  grown X (withClasses (fun cl => classAdd cl c) X)
  /\ hasUid w (withClasses (fun cl => classAdd cl c) X) = true.
Proof.
  destruct X as [d|d|x t cl a k]; try discriminate. unfold grown. simpl.
  intros H. repeat split; auto. intros c' Hc'. now apply contains_classAdd_more.
Qed.

(** The block, when its identity is looked up. *)
Lemma inPlace_getNode (pg : page) : inPlace sel b u pg -> getNode pg u = Some b.
Proof.
  intros (_ & Hden & Hsel).
  pose proof (selectFrom_elements sel b (document pg) [] Hsel) as Hin.
  assert (Hu : hasUid u b = true)
    by (rewrite (uidOf_hasUid b u Hb_uid); apply Nat.eqb_refl).
  destruct (findNode u (document pg)) as [m|] eqn:E.
  - destruct (findNode_elements u (document pg) m E) as [Hm Hmu].
    unfold getNode. simpl. rewrite E. f_equal. apply Hden.
    + unfold pageElements. apply in_flat_map. exists (document pg).
      split; [now left | exact Hm].
    + now apply hasUid_uidOf.
  - exfalso. exact (findNode_found u (document pg) b Hin Hu E).
Qed.

(** [el.innerHTML = html] on a text-only block other than [b]. *)
Lemma setInnerHTML_carries (pg : page) (w : nat) (html : string) (X0 : node) :
  getNode pg w = Some X0 -> textOnly X0 = true -> denotes pg w X0 -> u <> w ->
  inPlace sel b u pg ->
  inPlace sel b u (setInnerHTML parseHTML pg w html)
  /\ (forall v, v <> w -> asExpected pg v -> asExpected (setInnerHTML parseHTML pg w html) v)
  /\ nextUid pg <= nextUid (setInnerHTML parseHTML pg w html).
Proof.
  intros Hget HX0 Hden Huw (Hlt & Hb & Hsel).
  unfold setInnerHTML. rewrite Hget.
  pose proof (relabelList_grows (parseHTML html) (nextUid pg)) as Hgrows.
  pose proof (relabelList_fresh (parseHTML html) (nextUid pg)) as Hfresh.
  destruct (relabelList (nextUid pg) (parseHTML html)) as [kids next'].
  simpl in Hgrows, Hfresh.
  set (f := withChildren (fun _ : list node => kids)).
  set (pg1 := {| document := document (updatePage pg w f);
                 detached := detached (updatePage pg w f)
                             ++ filter isElement (childrenOf X0);
                 nextUid := next' |}).
  assert (Hdoc : document pg1 = updateNode w f (document pg)) by reflexivity.
  assert (Hdet : detached pg1 = map (updateNode w f) (detached pg)
                                ++ filter isElement (childrenOf X0)) by reflexivity.
  assert (Hgrow : forall X, hasUid w X = true ->
                            grown X (f X) /\ hasUid w (f X) = true)
    by (intros X HX; now apply withChildren_grown).
  assert (Hkids : forall X m, In X (pageElements pg) -> hasUid w X = true ->
            In m (flat_map elements (childrenOf (f X))) ->
            In m (pageElements pg) \/ exists x, uidOf m = Some x /\ nextUid pg <= x).
  { intros X m _ HXw Hm. right. apply Hfresh.
    destruct X; try discriminate. exact Hm. }
  assert (Hextra : forall m, In m (flat_map elements (filter isElement (childrenOf X0))) ->
                             In m (pageElements pg)).
  { intros m Hm. unfold textOnly in HX0.
    assert (E : filter isElement (childrenOf X0) = []).
    { clear -HX0. induction (childrenOf X0) as [|x k IH]; [reflexivity|].
      simpl in *. apply andb_true_iff in HX0. destruct HX0 as [Hx Hk].
      destruct (isElement x); [discriminate | now apply IH]. }
    rewrite E in Hm. contradiction. }
  assert (Hshape : forall X, In X (pageElements pg) -> hasUid w X = true ->
            (exists more, childrenOf (f X) = childrenOf X ++ more)
            \/ textOnly X = true).
  { intros X HX HXw. right. rewrite (Hden X HX (hasUid_uidOf X w HXw)). exact HX0. }
  assert (Hbw : hasUid w b = false).
  { rewrite (uidOf_hasUid b u Hb_uid). now apply Nat.eqb_neq. }
  split; [|split].
  - split; [simpl; lia|]. split.
    + exact (update_keeps_denotes pg pg1 w f _ Hdoc Hdet Hgrow Hkids Hextra
               u b Hb_uid Hb_plain Huw Hlt Hb).
    + exact (update_keeps_selected pg pg1 w f Hdoc Hgrow sel b Hb_plain Hbw
               Hshape Hsel).
  - intros v Hvw (Hv & [Hm | (Y & HY & HYp & HYd)]).
    + split; [simpl; lia|]. left.
      exact (update_keeps_class pg pg1 w f _ Hdoc Hdet Hgrow Hkids Hextra
               v PROCESSED Hv Hm).
    + split; [simpl; lia|]. right. exists Y. repeat split; auto.
      exact (update_keeps_denotes pg pg1 w f _ Hdoc Hdet Hgrow Hkids Hextra
               v Y HY HYp Hvw Hv HYd).
  - simpl. exact Hgrows.
Qed.


(** [el.classList.add(c)] on another block. *)
Lemma addClass_carries (pg : page) (w : nat) (c : string) :
  u <> w ->
  inPlace sel b u pg ->
  inPlace sel b u (addClass pg w c)
  /\ (forall v, v <> w -> asExpected pg v -> asExpected (addClass pg w c) v).
Proof.
  intros Huw (Hlt & Hb & Hsel).
  set (f := withClasses (fun cl => classAdd cl c)).
  set (pg1 := addClass pg w c).
  assert (Hdoc : document pg1 = updateNode w f (document pg)) by reflexivity.
  assert (Hdet : detached pg1 = map (updateNode w f) (detached pg) ++ [])
    by (simpl; now rewrite app_nil_r).
  assert (Hgrow : forall X, hasUid w X = true ->
                            grown X (f X) /\ hasUid w (f X) = true)
    by (intros X HX; now apply withClasses_grown).
  assert (Hkids : forall X m, In X (pageElements pg) -> hasUid w X = true ->
            In m (flat_map elements (childrenOf (f X))) ->
            In m (pageElements pg) \/ exists x, uidOf m = Some x /\ nextUid pg <= x).
  { intros X m HX HXw Hm. left. apply (pageElements_trans pg X m HX).
    apply elements_children. destruct X; try discriminate. exact Hm. }
  assert (Hextra : forall m, In m (flat_map elements (@nil node)) ->
                             In m (pageElements pg)) by (intros m []).
  assert (Hshape : forall X, In X (pageElements pg) -> hasUid w X = true ->
            (exists more, childrenOf (f X) = childrenOf X ++ more)
            \/ textOnly X = true).
  { intros X _ HXw. left. exists []. destruct X; try discriminate.
    simpl. now rewrite app_nil_r. }
  assert (Hbw : hasUid w b = false).
  { rewrite (uidOf_hasUid b u Hb_uid). now apply Nat.eqb_neq. }
  split.
  - split; [exact Hlt|]. split.
    + exact (update_keeps_denotes pg pg1 w f _ Hdoc Hdet Hgrow Hkids Hextra
               u b Hb_uid Hb_plain Huw Hlt Hb).
    + exact (update_keeps_selected pg pg1 w f Hdoc Hgrow sel b Hb_plain Hbw
               Hshape Hsel).
  - intros v Hvw (Hv & [Hm | (Y & HY & HYp & HYd)]).
    + split; [exact Hv|]. left.
      exact (update_keeps_class pg pg1 w f _ Hdoc Hdet Hgrow Hkids Hextra
               v PROCESSED Hv Hm).
    + split; [exact Hv|]. right. exists Y. repeat split; auto.
      exact (update_keeps_denotes pg pg1 w f _ Hdoc Hdet Hgrow Hkids Hextra
               v Y HY HYp Hvw Hv HYd).
Qed.

(** After its children were replaced and the marker added, every element
    of the block's identity bears the marker. *)
Lemma highlighted_allMarked (pg : page) (w : nat) (html : string) (X0 : node) :
  getNode pg w = Some X0 -> textOnly X0 = true -> denotes pg w X0 ->
  w < nextUid pg ->
  allMarked (addClass (setInnerHTML parseHTML pg w html) w PROCESSED) w.
Proof.
  intros Hget HX0 Hden Hlt.
  assert (Hnokids : forall X,
            In X (pageElements (setInnerHTML parseHTML pg w html)) ->
            hasUid w X = true ->
            forall m, In m (flat_map elements (childrenOf X)) ->
                      uidOf m <> Some w).
  { unfold setInnerHTML. rewrite Hget.
    pose proof (relabelList_fresh (parseHTML html) (nextUid pg)) as Hfresh.
    destruct (relabelList (nextUid pg) (parseHTML html)) as [kids next'].
    simpl in Hfresh.
    set (f := withChildren (fun _ : list node => kids)).
    set (pg1 := {| document := document (updatePage pg w f);
                   detached := detached (updatePage pg w f)
                               ++ filter isElement (childrenOf X0);
                   nextUid := next' |}).
    assert (Hdoc : document pg1 = updateNode w f (document pg)) by reflexivity.
    assert (Hdet : detached pg1 = map (updateNode w f) (detached pg)
                                  ++ filter isElement (childrenOf X0)) by reflexivity.
    assert (Hgrow : forall X, hasUid w X = true ->
                              grown X (f X) /\ hasUid w (f X) = true)
      by (intros X HX; now apply withChildren_grown).
    assert (Hnew : forall m, In m (flat_map elements kids) -> uidOf m <> Some w).
    { intros m Hm E. destruct (Hfresh m Hm) as (x & Hx & Hle).
      rewrite E in Hx. injection Hx as <-. lia. }
    intros X HX HXw m Hm.
    destruct (pageElements_update pg pg1 w f _ Hdoc Hdet Hgrow X HX)
      as [(m0 & Hm0 & Hm0w & E) | [(X' & HX' & HX'w & [E|Hin]) | Hin]].
    - subst X. destruct (updateNode_head w f m0 Hm0w) as (Eu & _).
      apply hasUid_uidOf in HXw. rewrite Eu in HXw.
      rewrite (uidOf_hasUid m0 w HXw), Nat.eqb_refl in Hm0w. discriminate.
    - subst X. apply Hnew. destruct X'; try discriminate. exact Hm.
    - exfalso. apply (Hnew X); [|now apply hasUid_uidOf].
      destruct X'; try discriminate. exact Hin.
    - exfalso. unfold textOnly in HX0.
      assert (E : filter isElement (childrenOf X0) = []).
      { clear -HX0. induction (childrenOf X0) as [|x k IH]; [reflexivity|].
        simpl in *. apply andb_true_iff in HX0. destruct HX0 as [Hx Hk].
        destruct (isElement x); [discriminate | now apply IH]. }
      rewrite E in Hin. contradiction. }
  set (pg1 := setInnerHTML parseHTML pg w html) in *.
  set (f := withClasses (fun cl => classAdd cl PROCESSED)).
  assert (Hdoc : document (addClass pg1 w PROCESSED) = updateNode w f (document pg1))
    by reflexivity.
  assert (Hdet : detached (addClass pg1 w PROCESSED)
                 = map (updateNode w f) (detached pg1) ++ [])
    by (simpl; now rewrite app_nil_r).
  assert (Hgrow : forall X, hasUid w X = true ->
                            grown X (f X) /\ hasUid w (f X) = true)
    by (intros X HX; now apply withClasses_grown).
  intros m' Hm' Hu.
  destruct (pageElements_update pg1 _ w f _ Hdoc Hdet Hgrow m' Hm')
    as [(m0 & Hm0 & Hm0w & E) | [(X & HX & HXw & [E|Hin]) | []]].
  - subst m'. destruct (updateNode_head w f m0 Hm0w) as (Eu & _).
    rewrite Eu in Hu. rewrite (uidOf_hasUid m0 w Hu), Nat.eqb_refl in Hm0w.
    discriminate.
  - subst m'. destruct X; try discriminate. simpl. apply contains_classAdd.
  - exfalso. apply (Hnokids X HX HXw m'); [|exact Hu].
    destruct X; try discriminate. exact Hin.
Qed.

(** [parent.appendChild(child)] for a new element that holds text only, on
    the parent of some block. *)
Lemma appendChild_carries (pg : page) (w0 pu : nat) (parent : node)
    (t : string) (c : list string) (a : list (string * string)) (k : list node) :
  parentElement pg w0 = Some parent -> uidOf parent = Some pu ->
  forallb (fun x => negb (isElement x)) k = true ->
  let child := Element (nextUid pg) t c a k in
  let pg' := {| document := document (appendChild pg pu child);
                detached := detached (appendChild pg pu child);
                nextUid := S (nextUid pg) |} in
  inPlace sel b u pg ->
  inPlace sel b u pg' /\ (forall v, asExpected pg v -> asExpected pg' v).
Proof.
  intros Hparent Hpu Hk child pg' (Hlt & Hb & Hsel).
  destruct (parentElement_spec pg w0 parent Hparent) as [Hpin Hpchild].
  set (f := withChildren (fun l => l ++ [child])).
  assert (Hdoc : document pg' = updateNode pu f (document pg)) by reflexivity.
  assert (Hdet : detached pg' = map (updateNode pu f) (detached pg) ++ [])
    by (simpl; now rewrite app_nil_r).
  assert (Hgrow : forall X, hasUid pu X = true ->
                            grown X (f X) /\ hasUid pu (f X) = true)
    by (intros X HX; now apply withChildren_grown).
  assert (Hkids : forall X m, In X (pageElements pg) -> hasUid pu X = true ->
            In m (flat_map elements (childrenOf (f X))) ->
            In m (pageElements pg) \/ exists x, uidOf m = Some x /\ nextUid pg <= x).
  { intros X m HX HXw Hm. destruct X as [d|d|x tx cx ax kx]; try discriminate.
    simpl in Hm. rewrite flat_map_app in Hm. apply in_app_or in Hm.
    destruct Hm as [Hm|Hm].
    - left. apply (pageElements_trans pg _ m HX). rewrite elements_element. now right.
    - right. simpl in Hm. rewrite (plain_no_elements k Hk) in Hm.
      destruct Hm as [<-|[]]. exists (nextUid pg). split; [reflexivity | lia]. }
  assert (Hextra : forall m, In m (flat_map elements (@nil node)) ->
                             In m (pageElements pg)) by (intros m []).
  assert (Hshape : forall X, In X (pageElements pg) -> hasUid pu X = true ->
            (exists more, childrenOf (f X) = childrenOf X ++ more)
            \/ textOnly X = true).
  { intros X _ HXw. left. exists [child]. destruct X; try discriminate. reflexivity. }
  (* an identity that belongs to a text-only element is not the parent's *)
  assert (Hnot : forall v Y, uidOf Y = Some v -> textOnly Y = true ->
                             denotes pg v Y -> v <> pu).
  { intros v Y HY HYp HYd ->. rewrite (HYd parent Hpin Hpu) in Hpchild.
    rewrite (textOnly_no_child w0 Y HYp) in Hpchild. discriminate. }
  assert (Hupu : u <> pu) by exact (Hnot u b Hb_uid Hb_plain Hb).
  assert (Hbw : hasUid pu b = false).
  { rewrite (uidOf_hasUid b u Hb_uid). now apply Nat.eqb_neq. }
  split.
  - split; [simpl; lia|]. split.
    + exact (update_keeps_denotes pg pg' pu f _ Hdoc Hdet Hgrow Hkids Hextra
               u b Hb_uid Hb_plain Hupu Hlt Hb).
    + exact (update_keeps_selected pg pg' pu f Hdoc Hgrow sel b Hb_plain Hbw
               Hshape Hsel).
  - intros v (Hv & [Hm | (Y & HY & HYp & HYd)]).
    + split; [simpl; lia|]. left.
      exact (update_keeps_class pg pg' pu f _ Hdoc Hdet Hgrow Hkids Hextra
               v PROCESSED Hv Hm).
    + split; [simpl; lia|]. right. exists Y. repeat split; auto.
      exact (update_keeps_denotes pg pg' pu f _ Hdoc Hdet Hgrow Hkids Hextra
               v Y HY HYp (Hnot v Y HY HYp HYd) Hv HYd).
Qed.

Lemma addLanguageIndicator_carries (pg : page) (w : nat) (language : string) :
  inPlace sel b u pg ->
  inPlace sel b u (caught (addLanguageIndicator pg w language))
  /\ (forall v, asExpected pg v ->
                asExpected (caught (addLanguageIndicator pg w language)) v).
Proof.
  intros H. unfold addLanguageIndicator.
  destruct (String.eqb language "text"); [now split|].
  destruct (parentElement pg w) as [parent|] eqn:Hp; [|now split].
  destruct (String.eqb (tagNameOf parent) "PRE"); [|now split].
  destruct (uidOf parent) as [pu|] eqn:Hpu; [|now split].
  cbv zeta. unfold caught.
  apply (appendChild_carries pg w pu parent "DIV" ["code-language-indicator"] []
           (textChildren language) Hp Hpu); [|exact H].
  now destruct language.
Qed.

Lemma addCopyButton_carries (pg : page) (w : nat) :
  inPlace sel b u pg ->
  inPlace sel b u (caught (addCopyButton pg w))
  /\ (forall v, asExpected pg v -> asExpected (caught (addCopyButton pg w)) v).
Proof.
  intros H. unfold addCopyButton.
  destruct (parentElement pg w) as [parent|] eqn:Hp; [|now split].
  destruct (String.eqb (tagNameOf parent) "PRE"); [|now split].
  destruct (elementQuerySelector parent [SelClass "code-copy-button"]);
    [now split|].
  destruct (uidOf parent) as [pu|] eqn:Hpu; [|now split].
  cbv zeta. unfold caught.
  apply (appendChild_carries pg w pu parent "BUTTON" ["code-copy-button"] []
           [Text "Copy"] Hp Hpu); [reflexivity | exact H].
Qed.

(** One turn of the loop: whatever the callback does for the block [w],
    [b] stays in place and the blocks still to come stay as expected. *)
Lemma processCodeBlock_carries (pg : page) (count w : nat) (later : list nat) :
  inPlace sel b u pg ->
  asExpected pg w ->
  Forall (asExpected pg) later ->
  inPlace sel b u (fst (caught (processCodeBlock Grammar prism parseHTML (pg, count) w)))
  /\ Forall (asExpected
               (fst (caught (processCodeBlock Grammar prism parseHTML (pg, count) w))))
       later.
Proof.
  intros Hb Hw Hlater.
  destruct (Nat.eq_dec u w) as [<-|Huw].
  { rewrite (blank_block_state Grammar prism parseHTML pg count u b
               (inPlace_getNode pg Hb) Hb_blank). now split. }
  unfold processCodeBlock.
  destruct (getNode pg w) as [X0|] eqn:Hget; [|now split].
  destruct (contains (classesOf X0) PROCESSED) eqn:Hmark; [now split|].
  destruct (determineLanguage pg w X0) as [language|]; [|now split].
  destruct prism as [Prism|]; [|now split].
  destruct (negb (Js.truthy (Js.trim (textContent X0)))); [now split|].
  cbv zeta.
  destruct (highlight Prism (textContent X0) _ language) as [html|]; [|now split].
  destruct (getNode_elements pg w X0 Hget) as [HX0in HX0u].
  destruct Hw as (Hwlt & [Hm | (Y & HY & HYp & HYd)]).
  { rewrite (Hm X0 HX0in HX0u) in Hmark. discriminate. }
  assert (E : X0 = Y) by exact (HYd X0 HX0in HX0u). subst Y.
  destruct (setInnerHTML_carries pg w html X0 Hget HYp HYd Huw Hb)
    as (Hb1 & Hr1 & Hn1).
  set (pg1 := setInnerHTML parseHTML pg w html) in *.
  destruct (addClass_carries pg1 w PROCESSED Huw Hb1) as (Hb2 & Hr2).
  pose proof (highlighted_allMarked pg w html X0 Hget HYp HYd Hwlt) as Hm2.
  fold pg1 in Hm2.
  set (pg2 := addClass pg1 w PROCESSED) in *.
  assert (Hall2 : Forall (asExpected pg2) later).
  { rewrite Forall_forall in *. intros v Hv.
    destruct (Nat.eq_dec v w) as [->|Hvw].
    - split; [|now left]. unfold pg2, addClass, updatePage. simpl.
      fold pg1. lia.
    - apply Hr2; [exact Hvw|]. apply Hr1; [exact Hvw|]. now apply Hlater. }
  destruct (addLanguageIndicator_carries pg2 w language Hb2) as (Hb3 & Hr3).
  destruct (addLanguageIndicator pg2 w language) as [pg3|pg3]; simpl caught in *.
  - destruct (addCopyButton_carries pg3 w Hb3) as (Hb4 & Hr4).
    simpl fst. split; [exact Hb4|].
    rewrite Forall_forall in *. intros v Hv. apply Hr4, Hr3, Hall2, Hv.
  - simpl fst. split; [exact Hb3|].
    rewrite Forall_forall in *. intros v Hv. apply Hr3, Hall2, Hv.
Qed.

(** The whole loop. *)
Lemma forEach_carries (us : list nat) :
  forall pg count,
    inPlace sel b u pg ->
    Forall (asExpected pg) us ->
    inPlace sel b u
      (fst (caught (forEach (processCodeBlock Grammar prism parseHTML) us (pg, count)))).
Proof.
  induction us as [|w us IH]; intros pg count Hb Hall; [exact Hb|].
  inversion Hall as [|? ? Hw Hus]; subst.
  destruct (processCodeBlock_carries pg count w us Hb Hw Hus) as [Hb' Hus'].
  cbn [forEach].
  destruct (processCodeBlock Grammar prism parseHTML (pg, count) w) as [[pg' c']|[pg' c']];
    simpl in Hb', Hus'.
  - now apply IH.
  - exact Hb'.
Qed.

End PassFacts.




(** ** Stored sessions *)

Section StorageFacts.
Import Chrome Storage Background.

Lemma filter_twice {A : Type} (p : A -> bool) (l : list A) :
  filter p (filter p l) = filter p l.
Proof.
  induction l as [|x l IH]; simpl; [reflexivity|].
  destruct (p x) eqn:E; simpl; [now rewrite E, IH | exact IH].
Qed.

Lemma filter_none {A : Type} (p : A -> bool) (l : list A) :
  (forall x, In x l -> p x = false) -> filter p l = [].
Proof.
  induction l as [|x l IH]; intros H; simpl; [reflexivity|].
  rewrite (H x (or_introl eq_refl)). apply IH. intros y Hy. apply H. now right.
Qed.

Lemma filter_through {A : Type} (p q : A -> bool) (l : list A) :
  (forall x, q x = false -> p x = false) ->
  filter p (filter q l) = filter p l.
Proof.
  intros H. induction l as [|x l IH]; simpl; [reflexivity|].
  destruct (q x) eqn:E; simpl.
  - now rewrite IH.
  - now rewrite (H x E).
Qed.

(** [cleanupOldSessions] does nothing, or writes the pruned list. *)
Lemma cleanupOldSessions_cases (parseDate : string -> option Z)
    (daysBefore : Z -> nat -> Z) (now : Z) (st : store) :
  cleanupOldSessions parseDate daysBefore now st = st
  \/ exists s sr,
       settings st = Some s
       /\ sessionRecording s = Some sr
       /\ autoDelete sr = true
       /\ cleanupOldSessions parseDate daysBefore now st
          = {| settings := settings st;
               stored :=
                 {| sessions :=
                      Some (filter
                              (retained parseDate (daysBefore now (retentionDays sr)))
                              (getSessions (stored st))) |};
               clipboardSnippets := clipboardSnippets st;
               alarms := alarms st |}.
Proof.
  unfold cleanupOldSessions.
  destruct (settings st) as [s|] eqn:Hs; [|now left].
  destruct (sessionRecording s) as [sr|] eqn:Hsr; [|now left].
  destruct (autoDelete sr) eqn:Ha; [|now left].
  right. exists s, sr. rewrite Hsr, Ha. auto.
Qed.

End StorageFacts.

(** X10.  [deleteSession] always resolves to [true] and removes exactly the
    sessions with the given id: none with that id is left, every selection
    of sessions that holds none with that id is the same list before and
    after (the others are kept, duplicates and order included), and
    deleting the same id again changes nothing. *)
Theorem deleteSession_removes_that_id_only :
  forall (sessionId : nat) (st : Storage.local),
    let st' := fst (Storage.deleteSession sessionId st) in
    snd (Storage.deleteSession sessionId st) = true
    /\ Storage.countId sessionId (Storage.getSessions st') = 0
    /\ (forall select : Storage.Session -> bool,
          (forall s, Storage.id s = sessionId -> select s = false) ->
          filter select (Storage.getSessions st')
          = filter select (Storage.getSessions st))
    /\ fst (Storage.deleteSession sessionId st') = st'.
Proof.
  intros sessionId st st'.
  assert (E : Storage.getSessions st'
              = filter (fun s => negb (Storage.id s =? sessionId))
                  (Storage.getSessions st)) by reflexivity.
  split; [reflexivity|]. split; [|split].
  - rewrite E. unfold Storage.countId. rewrite filter_none; [reflexivity|].
    intros x Hx. apply filter_In in Hx. destruct Hx as [_ Hx].
    now destruct (Storage.id x =? sessionId).
  - intros select Hsel. rewrite E. apply filter_through. intros x Hx.
    apply Hsel. apply Nat.eqb_eq. now destruct (Storage.id x =? sessionId).
  - unfold Storage.deleteSession at 1. cbv zeta. simpl fst.
    rewrite E, filter_twice. reflexivity.
Qed.

(** X11.  [cleanupOldSessions] only ever prunes the stored sessions: the
    settings, the clipboard snippets and the alarms are as they were, no
    session is added, and running it again at the same clock reading
    changes nothing more. *)
Theorem cleanupOldSessions_prunes_only :
  forall (parseDate : string -> option Z) (daysBefore : Z -> nat -> Z)
         (now : Z) (st : Background.store),
    let st' := Background.cleanupOldSessions parseDate daysBefore now st in
    Background.settings st' = Background.settings st
    /\ Background.clipboardSnippets st' = Background.clipboardSnippets st
    /\ Background.alarms st' = Background.alarms st
    /\ (forall s, In s (Storage.getSessions (Background.stored st')) ->
                  In s (Storage.getSessions (Background.stored st)))
    /\ Background.cleanupOldSessions parseDate daysBefore now st' = st'.
Proof.
  intros parseDate daysBefore now st st'. subst st'.
  destruct (cleanupOldSessions_cases parseDate daysBefore now st)
    as [E | (s & sr & Hs & Hsr & Ha & E)]; rewrite E.
  - repeat split; auto.
  - simpl. repeat split; auto.
    + intros x Hx. unfold Storage.getSessions at 1 in Hx. simpl in Hx.
      apply filter_In in Hx. tauto.
    + unfold Background.cleanupOldSessions. simpl. rewrite Hs, Hsr, Ha.
      unfold Storage.getSessions at 1. simpl. now rewrite filter_twice.
Qed.

(** X12.  When the stored settings ask for automatic deletion, a cleanup at
    the clock reading [now] keeps exactly the sessions whose timestamp
    parses to a date not before the cutoff, [retentionDays] days before
    [now]; a session whose timestamp is not a date is deleted, since a
    comparison with an invalid date is false. *)
Theorem cleanup_keeps_recent_parseable_sessions :
  forall (parseDate : string -> option Z) (daysBefore : Z -> nat -> Z)
         (now : Z) (st : Background.store) (s : Chrome.Settings)
         (sr : Chrome.SessionRecording) (x : Storage.Session),
    Background.settings st = Some s ->
    Chrome.sessionRecording s = Some sr ->
    Chrome.autoDelete sr = true ->
    (In x (Storage.getSessions
             (Background.stored
                (Background.cleanupOldSessions parseDate daysBefore now st)))
     <-> In x (Storage.getSessions (Background.stored st))
         /\ exists t, parseDate (Storage.timestamp x) = Some t
                      /\ (daysBefore now (Chrome.retentionDays sr) <= t)%Z).
Proof.
  intros parseDate daysBefore now st s sr x Hs Hsr Ha.
  unfold Background.cleanupOldSessions. rewrite Hs, Hsr, Ha. cbv zeta.
  unfold Storage.getSessions at 1. simpl. rewrite filter_In.
  unfold Background.retained.
  destruct (parseDate (Storage.timestamp x)) as [t|].
  - rewrite Z.geb_le. split.
    + intros [H1 H2]. split; [exact H1|]. now exists t.
    + intros [H1 (t' & E & H2)]. injection E as <-. now split.
  - split.
    + intros [_ H]. discriminate.
    + intros [_ (t' & E & _)]. discriminate.
Qed.

(** On 25 January 2024 the session of 20 January stays; the session of
    1 January and the one with no date go. *)
Lemma cleanup_keeps_recent_parseable_sessions_witness :
  Background.settings sampleStore = Some Background.defaultSettings
  /\ Chrome.sessionRecording Background.defaultSettings
     = Some {| Chrome.enabled := false; Chrome.autoDelete := true;
               Chrome.retentionDays := 7 |}
  /\ (In (Storage.mkSession 3 [] "yesterday")
         (Storage.getSessions
            (Background.stored
               (Background.cleanupOldSessions sampleParseDate sampleDaysBefore
                  1706140800000%Z sampleStore)))
      <-> In (Storage.mkSession 3 [] "yesterday")
            (Storage.getSessions (Background.stored sampleStore))
          /\ exists t, sampleParseDate "yesterday" = Some t
                       /\ (sampleDaysBefore 1706140800000%Z 7 <= t)%Z).
Proof.
  split; [reflexivity|]. split; [reflexivity|].
  apply (cleanup_keeps_recent_parseable_sessions sampleParseDate sampleDaysBefore
           1706140800000%Z sampleStore Background.defaultSettings
           {| Chrome.enabled := false; Chrome.autoDelete := true;
              Chrome.retentionDays := 7 |}
           (Storage.mkSession 3 [] "yesterday"));
    reflexivity.
Defined.


(** ** The orchestrator *)

(** X14.  The DOM observer and the message listener are installed
    together, at most once each, and exactly when the run reaches the end
    of the [try] block: a platform was detected, the settings answered carry
    a [sessionRecording] record, and the consent check, if recording is
    enabled, did not reject.  When [GET_SETTINGS] is not answered at all,
    the theme manager is the only feature initialised. *)
Theorem observer_installed_iff_run_completes :
  forall (detected : option string) (response : option Chrome.Settings)
         (consent : SessionRecorder.settled bool),
    let run := Content.initializeExtension detected response consent in
    let completes :=
      match detected with
      | None => false
      | Some platform =>
          Js.truthy platform
          && match Chrome.sessionRecording (Chrome.getSettings response) with
             | None => false
             | Some sr =>
                 negb (Chrome.enabled sr)
                 || match consent with
                    | SessionRecorder.Resolved _ => true
                    | SessionRecorder.Rejected => false
                    end
             end
      end in
    Content.calls Content.isObserve run = (if completes then 1 else 0)
    /\ Content.calls Content.isListener run = (if completes then 1 else 0)
    /\ forall platform,
         Content.initializeExtension (Some platform) None consent
         = if Js.truthy platform
           then [Content.InitThemeManager platform None] else [].
Proof.
  intros detected response consent run completes. subst run completes.
  split; [|split].
  - destruct detected as [platform|]; [|reflexivity].
    unfold Content.initializeExtension, Content.startSessionRecorder, Content.calls.
    destruct (Js.truthy platform); [|reflexivity]. simpl.
    destruct (Chrome.flag (Chrome.syntaxHighlighting (Chrome.getSettings response)));
      destruct (Chrome.flag (Chrome.clipboardEnabled (Chrome.getSettings response)));
      destruct (Chrome.flag (Chrome.commandBarEnabled (Chrome.getSettings response)));
      destruct (Chrome.sessionRecording (Chrome.getSettings response)) as [sr|];
      try reflexivity;
      destruct (Chrome.enabled sr); try reflexivity;
      destruct consent as [[|]|]; reflexivity.
  - destruct detected as [platform|]; [|reflexivity].
    unfold Content.initializeExtension, Content.startSessionRecorder, Content.calls.
    destruct (Js.truthy platform); [|reflexivity]. simpl.
    destruct (Chrome.flag (Chrome.syntaxHighlighting (Chrome.getSettings response)));
      destruct (Chrome.flag (Chrome.clipboardEnabled (Chrome.getSettings response)));
      destruct (Chrome.flag (Chrome.commandBarEnabled (Chrome.getSettings response)));
      destruct (Chrome.sessionRecording (Chrome.getSettings response)) as [sr|];
      try reflexivity;
      destruct (Chrome.enabled sr); try reflexivity;
      destruct consent as [[|]|]; reflexivity.
  - intros platform. unfold Content.initializeExtension.
    destruct (Js.truthy platform); reflexivity.
Qed.

(** X15.  The first run after installation.  With the settings that
    [onInstalled] stores, [initializeExtension] initialises the
    highlighter, the clipboard manager, the theme manager with the light
    theme and the command bar, in that order, then installs the DOM
    observer and the message listener; the consent collaborator is not
    asked and the session recorder is not initialised, whatever consent
    would have answered. *)
Theorem first_run_after_install :
  forall (st : Background.store) (platform : string)
         (consent : SessionRecorder.settled bool),
    Content.initializeExtension (Some platform)
      (Background.settings (Background.onInstalled st)) consent
    = if Js.truthy platform
      then [ Content.InitSyntaxHighlighter platform false;
             Content.InitClipboardManager platform;
             Content.InitThemeManager platform (Some "light");
             Content.InitCommandBar platform;
             Content.ObserveDOMChanges platform;
             Content.AddMessageListener ]
      else [].
Proof.
  intros st platform consent. unfold Content.initializeExtension.
  destruct (Js.truthy platform); reflexivity.
Qed.

(** ** The recorder over any run *)

Section RecorderInvariant.
Import Dom Control Chrome DomUtils SessionRecorder.

Variable innerHTML : node -> string.
Variable toISOString : nat -> string.

(** A property of the buffer, the messages sent and the number of dates
    read, closed under what the module does to them. *)
Variable I : list RecordedMessage -> list RuntimeMessage -> nat -> Prop.

Hypothesis I_push : forall rs ob d r c,
  I rs ob d -> Js.truthy r = true -> Js.truthy c = true ->
  I (rs ++ [ {| role := r; content := c; timestamp := toISOString d |} ]) ob (S d).
Hypothesis I_reset : forall rs ob d, I rs ob d -> I [] ob d.
Hypothesis I_inject : forall rs ob d,
  I rs ob d -> I rs (ob ++ [INJECT_POPUP_SCRIPT]) d.
Hypothesis I_save : forall rs ob d,
  I rs ob d -> rs <> [] -> I rs (ob ++ [SAVE_SESSION rs true]) d.

Local Abbreviation holds st :=
  (I (recordedSession st) (outbox st) (dateReads st)) (only parsing).

Lemma holds_core (st st' : state) :
  recordedSession st' = recordedSession st ->
  outbox st' = outbox st ->
  dateReads st' = dateReads st ->
  holds st -> holds st'.
Proof. now intros -> -> ->. Qed.

Lemma pushMessage_holds (r c : option string) (st : state) :
  holds st -> holds (pushMessage toISOString r c st).
Proof.
  intros H. unfold pushMessage.
  destruct r as [r|]; [|exact H]. destruct c as [c|]; [|exact H].
  destruct (Js.truthy r) eqn:Hr; [|exact H].
  destruct (Js.truthy c) eqn:Hc; [|exact H].
  simpl. now apply I_push.
Qed.

Lemma captureMessage_holds (platform : string) (st : state) (m : node) :
  holds st -> holds (caught (captureMessage innerHTML toISOString platform st m)).
Proof.
  intros H. unfold captureMessage.
  destruct (String.eqb platform "chatgpt").
  - destruct (elementQuerySelector m [SelClass "markdown"]); cbn [caught];
      [now apply pushMessage_holds | exact H].
  - destruct (String.eqb platform "mistral"); [|exact H].
    destruct (elementQuerySelector m [SelClass "message-content"]); cbn [caught];
      [now apply pushMessage_holds | exact H].
Qed.

Lemma forEach_holds {A : Type} (f : state -> A -> outcome state) (l : list A) :
  (forall s x, holds s -> holds (caught (f s x))) ->
  forall s, holds s -> holds (caught (forEach f l s)).
Proof.
  intros Hf. induction l as [|x l IH]; intros s Hs; simpl; [exact Hs|].
  specialize (Hf s x Hs). destruct (f s x) as [s'|s']; simpl in Hf.
  - now apply IH.
  - exact Hf.
Qed.

Lemma fold_left_holds {A : Type} (f : state -> A -> state) (l : list A) :
  (forall s x, holds s -> holds (f s x)) ->
  forall s, holds s -> holds (fold_left f l s).
Proof.
  intros Hf. induction l as [|x l IH]; intros s Hs; simpl; [exact Hs|].
  apply IH. now apply Hf.
Qed.

Lemma recordAddedNode_holds (platform : string) (st : state) (n : node) :
  holds st -> holds (recordAddedNode innerHTML toISOString platform st n).
Proof.
  intros H. unfold recordAddedNode.
  destruct (isMessageNode platform n); [|exact H].
  destruct (String.eqb platform "chatgpt"); [now apply pushMessage_holds|].
  destruct (String.eqb platform "mistral"); [now apply pushMessage_holds | exact H].
Qed.

Lemma messageObserver_holds (platform : string) (mutations : list MutationRecord)
    (st : state) :
  holds st -> holds (messageObserver innerHTML toISOString platform mutations st).
Proof.
  intros H. unfold messageObserver.
  destruct (negb (isRecording st)); [exact H|].
  apply fold_left_holds; [|exact H].
  intros s m Hs.
  destruct (isChildList m && (0 <? List.length (addedNodes m))); [|exact Hs].
  apply fold_left_holds; [|exact Hs].
  intros s' n Hs'. now apply recordAddedNode_holds.
Qed.

Lemma pageAppendChild_holds (parent : nat) (child : node) (st : state) :
  holds st -> holds (pageAppendChild innerHTML toISOString parent child st).
Proof.
  intros H. unfold pageAppendChild.
  apply fold_left_holds; [|exact H].
  intros s o Hs.
  destruct (inSubtree (page st) (snd o) parent); [|exact Hs].
  now apply messageObserver_holds.
Qed.

Lemma saveSession_holds (response : option Response) (st : state) :
  holds st -> holds (saveSession response st).
Proof.
  intros H. unfold saveSession.
  destruct (List.length (recordedSession st) =? 0) eqn:E; [exact H|].
  assert (H1 : holds (send st (SAVE_SESSION (recordedSession st) true))).
  { simpl. apply I_save; [exact H|].
    intros Hnil. rewrite Hnil in E. discriminate. }
  destruct response as [r|]; [|exact H1].
  destruct (success r); [|exact H1].
  destruct (showSaveConfirmation_core
              (send st (SAVE_SESSION (recordedSession st) true)))
    as (_ & Hr & Ho & _ & Hd).
  exact (holds_core _ _ Hr Ho Hd H1).
Qed.

Lemma updateControls_holds (button : nat) (recording : bool) (st : state) :
  holds st -> holds (caught (updateControls button recording st)).
Proof.
  destruct (updateControls_core button recording st) as (_ & Hr & Ho & _ & Hd).
  exact (holds_core _ _ Hr Ho Hd).
Qed.

Lemma toggleRecording_holds (platform : string) (selectors : Selectors)
    (button : nat) (checkConsent : ConsentManager) (response : option Response)
    (st : state) :
  holds st ->
  holds (toggleRecording innerHTML toISOString platform selectors button
           checkConsent response st).
Proof.
  intros H. unfold toggleRecording.
  destruct (negb (isRecording st)).
  - destruct (checkConsent true) as [[|]|]; try exact H.
    cbv zeta.
    assert (H1 : holds (setSession (setRecording st true) []))
      by (simpl; eapply I_reset; exact H).
    pose proof (forEach_holds
                  (captureMessage innerHTML toISOString platform)
                  (querySelectorAll
                     (document (page (setSession (setRecording st true) [])))
                     (messages selectors))
                  (captureMessage_holds platform) _ H1) as H2.
    unfold captureExistingMessages.
    destruct (forEach _ _ _) as [st2|st2]; simpl in H2.
    + now apply updateControls_holds.
    + exact H2.
  - cbv zeta. apply updateControls_holds. apply saveSession_holds. exact H.
Qed.

Lemma initSessionRecorder_holds (platform : string) (checkConsent : ConsentManager)
    (st : state) :
  holds st -> holds (initSessionRecorder platform checkConsent st).
Proof.
  intros H. unfold initSessionRecorder.
  destruct (PLATFORM_SELECTORS platform) as [selectors|]; [|exact H].
  destruct (checkConsent false) as [[|]|]; try exact H.
  assert (Hsetup : forall s, holds s ->
                             holds (setupMessageObserver platform selectors s)).
  { intros s Hs. unfold setupMessageObserver.
    destruct (querySelector (document (page s)) (chatContainer selectors))
      as [container|]; [|exact Hs].
    destruct (uidOf container); exact Hs. }
  cbv zeta.
  destruct (querySelector (document (page st)) [[SelClass "recording-controls"]]).
  - now apply Hsetup.
  - unfold createRecordingControls. cbv zeta.
    destruct (match querySelector (document (page st)) (chatContainer selectors) with
              | Some container => Some container
              | None => documentBody (page st)
              end) as [t|]; [|exact H].
    destruct (uidOf t); [|exact H].
    apply Hsetup. simpl. apply I_inject. exact H.
Qed.

Lemma run_holds (events : list event) (st : state) :
  holds st -> holds (run innerHTML toISOString events st).
Proof.
  unfold run. apply fold_left_holds.
  intros s e Hs. destruct e; simpl.
  - now apply initSessionRecorder_holds.
  - now apply toggleRecording_holds.
  - now apply pageAppendChild_holds.
Qed.

End RecorderInvariant.

Section RecorderRuns.
Import Dom Control Chrome DomUtils SessionRecorder.

Lemma forallb_snoc {A : Type} (p : A -> bool) (l : list A) (x : A) :
  forallb p (l ++ [x]) = forallb p l && p x.
Proof. rewrite forallb_app. simpl. now rewrite andb_true_r. Qed.

End RecorderRuns.

(** X16.  Whatever happens to the recorder (initialisations, clicks on the
    toggle button with any consent answer and any background answer, nodes
    added by the page), in any order and number, starting from the module
    as loaded: every message it has sent is the request for the popup
    script or a [SAVE_SESSION] request with [consentGiven: true] whose
    content is not empty, and every entry, sent or still in the buffer, has
    a non-empty role and a non-empty content. *)
Theorem recorder_sends_only_complete_consented_sessions :
  forall (innerHTML : Dom.node -> string) (toISOString : nat -> string)
         (events : list SessionRecorder.event) (pg : Dom.page),
    let st :=
      SessionRecorder.run innerHTML toISOString events (SessionRecorder.initial pg) in
    forallb SessionRecorder.wellFormedRequest (SessionRecorder.outbox st) = true
    /\ forallb SessionRecorder.complete (SessionRecorder.recordedSession st) = true.
Proof.
  intros innerHTML toISOString events pg st. subst st.
  apply (run_holds innerHTML toISOString
           (fun rs ob _ =>
              forallb SessionRecorder.wellFormedRequest ob = true
              /\ forallb SessionRecorder.complete rs = true)).
  - intros rs ob d r c [Ho Hr] Htr Htc. split; [exact Ho|].
    rewrite forallb_snoc, Hr. unfold SessionRecorder.complete. simpl.
    now rewrite Htr, Htc.
  - intros rs ob d [Ho _]. now split.
  - intros rs ob d [Ho Hr]. split; [|exact Hr].
    now rewrite forallb_snoc, Ho.
  - intros rs ob d [Ho Hr] Hne. split; [|exact Hr].
    rewrite forallb_snoc, Ho. simpl. rewrite Hr.
    destruct rs; [congruence | reflexivity].
  - simpl. now split.
Qed.

(** X17.  Every entry is stamped with a date of its own, read when the
    entry is pushed: after any run from the module as loaded, the
    timestamps in the buffer are those of consecutive [new Date()] reads,
    the last entry carrying the latest read. *)
Theorem recorded_timestamps_are_consecutive_reads :
  forall (innerHTML : Dom.node -> string) (toISOString : nat -> string)
         (events : list SessionRecorder.event) (pg : Dom.page),
    let st :=
      SessionRecorder.run innerHTML toISOString events (SessionRecorder.initial pg) in
    let n := List.length (SessionRecorder.recordedSession st) in
    n <= SessionRecorder.dateReads st
    /\ map Chrome.timestamp (SessionRecorder.recordedSession st)
       = map toISOString (seq (SessionRecorder.dateReads st - n) n).
Proof.
  intros innerHTML toISOString events pg st n. subst n st.
  apply (run_holds innerHTML toISOString
           (fun rs _ d =>
              List.length rs <= d
              /\ map Chrome.timestamp rs
                 = map toISOString (seq (d - List.length rs) (List.length rs)))).
  - intros rs ob d r c [Hle Hts] _ _.
    rewrite length_app. simpl List.length. split; [lia|].
    rewrite map_app, Hts. simpl map.
    replace (S d - (List.length rs + 1)) with (d - List.length rs) by lia.
    rewrite Nat.add_1_r, seq_S, map_app. simpl.
    now replace (d - List.length rs + List.length rs) with d by lia.
  - intros rs ob d _. simpl. split; [lia | reflexivity].
  - intros rs ob d H. exact H.
  - intros rs ob d H _. exact H.
  - simpl. split; [lia | reflexivity].
Qed.

(** ** A snapshot that fails *)

Section SnapshotFacts.
Import Dom Control Chrome DomUtils SessionRecorder.

Variable innerHTML : node -> string.
Variable toISOString : nat -> string.

Lemma pushMessage_frame (r c : option string) (st : state) :
  let st' := pushMessage toISOString r c st in
  page st' = page st
  /\ isRecording st' = isRecording st
  /\ outbox st' = outbox st
  /\ List.length (recordedSession st') <= S (List.length (recordedSession st)).
Proof.
  unfold pushMessage.
  destruct r as [r|]; [|simpl; auto]. destruct c as [c|]; [|simpl; auto].
  destruct (Js.truthy r && Js.truthy c); simpl; auto.
  rewrite length_app. simpl. repeat split; lia.
Qed.

(** A snapshot over messages of which one has no [.markdown] element ends
    in the [TypeError] of line 421, with at most the messages before that
    one captured. *)
Lemma snapshot_throws (before after : list node) (m : node) :
  elementQuerySelector m [SelClass "markdown"] = None ->
  forall st, exists st',
    forEach (captureMessage innerHTML toISOString "chatgpt")
      (before ++ m :: after) st = Throw st'
    /\ page st' = page st
    /\ isRecording st' = isRecording st
    /\ outbox st' = outbox st
    /\ List.length (recordedSession st')
       <= List.length (recordedSession st) + List.length before.
Proof.
  intros Hm. induction before as [|x before IH]; intros st; simpl.
  - unfold captureMessage at 1. simpl. rewrite Hm. exists st.
    repeat split; lia.
  - unfold captureMessage at 1. simpl.
    destruct (elementQuerySelector x [SelClass "markdown"]) as [md|].
    + set (st1 := pushMessage toISOString _ _ st).
      destruct (pushMessage_frame
                  (getAttribute (attributesOf x) "data-message-author-role")
                  (Some (innerHTML md)) st) as (Hp & Hr & Ho & Hl).
      fold st1 in Hp, Hr, Ho, Hl.
      destruct (IH st1) as (st' & E & Hp' & Hr' & Ho' & Hl').
      exists st'. rewrite E. repeat split; try congruence. lia.
    + exists st. repeat split; lia.
Qed.

End SnapshotFacts.

(** X18.  Starting a recording on a chatgpt page where some message node
    has no [.markdown] element: the snapshot throws at that node and the
    [catch] of [toggleRecording] ends the call, so the recorder is left
    recording while the page is exactly as before the click (the button
    still reads Start Recording and the indicator Not Recording), nothing
    is sent, and at most the messages before that node are in the
    buffer. *)
Theorem failed_snapshot_leaves_recorder_on :
  forall (innerHTML : Dom.node -> string) (toISOString : nat -> string)
         (selectors : SessionRecorder.Selectors) (button : nat)
         (checkConsent : SessionRecorder.ConsentManager)
         (response : option Chrome.Response) (st : SessionRecorder.state)
         (before after : list Dom.node) (m : Dom.node),
    SessionRecorder.isRecording st = false ->
    checkConsent true = SessionRecorder.Resolved true ->
    Dom.querySelectorAll (Dom.document (SessionRecorder.page st))
      (SessionRecorder.messages selectors) = before ++ m :: after ->
    Dom.elementQuerySelector m [Dom.SelClass "markdown"] = None ->
    let st' :=
      SessionRecorder.toggleRecording innerHTML toISOString "chatgpt" selectors
        button checkConsent response st in
    SessionRecorder.isRecording st' = true
    /\ SessionRecorder.page st' = SessionRecorder.page st
    /\ SessionRecorder.outbox st' = SessionRecorder.outbox st
    /\ List.length (SessionRecorder.recordedSession st') <= List.length before.
Proof.
  intros innerHTML toISOString selectors button checkConsent response st
    before after m Hidle Hconsent Hmsgs Hm st'. subst st'.
  unfold SessionRecorder.toggleRecording. rewrite Hidle, Hconsent. simpl negb.
  cbv iota zeta. unfold SessionRecorder.captureExistingMessages.
  change (SessionRecorder.page
            (SessionRecorder.setSession (SessionRecorder.setRecording st true) []))
    with (SessionRecorder.page st).
  rewrite Hmsgs.
  destruct (snapshot_throws innerHTML toISOString before after m Hm
              (SessionRecorder.setSession (SessionRecorder.setRecording st true) []))
    as (st2 & E & Hp & Hr & Ho & Hl).
  rewrite E. simpl in Hp, Hr, Ho, Hl. repeat split; assumption.
Qed.

(** The second message of [pendingChatPage] is a placeholder. *)
Lemma failed_snapshot_leaves_recorder_on_witness :
  SessionRecorder.isRecording (initialisedOn pendingChatPage) = false
  /\ SessionRecorder.isRecording (clickToggle consenting (initialisedOn pendingChatPage))
     = true
  /\ SessionRecorder.page (clickToggle consenting (initialisedOn pendingChatPage))
     = SessionRecorder.page (initialisedOn pendingChatPage).
Proof.
  split; [reflexivity|].
  pose proof (failed_snapshot_leaves_recorder_on Dom.serializeChildren sampleClock
                SessionRecorder.chatgptSelectors 101 consenting
                (Some {| Chrome.success := true |})
                (initialisedOn pendingChatPage)
                [chatMessage 10 "user" "Hi"]
                [chatMessage 30 "user" "2 < 3?"]
                (Dom.Element 20 "DIV" [] [("data-message-author-role", "assistant")]
                   [Dom.Element 21 "SPAN" ["typing"] [] []])
                eq_refl eq_refl eq_refl eq_refl) as H.
  cbv zeta in H. destruct H as (H1 & H2 & _). split; [exact H1 | exact H2].
Defined.

(** ** The buttons of the command bar *)

Section ButtonFacts.
Import Dom Control Chrome CommandBar CommandExecution.

Lemma command_eta (c : Command) : {| name := name c; text := text c |} = c.
Proof. now destruct c. Qed.

(** The commands and buttons after [initCommandBar] on a supported
    platform. *)
Lemma initCommandBar_bar (platform : string) (selectors : Selectors)
    (response : option Settings) (pg : Dom.page) :
  PLATFORM_SELECTORS platform = Some selectors ->
  let base :=
    match Chrome.commands (getSettings response) with
    | Some cs => cs
    | None => DEFAULT_COMMANDS
    end in
  let st := initCommandBar platform response (initial pg) in
  commands st = base
  /\ exists bar,
       commandBar st = Some bar
       /\ commandButtons bar
          = map (fun c => {| label := name c; commandText := text c;
                             targets := selectors |}) base.
Proof.
  intros Hsel base st. subst st. unfold initCommandBar. rewrite Hsel. cbv zeta.
  match goal with
  | |- context [caught (createCommandBarUI platform selectors ?s)] =>
      destruct (createCommandBarUI_bar platform selectors s) as (Hc & _ & _ & Hb);
      cbv zeta in Hc, Hb; rewrite Hc, Hb
  end.
  subst base. destruct (Chrome.commands (getSettings response)); simpl;
    (split; [reflexivity | eexists; split; reflexivity]).
Qed.

(** The commands and buttons after a sequence of [addCustomCommand]
    calls on a bar that exists. *)
Lemma addCustomCommands_bar (adds : list (Command * option Settings)) :
  forall (st : state) (bar : Bar),
    commandBar st = Some bar ->
    let st' :=
      fold_left (fun s a => addCustomCommand (name (fst a)) (text (fst a)) (snd a) s)
        adds st in
    commands st' = commands st ++ map fst adds
    /\ page st' = page st
    /\ exists bar',
         commandBar st' = Some bar'
         /\ commandButtons bar'
            = commandButtons bar
              ++ map (fun c => {| label := name c; commandText := text c;
                                  targets := chatgptSelectors |}) (map fst adds).
Proof.
  induction adds as [|a adds IH]; intros st bar Hbar; simpl.
  - rewrite !app_nil_r. split; [reflexivity|]. split; [reflexivity|].
    now exists bar.
  - set (st1 := addCustomCommand (name (fst a)) (text (fst a)) (snd a) st).
    assert (H1 : commands st1 = commands st ++ [fst a]
                 /\ page st1 = page st
                 /\ commandBar st1
                    = Some {| display := display bar; bottom := bottom bar;
                              left := left bar;
                              commandButtons :=
                                commandButtons bar
                                ++ [ {| label := name (fst a);
                                        commandText := text (fst a);
                                        targets := chatgptSelectors |} ] |}).
    { subst st1. unfold addCustomCommand. rewrite Hbar. simpl.
      now rewrite command_eta. }
    destruct H1 as (Hc & Hp & Hb).
    destruct (IH st1 _ Hb) as (Hc' & Hp' & bar' & Hb' & Hbs).
    cbv zeta in Hc', Hp'. rewrite Hc', Hp', Hc, Hp, <- app_assoc.
    split; [reflexivity|]. split; [reflexivity|].
    exists bar'. split; [exact Hb'|]. rewrite Hbs. simpl.
    now rewrite <- app_assoc.
Qed.

Lemma nth_error_after {A : Type} (l1 l2 : list A) (i : nat) :
  nth_error (l1 ++ l2) (List.length l1 + i) = nth_error l2 i.
Proof. induction l1 as [|x l1 IH]; simpl; [reflexivity | exact IH]. Qed.

End ButtonFacts.

(** X19.  The buttons of the bar follow the command list.  After
    [initCommandBar] on a supported platform and any sequence of
    [addCustomCommand] calls, the commands are the stored list, if the
    settings answered have one (an empty one included), else the five
    built-in ones, followed by the added ones in order; the bar has one
    button per command, in the same order, with the command's name as label
    and its text as what a click inserts.  The buttons made at
    initialisation aim at the platform's own controls; every button added
    later aims at the chatgpt ones. *)
Theorem command_buttons_follow_commands :
  forall (platform : string) (selectors : CommandBar.Selectors)
         (response : option Chrome.Settings)
         (adds : list (Chrome.Command * option Chrome.Settings)) (pg : Dom.page),
    CommandBar.PLATFORM_SELECTORS platform = Some selectors ->
    let base :=
      match Chrome.commands (Chrome.getSettings response) with
      | Some cs => cs
      | None => CommandBar.DEFAULT_COMMANDS
      end in
    let st :=
      fold_left
        (fun s a =>
           CommandBar.addCustomCommand (Chrome.name (fst a)) (Chrome.text (fst a))
             (snd a) s)
        adds (CommandBar.initCommandBar platform response (CommandBar.initial pg)) in
    CommandBar.commands st = base ++ map fst adds
    /\ exists bar,
         CommandBar.commandBar st = Some bar
         /\ CommandBar.commandButtons bar
            = map (fun c => {| CommandBar.label := Chrome.name c;
                               CommandBar.commandText := Chrome.text c;
                               CommandBar.targets := selectors |}) base
              ++ map (fun c => {| CommandBar.label := Chrome.name c;
                                  CommandBar.commandText := Chrome.text c;
                                  CommandBar.targets := CommandBar.chatgptSelectors |})
                   (map fst adds).
Proof.
  intros platform selectors response adds pg Hsel base st.
  destruct (initCommandBar_bar platform selectors response pg Hsel)
    as (Hc & bar & Hb & Hbs).
  cbv zeta in Hc, Hb, Hbs. fold base in Hc, Hbs.
  destruct (addCustomCommands_bar adds _ bar Hb) as (Hc' & _ & bar' & Hb' & Hbs').
  cbv zeta in Hc'. fold st in Hc', Hb'.
  split; [now rewrite Hc', Hc|].
  exists bar'. split; [exact Hb'|]. now rewrite Hbs', Hbs.
Qed.

Lemma command_buttons_follow_commands_witness :
  CommandBar.PLATFORM_SELECTORS "mistral" = Some CommandBar.mistralSelectors
  /\ CommandBar.commands
       (fold_left
          (fun s a =>
             CommandBar.addCustomCommand (Chrome.name (fst a)) (Chrome.text (fst a))
               (snd a) s)
          [({| Chrome.name := "Foo"; Chrome.text := "Do foo: " |}, None)]
          (CommandBar.initCommandBar "mistral" None (CommandBar.initial mistralPage)))
     = CommandBar.DEFAULT_COMMANDS
       ++ [{| Chrome.name := "Foo"; Chrome.text := "Do foo: " |}].
Proof.
  split; [reflexivity|].
  apply (command_buttons_follow_commands "mistral" CommandBar.mistralSelectors None
           [({| Chrome.name := "Foo"; Chrome.text := "Do foo: " |}, None)]
           mistralPage eq_refl).
Defined.

(** X20.  A custom command works only where the chatgpt controls exist.
    On a page without a [button[data-testid=send-button]] element, such as
    a mistral page, a click on the button of any command added with
    [addCustomCommand] finds no submit button and does nothing: no control
    is written to, focused or notified, and the bar stays as it is. *)
Theorem custom_command_needs_chatgpt_controls :
  forall (layout : nat -> CommandBar.Rect) (innerHeight : Z)
         (platform : string) (selectors : CommandBar.Selectors)
         (response : option Chrome.Settings)
         (adds : list (Chrome.Command * option Chrome.Settings)) (pg : Dom.page)
         (i : nat) (w : CommandExecution.world),
    CommandBar.PLATFORM_SELECTORS platform = Some selectors ->
    let base :=
      match Chrome.commands (Chrome.getSettings response) with
      | Some cs => cs
      | None => CommandBar.DEFAULT_COMMANDS
      end in
    CommandExecution.bar w
    = fold_left
        (fun s a =>
           CommandBar.addCustomCommand (Chrome.name (fst a)) (Chrome.text (fst a))
             (snd a) s)
        adds (CommandBar.initCommandBar platform response (CommandBar.initial pg)) ->
    i < List.length adds ->
    Dom.querySelector (Dom.document (CommandBar.page (CommandExecution.bar w)))
      (CommandBar.submitButton CommandBar.chatgptSelectors) = None ->
    CommandExecution.clickCommandButton layout innerHeight (List.length base + i) w
    = Control.Normal w.
Proof.
  intros layout innerHeight platform selectors response adds pg i w Hsel base
    Hbar Hi Hnone.
  destruct (initCommandBar_bar platform selectors response pg Hsel)
    as (Hc & bar & Hb & Hbs).
  cbv zeta in Hc, Hb, Hbs. fold base in Hc, Hbs.
  destruct (addCustomCommands_bar adds _ bar Hb) as (_ & _ & bar' & Hb' & Hbs').
  cbv zeta in Hb'. rewrite <- Hbar in Hb'.
  unfold CommandExecution.clickCommandButton. rewrite Hb', Hbs', Hbs.
  replace (List.length base)
    with (List.length
            (map (fun c => {| CommandBar.label := Chrome.name c;
                              CommandBar.commandText := Chrome.text c;
                              CommandBar.targets := selectors |}) base))
    by apply length_map.
  rewrite nth_error_after.
  destruct (nth_error (map fst adds) i) as [c|] eqn:Ec.
  - rewrite (map_nth_error _ _ _ Ec).
    unfold CommandExecution.executeCommand. cbv zeta. simpl CommandBar.targets.
    rewrite Hnone.
    now destruct (Dom.querySelector _ (CommandBar.inputArea CommandBar.chatgptSelectors)).
  - apply nth_error_None in Ec. rewrite length_map in Ec. lia.
Qed.

(** The command Foo, added on [mistralPage], is the sixth button. *)
Lemma custom_command_needs_chatgpt_controls_witness :
  CommandExecution.clickCommandButton mistralLayout 800 5
    {| CommandExecution.bar :=
         CommandBar.addCustomCommand "Foo" "Do foo: " None
           (CommandBar.initCommandBar "mistral" None (CommandBar.initial mistralPage));
       CommandExecution.values := [];
       CommandExecution.focused := None;
       CommandExecution.inputEvents := [] |}
  = Control.Normal
      {| CommandExecution.bar :=
           CommandBar.addCustomCommand "Foo" "Do foo: " None
             (CommandBar.initCommandBar "mistral" None (CommandBar.initial mistralPage));
         CommandExecution.values := [];
         CommandExecution.focused := None;
         CommandExecution.inputEvents := [] |}.
Proof.
  apply (custom_command_needs_chatgpt_controls mistralLayout 800 "mistral"
           CommandBar.mistralSelectors None
           [({| Chrome.name := "Foo"; Chrome.text := "Do foo: " |}, None)]
           mistralPage 0
           {| CommandExecution.bar :=
                CommandBar.addCustomCommand "Foo" "Do foo: " None
                  (CommandBar.initCommandBar "mistral" None
                     (CommandBar.initial mistralPage));
              CommandExecution.values := [];
              CommandExecution.focused := None;
              CommandExecution.inputEvents := [] |}
           eq_refl eq_refl (le_n 1) eq_refl).
Defined.

(** X21.  The Add button ignores a blank field: if the name or the text is
    empty or consists only of white space that [trim] strips, Unicode white
    space such as U+00A0 and U+3000 included, no command is added, no
    button is made and nothing is sent. *)
Theorem blank_custom_command_is_ignored :
  forall (nameField textField : string) (response : option Chrome.Settings)
         (st : CommandBar.state),
    Js.allWhiteSpace nameField = true \/ Js.allWhiteSpace textField = true ->
    CommandBar.onAddClicked nameField textField response st = st.
Proof.
  intros nameField textField response st H.
  unfold CommandBar.onAddClicked. cbv zeta. rewrite !trim_empty_iff.
  destruct H as [H|H]; rewrite H; simpl; [reflexivity|].
  now rewrite andb_false_r.
Qed.

(** A text of a space, an ideographic space and a no-break space. *)
Lemma blank_custom_command_is_ignored_witness :
  Js.allWhiteSpace
    (String.append " " (String.append ideographicSpace noBreakSpace)) = true
  /\ CommandBar.onAddClicked "Foo"
       (String.append " " (String.append ideographicSpace noBreakSpace)) None
       (CommandBar.initCommandBar "chatgpt" None (CommandBar.initial blankPage))
     = CommandBar.initCommandBar "chatgpt" None (CommandBar.initial blankPage).
Proof.
  split; [reflexivity|].
  apply (blank_custom_command_is_ignored "Foo"
           (String.append " " (String.append ideographicSpace noBreakSpace)) None
           (CommandBar.initCommandBar "chatgpt" None (CommandBar.initial blankPage))).
  right. reflexivity.
Defined.

(** ** Several observers *)

Section ObserversFacts.
Import Dom Control Chrome DomUtils SessionRecorder.

Variable innerHTML : node -> string.
Variable toISOString : nat -> string.

(** While recording, each chatgpt observer that is notified of a complete
    message node appends an entry for it. *)
Lemma notified_observers_append (watching : nat -> nat -> bool) (parent : nat)
    (child : node) (role content : string) (l : list (string * nat)) :
  messageWith innerHTML child role content ->
  Forall (fun o => fst o = "chatgpt" /\ watching (snd o) parent = true) l ->
  forall s, isRecording s = true ->
    fold_left
      (fun s o =>
         if watching (snd o) parent
         then messageObserver innerHTML toISOString (fst o)
                [ {| mtype := childList; addedNodes := [child]; removedNodes := [] |} ] s
         else s)
      l s
    = appendedAll toISOString s (repeat (role, content) (List.length l)).
Proof.
  intros Hm. induction 1 as [|o l [Hp Hw] _ IH]; intros s Hrec; [reflexivity|].
  simpl fold_left. rewrite Hw, Hp.
  assert (E : messageObserver innerHTML toISOString "chatgpt"
                [ {| mtype := childList; addedNodes := [child]; removedNodes := [] |} ] s
              = appended toISOString s role content).
  { unfold messageObserver. rewrite Hrec. simpl.
    pose proof (messageWith_element innerHTML child role content Hm) as He.
    destruct Hm as (Hr & Ht & md & Hmd & Hc & Htc). subst content.
    apply (recordAddedNode_chatgpt innerHTML toISOString s child md role
             He Hr Ht Hmd Htc). }
  rewrite E. rewrite IH by exact Hrec. reflexivity.
Qed.

End ObserversFacts.

(** X22.  Every installed observer records on its own.  While recording,
    when the page adds a complete chatgpt message node under a node that
    all installed observers watch, the buffer gains one entry per observer,
    each with a date of its own: with one observer the message is recorded
    once, and a recorder that was initialised twice, which holds two
    observers on the same container, records it twice. *)
Theorem each_observer_records_the_message :
  forall (innerHTML : Dom.node -> string) (toISOString : nat -> string)
         (st : SessionRecorder.state) (parent : nat) (child : Dom.node)
         (role content : string),
    SessionRecorder.isRecording st = true ->
    Forall (fun o => fst o = "chatgpt"
                     /\ SessionRecorder.inSubtree (SessionRecorder.page st) (snd o)
                          parent = true)
      (SessionRecorder.observers st) ->
    SessionRecorder.messageWith innerHTML child role content ->
    SessionRecorder.recordedSession
      (SessionRecorder.pageAppendChild innerHTML toISOString parent child st)
    = SessionRecorder.recordedSession st
      ++ SessionRecorder.stamped toISOString (SessionRecorder.dateReads st)
           (repeat (role, content) (List.length (SessionRecorder.observers st))).
Proof.
  intros innerHTML toISOString st parent child role content Hrec Hobs Hm.
  unfold SessionRecorder.pageAppendChild. cbv zeta.
  rewrite (notified_observers_append innerHTML toISOString
             (SessionRecorder.inSubtree (SessionRecorder.page st)) parent child
             role content (SessionRecorder.observers st) Hm Hobs)
    by exact Hrec.
  destruct (appendedAll_core toISOString
              (repeat (role, content) (List.length (SessionRecorder.observers st)))
              (SessionRecorder.setPage st
                 (Dom.appendChild (SessionRecorder.page st) parent child)))
    as (_ & H & _).
  exact H.
Qed.

(** The recorder initialised twice on [chatPage], then started: the
    message the page adds is recorded twice. *)
Lemma each_observer_records_the_message_witness :
  let st :=
    clickToggle consenting
      (SessionRecorder.initSessionRecorder "chatgpt" consenting
         (initialisedOn chatPage)) in
  SessionRecorder.observers st = [("chatgpt", 2); ("chatgpt", 2)]
  /\ SessionRecorder.recordedSession
       (SessionRecorder.pageAppendChild Dom.serializeChildren sampleClock 2
          (chatMessage 40 "assistant" "Yes") st)
     = SessionRecorder.recordedSession st
       ++ [ Chrome.mkRecorded "assistant" "<p>Yes</p>" "2024-05-01T10:00:03.000Z";
            Chrome.mkRecorded "assistant" "<p>Yes</p>" "2024-05-01T10:00:04.000Z" ].
Proof.
  intros st. split; [reflexivity|].
  apply (each_observer_records_the_message Dom.serializeChildren sampleClock st 2
           (chatMessage 40 "assistant" "Yes") "assistant" "<p>Yes</p>").
  - reflexivity.
  - repeat constructor.
  - exact (chatMessage_messageWith 40 "assistant" "Yes" eq_refl).
Defined.

(** X23.  Detection and orchestration, composed.  Whatever the page
    address, the document, the settings answered and the consent outcome,
    every call that [initializeExtension] makes with the platform that
    [detectChatbotPlatform] returned carries chatgpt or mistral, the two
    keys of every [PLATFORM_SELECTORS] table: the unsupported-platform
    exits of the feature modules are not reached from the orchestrator. *)
Theorem initialisers_get_supported_platforms :
  forall (url : string) (document : Dom.node) (response : option Chrome.Settings)
         (consent : SessionRecorder.settled bool),
    forallb
      (fun c =>
         match Content.platformOf c with
         | Some platform => ThemeManager.supported platform
         | None => true
         end)
      (Content.initializeExtension
         (DomUtils.detectChatbotPlatform url document) response consent)
    = true.
Proof.
  intros url document response consent.
  destruct (detected_platform url document) as [E|[E|E]]; rewrite E;
    [| |reflexivity];
    unfold Content.initializeExtension, Content.startSessionRecorder; simpl;
    destruct (Chrome.flag (Chrome.syntaxHighlighting (Chrome.getSettings response)));
    destruct (Chrome.flag (Chrome.clipboardEnabled (Chrome.getSettings response)));
    destruct (Chrome.flag (Chrome.commandBarEnabled (Chrome.getSettings response)));
    destruct (Chrome.sessionRecording (Chrome.getSettings response)) as [sr|];
    try reflexivity;
    destruct (Chrome.enabled sr); try reflexivity;
    destruct consent as [[|]|]; reflexivity.
Qed.
